(** * Conjoint analysis backend: a shallow embedding of [conjoint-backend/app.py]
    and [conjoint-backend/estimate_from_survey_cli.py].

    Conventions of the embedding.

    - A Python function that may raise returns [result A]: [Ok a] for a
      returned value, [Raise e] for a raised exception.
    - A Python [dict] is an association list in insertion order ([dict V]).
    - A pandas table is a list of column labels with row-major cells.
    - On the estimation side (design matrix, solver results, diagnostics)
      a Python [float] is a binary64 value of [PrimFloat]: the code only
      stores, compares and tests such values, and the special values NaN and
      infinity are what its guards are about.
    - On the simulation side (utilities, shares, market impact) a Python
      [float] is idealised as a real number of [R]: the properties stated
      there are the algebraic laws of effects coding and of the logit rule,
      which hold in exact arithmetic; rounding is outside the model.
    - External libraries (the statsmodels solver, the wall clock) are
      parameters: section variables or explicit arguments. *)

From Stdlib Require Import List String Ascii ZArith Bool Arith Lia DecimalString.
From Stdlib Require Import PrimFloat.
From Stdlib Require Import Reals Lra.
From Stdlib Require Import Permutation.
Import ListNotations.

Local Open Scope string_scope.
Local Open Scope list_scope.

(* ------------------------------------------------------------------ *)
(** ** Python values, exceptions and dictionaries *)

Module Py.

(** The exceptions the two source files raise or catch. *)
Inductive exn : Type :=
| ValueError (msg : string)
| NameError (name : string)
| IndexError (msg : string)
| KeyError (key : string)
| HTTPException (status : nat) (detail : string).

Inductive result (A : Type) : Type :=
| Ok (a : A)
| Raise (e : exn).
Arguments Ok {A} a.
Arguments Raise {A} e.

Definition bind {A B : Type} (r : result A) (k : A -> result B) : result B :=
  match r with
  | Ok a => k a
  | Raise e => Raise e
  end.

Notation "x <- r ;; k" := (bind r (fun x => k))
  (at level 61, r at next level, right associativity).

(** [try: ... except Exception as e: raise HTTPException(400, prefix + str(e))] *)
Definition exn_str (e : exn) : string :=
  match e with
  | ValueError msg => msg
  | NameError name => "name '" ++ name ++ "' is not defined"
  | IndexError msg => msg
  | KeyError key => "'" ++ key ++ "'"
  | HTTPException status detail =>
      NilZero.string_of_uint (Nat.to_uint status) ++ ": " ++ detail
  end.

Definition rewrap {A : Type} (prefix : string) (r : result A) : result A :=
  match r with
  | Ok a => Ok a
  | Raise e => Raise (HTTPException 400 (prefix ++ exn_str e))
  end.

Definition is_ok {A : Type} (r : result A) : bool :=
  match r with Ok _ => true | Raise _ => false end.

(** Left-to-right loop that stops at the first exception. *)
Fixpoint mapM {A B : Type} (f : A -> result B) (l : list A) : result (list B) :=
  match l with
  | [] => Ok []
  | a :: l' => b <- f a ;; bs <- mapM f l' ;; Ok (b :: bs)
  end.

Definition str_of_nat (n : nat) : string := NilZero.string_of_uint (Nat.to_uint n).
Definition str_of_Z (z : Z) : string := NilZero.string_of_int (Z.to_int z).

(** [x in l] for a list of strings. *)
Definition str_in (x : string) (l : list string) : bool :=
  existsb (String.eqb x) l.

(** A [dict] with string keys, in insertion order. *)
Definition dict (V : Type) : Type := list (string * V).

Fixpoint get {V : Type} (d : dict V) (k : string) : option V :=
  match d with
  | [] => None
  | (k', v) :: d' => if String.eqb k' k then Some v else get d' k
  end.

Definition keys {V : Type} (d : dict V) : list string := map fst d.

(** [d[k] = v]: overwrite in place, or append a new key. *)
Fixpoint set {V : Type} (d : dict V) (k : string) (v : V) : dict V :=
  match d with
  | [] => [(k, v)]
  | (k', v') :: d' =>
      if String.eqb k' k then (k', v) :: d' else (k', v') :: set d' k v
  end.

Definition get_default {V : Type} (d : dict V) (k : string) (dflt : V) : V :=
  match get d k with Some v => v | None => dflt end.

(** A cell of a pandas table read from a workbook: missing, a whole number
    or text. (Numbers with a fractional part, whose [str] is the shortest
    decimal that reads back as the same binary64 value, are not modelled.) *)
Inductive cell : Type :=
| CNaN
| CInt (z : Z)
| CStr (s : string).

(** [str(value)], as [Series.astype(str)] applies it cell by cell. *)
Definition cell_str (c : cell) : string :=
  match c with
  | CNaN => "nan"
  | CInt z => str_of_Z z
  | CStr s => s
  end.

Definition isna (c : cell) : bool :=
  match c with CNaN => true | _ => false end.

Record DataFrame : Type := {
  df_columns : list string;
  df_rows : list (list cell)
}.

Fixpoint index_of (c : string) (cols : list string) : option nat :=
  match cols with
  | [] => None
  | c' :: cols' =>
      if String.eqb c' c then Some 0
      else option_map S (index_of c cols')
  end.

(** [row.get(col, default)] for a row of a table with columns [cols]. *)
Definition row_get (cols : list string) (row : list cell) (c : string) (dflt : cell) : cell :=
  match index_of c cols with
  | Some i => nth i row CNaN
  | None => dflt
  end.

(** [df[name]]: the column as a list of cells, one per row. *)
Definition column (df : DataFrame) (name : string) : list cell :=
  map (fun row => row_get (df_columns df) row name CNaN) (df_rows df).

Lemma str_in_In (x : string) (l : list string) : str_in x l = true <-> In x l.
Proof.
  unfold str_in. rewrite existsb_exists. split.
  - intros [y [Hy E]]. apply String.eqb_eq in E. now subst.
  - intros H. exists x. split; [exact H | apply String.eqb_refl].
Qed.

Lemma str_in_not_In (x : string) (l : list string) : str_in x l = false <-> ~ In x l.
Proof.
  rewrite <- str_in_In. destruct (str_in x l); split; intros; congruence.
Qed.

Lemma get_Some_in_keys {V : Type} (d : dict V) (k : string) (v : V) :
  get d k = Some v -> In k (keys d).
Proof.
  induction d as [|[k' v'] d IH]; simpl; [discriminate|].
  destruct (String.eqb k' k) eqn:E.
  - apply String.eqb_eq in E. now left.
  - intros H. right. now apply IH.
Qed.

Lemma in_keys_get {V : Type} (d : dict V) (k : string) :
  In k (keys d) -> exists v, get d k = Some v.
Proof.
  induction d as [|[k' v'] d IH]; simpl; [tauto|].
  intros [E | H].
  - subst. rewrite String.eqb_refl. now exists v'.
  - destruct (String.eqb k' k); [now exists v' | now apply IH].
Qed.

End Py.

Import Py.

(* ------------------------------------------------------------------ *)
(** ** Design matrix builder: [effect_code] and [build_design_matrix] *)

Module DesignMatrix.

(** An attribute definition, the dictionaries with keys [name], [levels],
    [reference] and [label] that the schema functions produce. *)
Record AttributeDef : Type := {
  attr_name : string;
  attr_levels : list string;
  attr_reference : option string;
  attr_label : option string
}.

(** A numeric table: column labels and row-major binary64 entries. *)
Record Frame : Type := {
  f_columns : list string;
  f_rows : list (list float)
}.

(** One row of [out.loc[mask, label] = v]: every column carrying [label]. *)
Definition set_label (cols : list string) (label : string) (v : float)
  (row : list float) : list float :=
  map (fun cx : string * float => if String.eqb (fst cx) label then v else snd cx)
      (combine cols row).

(** [out.loc[mask, label] = v] *)
Definition loc_set_col (out : Frame) (mask : list bool) (label : string) (v : float) : Frame :=
  {| f_columns := f_columns out;
     f_rows := map (fun mr : bool * list float =>
                     if fst mr then set_label (f_columns out) label v (snd mr)
                              else snd mr)
                   (combine mask (f_rows out)) |}.

(** [out.loc[mask, :] = v] *)
Definition loc_set_rows (out : Frame) (mask : list bool) (v : float) : Frame :=
  {| f_columns := f_columns out;
     f_rows := map (fun mr : bool * list float =>
                     if fst mr then map (fun _ => v) (snd mr) else snd mr)
                   (combine mask (f_rows out)) |}.

(** [levels[-1]] *)
Definition last_level (levels : list string) : result string :=
  match levels with
  | [] => Raise (IndexError "list index out of range")
  | l :: ls => Ok (last ls l)
  end.

Definition col_label (name c : string) : string := name ++ "__" ++ c.

(** [effect_code(series, levels, reference)]; [name] is [series.name] and
    [series] holds the cells after [astype(str)]. *)
Definition effect_code (name : string) (series : list string) (levels : list string)
  (reference : option string) : result Frame :=
  reference <- match reference with
               | None => last_level levels
               | Some r => Ok r
               end ;;
  let series := map (fun v => if str_in v levels then v else reference) series in
  let cats := filter (fun lvl => negb (String.eqb lvl reference)) levels in
  let out := {| f_columns := map (col_label name) cats;
                f_rows := map (fun _ => map (fun _ => 0%float) cats) series |} in
  let out := fold_left
               (fun out c => loc_set_col out (map (fun v => String.eqb v c) series)
                                         (col_label name c) 1%float)
               cats out in
  let ref_mask := map (fun v => String.eqb v reference) series in
  Ok (loc_set_rows out ref_mask (-1)%float).

(** The body of the loop of [build_design_matrix], for one attribute. *)
Definition design_block (df : DataFrame) (attr : AttributeDef) : result Frame :=
  let name := attr_name attr in
  let levels := attr_levels attr in
  let ref := attr_reference attr in
  if str_in name (df_columns df)
  then effect_code name (map cell_str (column df name)) levels ref
  else Raise (ValueError ("Attribute column missing in data: " ++ name)).

(** The loop of [build_design_matrix]: one effects-coded block per attribute. *)
Definition design_blocks (df : DataFrame) (attributes : list AttributeDef)
  : result (list Frame) :=
  mapM (design_block df) attributes.

(** [pd.concat(X_parts, axis=1)] over blocks with the same row index. *)
Fixpoint zip_rows (a b : list (list float)) : list (list float) :=
  match a, b with
  | ra :: a', rb :: b' => (ra ++ rb) :: zip_rows a' b'
  | _, _ => []
  end.

Definition pd_concat (parts : list Frame) : result Frame :=
  match parts with
  | [] => Raise (ValueError "No objects to concatenate")
  | p :: ps =>
      Ok (fold_left (fun acc q => {| f_columns := f_columns acc ++ f_columns q;
                                     f_rows := zip_rows (f_rows acc) (f_rows q) |})
                    ps p)
  end.

(** [sm.add_constant(X, has_constant="add")]: a leading column [const] of ones. *)
Definition add_constant (X : Frame) : Frame :=
  {| f_columns := "const" :: f_columns X;
     f_rows := map (fun row => 1%float :: row) (f_rows X) |}.

Definition build_design_matrix (df : DataFrame) (attributes : list AttributeDef)
  : result Frame :=
  X_parts <- design_blocks df attributes ;;
  X <- pd_concat X_parts ;;
  Ok (add_constant X).

(** The two shapes a row of an effects-coded block may have. *)
Definition one_hot (row : list float) : Prop :=
  exists pre post,
    row = pre ++ 1%float :: post /\
    Forall (fun x => x = 0%float) pre /\ Forall (fun x => x = 0%float) post.

Definition all_minus_one (row : list float) : Prop :=
  Forall (fun x => x = (-1)%float) row.

(** The row that effects coding gives an observation whose value, once
    values outside the level list are replaced by the reference, is [v]. *)
Definition coded_row (reference : string) (cats : list string) (v : string) : list float :=
  if String.eqb v reference then map (fun _ => (-1)%float) cats
  else map (fun c => if String.eqb c v then 1%float else 0%float) cats.

Definition resolve_reference (levels : list string) (reference : option string)
  : result string :=
  match reference with
  | None => last_level levels
  | Some r => Ok r
  end.

Definition coerce (levels : list string) (reference v : string) : string :=
  if str_in v levels then v else reference.

Definition non_reference (levels : list string) (reference : string) : list string :=
  filter (fun lvl => negb (String.eqb lvl reference)) levels.

(** What the specification asks of an attribute definition: at least two
    levels, no level twice, and a reference, when set, among the levels. *)
Definition well_formed (attr : AttributeDef) : Prop :=
  2 <= List.length (attr_levels attr) /\
  NoDup (attr_levels attr) /\
  match attr_reference attr with
  | Some r => In r (attr_levels attr)
  | None => True
  end.

Definition block_ok (df : DataFrame) (attr : AttributeDef) (block : Frame) : Prop :=
  let series := map cell_str (column df (attr_name attr)) in
  List.length (f_rows block) = List.length series /\
  forall i v row,
    nth_error series i = Some v ->
    nth_error (f_rows block) i = Some row ->
    List.length row = List.length (attr_levels attr) - 1 /\
    (one_hot row \/ all_minus_one row) /\
    (str_in v (attr_levels attr) = false -> all_minus_one row).

(** A small table and schema on which the builder is run below. *)
Definition price_table : DataFrame :=
  {| df_columns := ["resp_id"; "Price"];
     df_rows := [[CInt 1; CStr "Low"]; [CInt 1; CStr "High"];
                 [CInt 2; CStr "Medium"]; [CInt 2; CStr "Lwo"]; [CInt 3; CNaN]] |}.

Definition price_attr : AttributeDef :=
  {| attr_name := "Price"; attr_levels := ["Low"; "Medium"; "High"];
     attr_reference := None; attr_label := None |}.

Lemma combine_map_same {A B C : Type} (f : A -> B) (g : A -> C) (l : list A) :
  combine (map f l) (map g l) = map (fun x => (f x, g x)) l.
Proof.
  induction l as [|a l IH]; simpl; [reflexivity | now rewrite IH].
Qed.

Lemma eqb_append_prefix (p a b : string) :
  String.eqb (p ++ a) (p ++ b) = String.eqb a b.
Proof.
  induction p as [|ch p IH]; simpl; [reflexivity|].
  now rewrite Ascii.eqb_refl.
Qed.

Lemma col_label_eqb (name a b : string) :
  String.eqb (col_label name a) (col_label name b) = String.eqb a b.
Proof.
  unfold col_label. now rewrite !eqb_append_prefix.
Qed.

Lemma set_label_map (name : string) (cats : list string) (c : string)
  (h : string -> float) :
  set_label (map (col_label name) cats) (col_label name c) 1%float (map h cats)
  = map (fun c' => if String.eqb c' c then 1%float else h c') cats.
Proof.
  unfold set_label. rewrite combine_map_same, map_map.
  apply map_ext. intros c'. simpl. now rewrite col_label_eqb.
Qed.

Lemma loc_set_col_map (cols : list string) (series : list string)
  (g : string -> list float) (c label : string) :
  loc_set_col {| f_columns := cols; f_rows := map g series |}
              (map (fun v => String.eqb v c) series) label 1%float
  = {| f_columns := cols;
       f_rows := map (fun v => if String.eqb v c then set_label cols label 1%float (g v)
                               else g v) series |}.
Proof.
  unfold loc_set_col. simpl. now rewrite combine_map_same, map_map.
Qed.

Lemma fold_loc_set_col (name : string) (cats series : list string) :
  forall (cs : list string) (h : string -> string -> float),
    fold_left
      (fun out c => loc_set_col out (map (fun v => String.eqb v c) series)
                                (col_label name c) 1%float)
      cs
      {| f_columns := map (col_label name) cats;
         f_rows := map (fun v => map (h v) cats) series |}
    = {| f_columns := map (col_label name) cats;
         f_rows := map (fun v => map (fun c' => if str_in v cs && String.eqb c' v
                                                then 1%float else h v c') cats)
                       series |}.
Proof.
  induction cs as [|c cs IH]; intros h; simpl.
  - reflexivity.
  - rewrite loc_set_col_map.
    rewrite (map_ext
               (fun v => if String.eqb v c
                         then set_label (map (col_label name) cats) (col_label name c)
                                        1%float (map (h v) cats)
                         else map (h v) cats)
               (fun v => map (fun c' => if String.eqb v c && String.eqb c' v
                                        then 1%float else h v c') cats)).
    + rewrite (IH (fun v c' => if String.eqb v c && String.eqb c' v
                               then 1%float else h v c')).
      f_equal. apply map_ext. intros v. apply map_ext. intros c'.
      destruct (String.eqb v c) eqn:Evc; simpl;
        destruct (str_in v cs); simpl; destruct (String.eqb c' v); reflexivity.
    + intros v. destruct (String.eqb v c) eqn:Evc; simpl.
      * rewrite set_label_map. apply String.eqb_eq in Evc. subst c.
        apply map_ext. intros c'. reflexivity.
      * reflexivity.
Qed.

Lemma loc_set_rows_map (cols : list string) (series : list string)
  (g : string -> list float) (reference : string) :
  loc_set_rows {| f_columns := cols; f_rows := map g series |}
               (map (fun v => String.eqb v reference) series) (-1)%float
  = {| f_columns := cols;
       f_rows := map (fun v => if String.eqb v reference
                               then map (fun _ => (-1)%float) (g v) else g v) series |}.
Proof.
  unfold loc_set_rows. simpl. now rewrite combine_map_same, map_map.
Qed.

(** [effect_code] in closed form: the block has one column per
    non-reference level and one [coded_row] per observation. *)
Lemma effect_code_closed_form (name : string) (series levels : list string)
  (reference : option string) (r : string) :
  resolve_reference levels reference = Ok r ->
  effect_code name series levels reference
  = Ok {| f_columns := map (col_label name) (non_reference levels r);
          f_rows := map (fun v => coded_row r (non_reference levels r) (coerce levels r v))
                        series |}.
Proof.
  intros Hr. unfold effect_code. fold (resolve_reference levels reference).
  rewrite Hr. unfold bind. fold (non_reference levels r).
  set (S' := map (fun v => if str_in v levels then v else r) series).
  pose proof (fold_loc_set_col name (non_reference levels r) S'
                (non_reference levels r) (fun _ _ => 0%float)) as F.
  cbv beta in F. rewrite F. clear F.
  pose proof (loc_set_rows_map (map (col_label name) (non_reference levels r)) S'
                (fun v => map (fun c' => if str_in v (non_reference levels r)
                                            && String.eqb c' v
                                         then 1%float else 0%float)
                              (non_reference levels r)) r) as G.
  cbv beta in G. rewrite G. clear G.
  f_equal. f_equal. unfold S'. rewrite map_map. apply map_ext. intros v.
  fold (coerce levels r v). unfold coded_row.
  destruct (String.eqb (coerce levels r v) r) eqn:Eref.
  - now rewrite map_map.
  - apply map_ext_in. intros c' Hc'.
    assert (Hin : str_in (coerce levels r v) (non_reference levels r) = true).
    { apply str_in_In. unfold non_reference. apply filter_In. split.
      - unfold coerce in *. destruct (str_in v levels) eqn:Ev.
        + now apply str_in_In.
        + now rewrite String.eqb_refl in Eref.
      - now rewrite Eref. }
    now rewrite Hin.
Qed.

Lemma last_nonempty_In (d : string) (ls : list string) :
  ls <> [] -> In (last ls d) ls.
Proof.
  induction ls as [|x ls IH]; intros Hne; [congruence|].
  destruct ls as [|y ls'].
  - now left.
  - right. apply IH. discriminate.
Qed.

Lemma last_In (l : string) (ls : list string) : In (last ls l) (l :: ls).
Proof.
  destruct ls as [|x ls'].
  - now left.
  - right. apply last_nonempty_In. discriminate.
Qed.

Lemma resolve_reference_ok (attr : AttributeDef) :
  well_formed attr ->
  exists r, resolve_reference (attr_levels attr) (attr_reference attr) = Ok r /\
            In r (attr_levels attr).
Proof.
  intros (Hlen & _ & Href). unfold resolve_reference.
  destruct (attr_reference attr) as [r|].
  - now exists r.
  - destruct (attr_levels attr) as [|l ls]; simpl in *; [lia|].
    exists (last ls l). split; [reflexivity | apply last_In].
Qed.

Lemma non_reference_length (levels : list string) (r : string) :
  NoDup levels -> In r levels ->
  List.length (non_reference levels r) = List.length levels - 1.
Proof.
  unfold non_reference. induction levels as [|l ls IH]; intros Hnd Hin; [destruct Hin|].
  inversion Hnd as [|? ? Hnotin Hnd']; subst. simpl.
  destruct (String.eqb l r) eqn:E; simpl.
  - apply String.eqb_eq in E. subst l.
    rewrite Nat.sub_0_r. clear IH Hin Hnd Hnd'.
    induction ls as [|x ls IH]; simpl; [reflexivity|].
    destruct (String.eqb x r) eqn:Ex.
    + apply String.eqb_eq in Ex. subst x. exfalso. apply Hnotin. now left.
    + simpl. f_equal. apply IH. intros H. apply Hnotin. now right.
  - destruct Hin as [Hin | Hin].
    + subst l. now rewrite String.eqb_refl in E.
    + rewrite IH by assumption.
      destruct ls as [|x ls']; [destruct Hin | simpl; lia].
Qed.

Lemma indicator_zero (v : string) (l : list string) :
  ~ In v l ->
  Forall (fun x => x = 0%float) (map (fun c => if String.eqb c v then 1%float else 0%float) l).
Proof.
  intros Hnotin. apply Forall_forall. intros x Hx.
  apply in_map_iff in Hx. destruct Hx as (c & Hc & Hin).
  destruct (String.eqb c v) eqn:E; [|now subst].
  apply String.eqb_eq in E. subst c. contradiction.
Qed.

Lemma indicator_one_hot (v : string) (cats : list string) :
  NoDup cats -> In v cats ->
  one_hot (map (fun c => if String.eqb c v then 1%float else 0%float) cats).
Proof.
  intros Hnd Hin. apply in_split in Hin. destruct Hin as (l1 & l2 & ->).
  apply NoDup_remove_2 in Hnd.
  exists (map (fun c => if String.eqb c v then 1%float else 0%float) l1),
         (map (fun c => if String.eqb c v then 1%float else 0%float) l2).
  rewrite map_app. simpl. rewrite String.eqb_refl. split; [reflexivity|].
  split; apply indicator_zero; intros H; apply Hnd; apply in_or_app; tauto.
Qed.

Lemma coded_row_shape (levels : list string) (r v : string) :
  NoDup levels -> In r levels ->
  let row := coded_row r (non_reference levels r) (coerce levels r v) in
  List.length row = List.length levels - 1 /\
  (one_hot row \/ all_minus_one row) /\
  (str_in v levels = false -> all_minus_one row).
Proof.
  intros Hnd Hr row. subst row. unfold coded_row.
  assert (Hminus : all_minus_one (map (fun _ => (-1)%float) (non_reference levels r))).
  { apply Forall_forall. intros x Hx. apply in_map_iff in Hx. now destruct Hx as (? & <- & _). }
  destruct (String.eqb (coerce levels r v) r) eqn:E.
  - rewrite length_map, non_reference_length by assumption. tauto.
  - rewrite length_map, non_reference_length by assumption.
    split; [reflexivity|]. split.
    + left. apply indicator_one_hot.
      * unfold non_reference. now apply NoDup_filter.
      * unfold non_reference. apply filter_In. rewrite E. split; [|reflexivity].
        unfold coerce in *. destruct (str_in v levels) eqn:Ev.
        -- now apply str_in_In.
        -- now rewrite String.eqb_refl in E.
    + intros Hout. unfold coerce in E. rewrite Hout in E.
      now rewrite String.eqb_refl in E.
Qed.

Lemma effect_code_block_ok (df : DataFrame) (attr : AttributeDef) :
  well_formed attr ->
  exists block,
    effect_code (attr_name attr) (map cell_str (column df (attr_name attr)))
                (attr_levels attr) (attr_reference attr) = Ok block /\
    block_ok df attr block.
Proof.
  intros Hwf. destruct (resolve_reference_ok attr Hwf) as (r & Hr & Hin).
  destruct Hwf as (Hlen & Hnd & _).
  eexists. split; [apply effect_code_closed_form; exact Hr|].
  unfold block_ok. simpl. split; [now rewrite length_map|].
  intros i v row Hv Hrow.
  rewrite nth_error_map, Hv in Hrow. simpl in Hrow. inversion Hrow; subst row.
  now apply coded_row_shape.
Qed.

(** C3. For every table and every list of attribute definitions that each
    have at least two distinct levels and a reference among the levels (the
    last level when unset) and whose column is in the table, the builder's
    loop returns one block per attribute, and in each block every row has
    one entry per non-reference level and is either a one-hot indicator
    (one 1.0, the rest 0.0) or all -1.0; a row whose observed value is not
    in the level list is all -1.0. *)
Theorem design_blocks_rows_one_hot_or_minus_one
  (df : DataFrame) (attributes : list AttributeDef) :
  Forall (fun attr => well_formed attr /\ In (attr_name attr) (df_columns df)) attributes ->
  exists blocks,
    design_blocks df attributes = Ok blocks /\
    Forall2 (block_ok df) attributes blocks.
Proof.
  unfold design_blocks. induction 1 as [|attr attrs [Hwf Hcol] _ IH].
  - exists []. split; [reflexivity | constructor].
  - destruct IH as (blocks & Hblocks & Hall).
    destruct (effect_code_block_ok df attr Hwf) as (block & Hblock & Hok).
    exists (block :: blocks). split.
    + simpl. unfold design_block at 1. apply str_in_In in Hcol.
      rewrite Hcol, Hblock. simpl. rewrite Hblocks. reflexivity.
    + now constructor.
Qed.

Example effect_code_price :
  design_blocks price_table [price_attr]
  = Ok [{| f_columns := ["Price__Low"; "Price__Medium"];
           f_rows := [[1; 0]; [-1; -1]; [0; 1]; [-1; -1]; [-1; -1]]%float |}].
Proof. vm_compute. reflexivity. Qed.

Example build_design_matrix_price :
  build_design_matrix price_table [price_attr]
  = Ok {| f_columns := ["const"; "Price__Low"; "Price__Medium"];
          f_rows := [[1; 1; 0]; [1; -1; -1]; [1; 0; 1]; [1; -1; -1]; [1; -1; -1]]%float |}.
Proof. vm_compute. reflexivity. Qed.

Lemma design_blocks_rows_witness :
  exists blocks,
    design_blocks price_table [price_attr] = Ok blocks /\
    Forall2 (block_ok price_table) [price_attr] blocks.
Proof.
  apply (design_blocks_rows_one_hot_or_minus_one price_table [price_attr]).
  constructor; [|constructor].
  split; [|simpl; tauto].
  unfold well_formed. simpl. split; [lia|]. split; [|exact I].
  repeat constructor; simpl; intuition discriminate.
Defined.

End DesignMatrix.

(* ------------------------------------------------------------------ *)
(** ** Python string helpers used by the validators and the parser *)

Module PyStr.

(** [str.isspace] on the ASCII range. *)
Definition is_space (c : ascii) : bool :=
  let n := nat_of_ascii c in
  (Nat.leb 9 n && Nat.leb n 13) || (Nat.leb 28 n && Nat.leb n 32).

Fixpoint lstrip (s : string) : string :=
  match s with
  | String c s' => if is_space c then lstrip s' else s
  | EmptyString => EmptyString
  end.

(** Drops trailing white space: the result keeps a character when it is not
    white space or when something after it is kept. *)
Fixpoint rstrip (s : string) : string :=
  match s with
  | String c s' =>
      match rstrip s' with
      | EmptyString => if is_space c then EmptyString else String c EmptyString
      | t => String c t
      end
  | EmptyString => EmptyString
  end.

(** [s.strip()] *)
Definition strip (s : string) : string := rstrip (lstrip s).

Definition lower_ascii (c : ascii) : ascii :=
  let n := nat_of_ascii c in
  if Nat.leb 65 n && Nat.leb n 90 then ascii_of_nat (n + 32) else c.

Definition upper_ascii (c : ascii) : ascii :=
  let n := nat_of_ascii c in
  if Nat.leb 97 n && Nat.leb n 122 then ascii_of_nat (n - 32) else c.

Fixpoint map_chars (f : ascii -> ascii) (s : string) : string :=
  match s with
  | String c s' => String (f c) (map_chars f s')
  | EmptyString => EmptyString
  end.

(** [s.lower()] and [s.upper()] on the ASCII range. *)
Definition lower (s : string) : string := map_chars lower_ascii s.
Definition upper (s : string) : string := map_chars upper_ascii s.

(** [s.endswith(suffix)] *)
Definition endswith (s suffix : string) : bool :=
  let n := String.length s in
  let m := String.length suffix in
  Nat.leb m n && String.eqb (substring (n - m) m s) suffix.

(** [s.startswith(p)] *)
Definition startswith (s p : string) : bool := prefix p s.

(** [s.split(",")] *)
Fixpoint split_comma_aux (cur : string) (s : string) : list string :=
  match s with
  | EmptyString => [cur]
  | String c s' =>
      if Ascii.eqb c ","%char then cur :: split_comma_aux EmptyString s'
      else split_comma_aux (cur ++ String c EmptyString) s'
  end.

Definition split_comma (s : string) : list string := split_comma_aux EmptyString s.

(** [k.split("__", 1)] when ["__" in k]: the text before and after the first
    double underscore. *)
Fixpoint split_dunder_aux (before : string) (s : string) : option (string * string) :=
  match s with
  | String a (String b rest as s') =>
      if Ascii.eqb a "_"%char && Ascii.eqb b "_"%char then Some (before, rest)
      else split_dunder_aux (before ++ String a EmptyString) s'
  | _ => None
  end.

Definition split_dunder (k : string) : option (string * string) :=
  split_dunder_aux EmptyString k.

Definition is_digit (c : ascii) : bool :=
  let n := nat_of_ascii c in Nat.leb 48 n && Nat.leb n 57.

Fixpoint all_chars (p : ascii -> bool) (s : string) : bool :=
  match s with
  | String c s' => p c && all_chars p s'
  | EmptyString => true
  end.

(** A non-empty run of decimal digits, the regular expression [\d+] on the
    ASCII range. *)
Definition is_digits (s : string) : bool :=
  negb (String.eqb s EmptyString) && all_chars is_digit s.

Fixpoint nat_of_digits_aux (acc : nat) (s : string) : nat :=
  match s with
  | String c s' => nat_of_digits_aux (10 * acc + (nat_of_ascii c - 48)) s'
  | EmptyString => acc
  end.

(** [int(s)] for a run of ASCII digits. *)
Definition nat_of_digits (s : string) : nat := nat_of_digits_aux 0 s.

(** [int(s)] for text: optional white space around an optional sign and
    decimal digits; [None] stands for [ValueError]. *)
Definition int_of_string (s : string) : option Z :=
  match strip s with
  | String c rest =>
      if Ascii.eqb c "-"%char then
        if is_digits rest then Some (- Z.of_nat (nat_of_digits rest))%Z else None
      else if Ascii.eqb c "+"%char then
        if is_digits rest then Some (Z.of_nat (nat_of_digits rest)) else None
      else if is_digits (String c rest) then Some (Z.of_nat (nat_of_digits (String c rest)))
      else None
  | EmptyString => None
  end.

(** [repr] of a list of strings, as an f-string prints it (names without
    quotes or backslashes). *)
Definition repr_list (l : list string) : string :=
  ("[" ++ String.concat ", " (map (fun s : string => "'" ++ s ++ "'") l) ++ "]")%string.

Example strip_example : strip "  Low Price  " = "Low Price".
Proof. reflexivity. Qed.

Example strip_blank : strip "   " = "".
Proof. reflexivity. Qed.

Example split_comma_example : split_comma "A, B,,C" = ["A"; " B"; ""; "C"].
Proof. reflexivity. Qed.

Example split_dunder_example : split_dunder "Price__Low__x" = Some ("Price", "Low__x").
Proof. reflexivity. Qed.

Example int_of_string_example :
  (int_of_string " 12 ", int_of_string "-3", int_of_string "3.0", int_of_string "")
  = (Some 12%Z, Some (-3)%Z, None, None).
Proof. reflexivity. Qed.

Example endswith_example : endswith (lower "Data.XLSX") ".xlsx" = true.
Proof. reflexivity. Qed.

End PyStr.

Import PyStr.

(* ------------------------------------------------------------------ *)
(** ** Choice simulation engine: [scenario_utilities], [softmax], [simulate] *)

Module Simulation.

Local Open Scope R_scope.

(** [Dict[str, Dict[str, float]]]: attribute, then level, then part-worth. *)
Definition Utilities : Type := dict (dict R).

(** [Dict[str, str]]: attribute to chosen level. *)
Definition Scenario : Type := dict string.

(** The builtin [sum]: a left fold from [0]. *)
Definition py_sum (l : list R) : R := fold_left Rplus l 0.

(** The body of the inner loop of [scenario_utilities]: the new [total]
    after the item [(attr, lvl)] of a scenario. *)
Definition add_level (utilities : Utilities) (total : R) (item : string * string) : R :=
  let attr := fst item in
  let lvl := snd item in
  let u_map := get_default utilities attr [] in
  let keys := keys u_map in
  if str_in lvl keys
  then total + get_default u_map lvl 0
  else total - py_sum (map (fun k => get_default u_map k 0) keys).

Definition scenario_utilities (scenarios : list Scenario) (utilities : Utilities)
  (intercept : R) : list R :=
  map (fun s => fold_left (add_level utilities) s intercept) scenarios.

(** [np.max] of a non-empty array. *)
Definition np_max (x : list R) : result R :=
  match x with
  | [] => Raise (ValueError
      "zero-size array to reduction operation maximum which has no identity")
  | a :: x' => Ok (fold_left Rmax x' a)
  end.

Definition softmax (x : list R) : result (list R) :=
  m <- np_max x ;;
  let ex := map (fun v => exp (v - m)) x in
  Ok (map (fun e => e / py_sum ex) ex).

(** [int(np.argmax(u))] on a non-empty array: the first index of the maximum. *)
Fixpoint argmax_from (best_i : nat) (best : R) (i : nat) (u : list R) : nat :=
  match u with
  | [] => best_i
  | a :: u' =>
      if Rlt_dec best a then argmax_from i a (S i) u'
      else argmax_from best_i best (S i) u'
  end.

Definition argmax (u : list R) : nat :=
  match u with
  | [] => 0%nat
  | a :: u' => argmax_from 0 a 1 u'
  end.

(** [[1.0 if i == int(np.argmax(u)) else 0.0 for i in range(len(u))]]; with
    an empty [u] the comprehension never evaluates [np.argmax]. *)
Definition first_choice (u : list R) : list R :=
  map (fun i => if Nat.eqb i (argmax u) then 1 else 0) (seq 0 (List.length u)).

(** [utilities_attrs(utilities)]: the attribute names, in order. *)
Definition utilities_attrs (utilities : Utilities) : list string := keys utilities.

Record SimulateRequest : Type := {
  req_intercept : R;
  req_utilities : Utilities;
  req_scenarios : list Scenario;
  req_rule : string
}.

Record SimulateResponse : Type := {
  resp_utilities : list R;
  resp_shares : list R
}.

(** [[a for a in attrs if a not in s or s[a] is None or str(s[a]).strip() == ""]] *)
Definition missing_attributes (attrs : list string) (s : Scenario) : list string :=
  filter (fun a => match get s a with
                   | None => true
                   | Some v => String.eqb (strip v) ""
                   end) attrs.

(** The validation loop of [simulate]: the first scenario with a missing
    attribute raises. *)
Fixpoint validate_scenarios (attrs : list string) (idx : nat) (scenarios : list Scenario)
  : result unit :=
  match scenarios with
  | [] => Ok tt
  | s :: rest =>
      match missing_attributes attrs s with
      | [] => validate_scenarios attrs (S idx) rest
      | missing =>
          Raise (HTTPException 400
                   ("Scenario " ++ str_of_nat idx ++ " is missing required attributes: "
                    ++ repr_list missing))
      end
  end.

(** [simulate(req)]. The second loop of the validation only writes a debug
    line for a level outside the estimated ones and is left out. *)
Definition simulate (req : SimulateRequest) : result SimulateResponse :=
  let attrs := utilities_attrs (req_utilities req) in
  _ <- validate_scenarios attrs 0 (req_scenarios req) ;;
  us <- rewrap "Simulation failed: "
    (let u := scenario_utilities (req_scenarios req) (req_utilities req) (req_intercept req) in
     shares <-
       (if String.eqb (req_rule req) "first_choice" then Ok (first_choice u)
        else if String.eqb (req_rule req) "logit" then softmax u
        else Raise (HTTPException 400
                      ("Unknown simulation rule: " ++ req_rule req
                       ++ ". Use 'logit' or 'first_choice'."))) ;;
     Ok (u, shares)) ;;
  Ok {| resp_utilities := fst us; resp_shares := snd us |}.


(** The explicit coefficients of an attribute, as the engine sums them. *)
Definition explicit_sum (u_map : dict R) : R :=
  py_sum (map (fun k => get_default u_map k 0) (keys u_map)).

(** The amount one item of a scenario adds to the total. *)
Definition level_part (utilities : Utilities) (item : string * string) : R :=
  let u_map := get_default utilities (fst item) [] in
  if str_in (snd item) (keys u_map) then get_default u_map (snd item) 0
  else - explicit_sum u_map.

(** Scenario 1 of the specification. *)
Definition price_utilities : Utilities :=
  [("Price", [("Low", 0.4); ("High", -0.1)])].



(** A request with a misspelt level ("Lwo") next to a proper one. *)
Definition misspelt_request : SimulateRequest :=
  {| req_intercept := 0;
     req_utilities := price_utilities;
     req_scenarios := [[("Price", "Lwo")]; [("Price", "Low")]];
     req_rule := "logit" |}.

Lemma fold_plus_shift (l : list R) (a : R) : fold_left Rplus l a = a + py_sum l.
Proof.
  unfold py_sum. revert a. induction l as [|x l IH]; intros a; simpl.
  - lra.
  - rewrite (IH (a + x)), (IH (0 + x)). lra.
Qed.

Lemma py_sum_cons (x : R) (l : list R) : py_sum (x :: l) = x + py_sum l.
Proof.
  unfold py_sum at 1. simpl. rewrite fold_plus_shift. lra.
Qed.


Lemma add_level_part (utilities : Utilities) (total : R) (item : string * string) :
  add_level utilities total item = total + level_part utilities item.
Proof.
  unfold add_level, level_part, explicit_sum.
  destruct (str_in (snd item) (keys (get_default utilities (fst item) []))); lra.
Qed.

Lemma scenario_total_parts (utilities : Utilities) (s : Scenario) (intercept : R) :
  fold_left (add_level utilities) s intercept
  = intercept + py_sum (map (level_part utilities) s).
Proof.
  revert intercept. induction s as [|item s IH]; intros intercept; simpl.
  - unfold py_sum. simpl. lra.
  - rewrite IH, add_level_part, py_sum_cons. lra.
Qed.








Lemma softmax_nonempty (a : R) (x : list R) :
  softmax (a :: x)
  = Ok (map (fun e => e / py_sum (map (fun v => exp (v - fold_left Rmax x a)) (a :: x)))
            (map (fun v => exp (v - fold_left Rmax x a)) (a :: x))).
Proof. reflexivity. Qed.




Example simulate_misspelt_utilities :
  scenario_utilities (req_scenarios misspelt_request) price_utilities 0 = [-0.3; 0.4].
Proof.
  unfold scenario_utilities, add_level, py_sum, get_default, price_utilities. simpl.
  f_equal; [lra | f_equal; lra].
Qed.

End Simulation.

(* ------------------------------------------------------------------ *)
(** ** Market scenario analyzer *)

Module Market.

Import Simulation.
Local Open Scope R_scope.

Definition normalize_market_shares (shares : list R) : list R :=
  let total := py_sum shares in
  if Req_dec_T total 0 then repeat 0 (List.length shares)
  else map (fun share => share / total) shares.

(** The values of the [market_impact] dictionary. *)
Inductive jval : Type :=
| JNum (x : R)
| JBool (b : bool)
| JList (l : list R).

(** The builtins [max] and [min] on a non-empty list [a :: l]. *)
Definition py_max (a : R) (l : list R) : R :=
  fold_left (fun m x => if Rlt_dec m x then x else m) l a.

Definition py_min (a : R) (l : list R) : R :=
  fold_left (fun m x => if Rlt_dec x m then x else m) l a.

Definition calculate_market_impact (original_shares projected_shares : list R)
  : result (dict jval) :=
  if negb (Nat.eqb (List.length original_shares) (List.length projected_shares))
  then Raise (ValueError "Original and projected shares must have same length")
  else
    let changes := map (fun op : R * R => snd op - fst op)
                       (combine original_shares projected_shares) in
    let total_change := py_sum changes in
    let max_increase := match changes with [] => 0 | c :: cs => py_max c cs end in
    let max_decrease := match changes with [] => 0 | c :: cs => py_min c cs end in
    let original_hhi := py_sum (map (fun share => share ^ 2) original_shares) in
    let projected_hhi := py_sum (map (fun share => share ^ 2) projected_shares) in
    Ok [("total_market_change", JNum total_change);
        ("max_increase", JNum max_increase);
        ("max_decrease", JNum max_decrease);
        ("original_hhi", JNum original_hhi);
        ("projected_hhi", JNum projected_hhi);
        ("concentration_change", JNum (projected_hhi - original_hhi));
        ("individual_changes", JList changes)].

(** An entry of [original_market_shares] as it arrives: each key may be absent. *)
Record ProductIn : Type := {
  in_name : option string;
  in_rowNumber : option Z;
  in_currentShare : option R
}.

(** An entry of [original_products]. *)
Record Product : Type := {
  p_name : string;
  p_rowNumber : Z;
  p_currentShare : R
}.

(** A product of a [MarketShareScenario]; [ps_change] is the key [change],
    which only projected scenarios carry. *)
Record ProductShare : Type := {
  ps_name : string;
  ps_rowNumber : Z;
  ps_currentShare : R;
  ps_marketShare : R;
  ps_change : option R
}.

Record MarketShareScenario : Type := {
  scenario_name : string;
  products : list ProductShare;
  total_share : R
}.

Record ScenarioAnalysisRequest : Type := {
  sa_intercept : R;
  sa_utilities : Utilities;
  sa_original_market_shares : list ProductIn;
  sa_new_scenarios : list Scenario;
  sa_rule : string
}.

Record AnalysisDiagnostics : Type := {
  total_scenarios : nat;
  choice_rule : string;
  analysis_timestamp : string
}.

Record ScenarioAnalysisResponse : Type := {
  original_scenario : MarketShareScenario;
  projected_scenarios : list MarketShareScenario;
  market_impact : dict jval;
  diagnostics : AnalysisDiagnostics
}.

Definition project_market_shares_with_new_product (original_shares : list Product)
  (new_product_utility : R) (existing_utilities : list R) (rule : string)
  : result (list R) :=
  let all_utilities := existing_utilities ++ [new_product_utility] in
  if String.eqb rule "logit" then softmax all_utilities
  else if String.eqb rule "first_choice" then Ok (first_choice all_utilities)
  else Raise (ValueError ("Unknown choice rule: " ++ rule)).

(** The loop that turns normalized shares into utilities: the logarithm of
    a positive share, [-10] for any other. *)
Definition share_utilities (original_shares_normalized : list R) : list R :=
  map (fun share => if Rlt_dec 0 share then ln share else -10) original_shares_normalized.

(** The body of the loop over [req.new_scenarios], for the scenario at
    index [idx]. *)
Definition project_scenario (req : ScenarioAnalysisRequest)
  (original_products : list Product) (original_shares_normalized : list R)
  (idx : nat) (new_scenario : Scenario) : result MarketShareScenario :=
  let scenario_name := ("Scenario " ++ str_of_nat (idx + 1))%string in
  let new_product_utility :=
    nth 0 (scenario_utilities [new_scenario] (sa_utilities req) (sa_intercept req)) 0 in
  let existing_utilities := share_utilities original_shares_normalized in
  projected_shares <-
    project_market_shares_with_new_product original_products new_product_utility
      existing_utilities (sa_rule req) ;;
  let projected_products :=
    map (fun ip : nat * Product =>
           let i := fst ip in
           let product := snd ip in
           {| ps_name := p_name product;
              ps_rowNumber := p_rowNumber product;
              ps_currentShare := p_currentShare product;
              ps_marketShare := nth i projected_shares 0;
              ps_change := Some (nth i projected_shares 0
                                 - nth i original_shares_normalized 0) |})
        (combine (seq 0 (List.length original_products)) original_products)
    ++ [{| ps_name := ("New Product " ++ str_of_nat (idx + 1))%string;
           ps_rowNumber := Z.of_nat (List.length original_products + idx + 1);
           ps_currentShare := 0;
           ps_marketShare := last projected_shares 0;
           ps_change := Some (last projected_shares 0) |}] in
  Ok {| scenario_name := scenario_name;
        products := projected_products;
        total_share := py_sum projected_shares |}.

(** [products[-1]] *)
Definition last_product (ps : list ProductShare) : result ProductShare :=
  match rev ps with
  | p :: _ => Ok p
  | [] => Raise (IndexError "list index out of range")
  end.

(** The block "Calculate market impact for first scenario (if any)". *)
Definition first_scenario_impact (original_scenario : MarketShareScenario)
  (projected_scenarios : list MarketShareScenario) : result (dict jval) :=
  match projected_scenarios with
  | [] => Ok []
  | first_projected :: _ =>
      let original_shares_only := map ps_marketShare (products original_scenario) in
      let projected_shares_only :=
        map ps_marketShare (removelast (products first_projected)) in
      market_impact <- calculate_market_impact original_shares_only projected_shares_only ;;
      new_product <- last_product (products first_projected) ;;
      let new_product_share := ps_marketShare new_product in
      let market_impact := set market_impact "new_product_share" (JNum new_product_share) in
      Ok (set market_impact "market_expansion"
              (JBool (if Rlt_dec 0 new_product_share then true else false)))
  end.

Definition read_product (product : ProductIn) : Product :=
  {| p_name := match in_name product with Some n => n | None => "Unknown Product" end;
     p_rowNumber := match in_rowNumber product with Some n => n | None => 0%Z end;
     p_currentShare := match in_currentShare product with Some x => x | None => 0 end |}.

(** [analyze_scenarios(req)]; [now] is what [datetime.now().isoformat()]
    returns when the response is built. *)
Definition analyze_scenarios (now : string) (req : ScenarioAnalysisRequest)
  : result ScenarioAnalysisResponse :=
  rewrap "Scenario analysis failed: "
    (let original_products := map read_product (sa_original_market_shares req) in
     let original_shares := map p_currentShare original_products in
     let original_shares_normalized := normalize_market_shares original_shares in
     let original_scenario :=
       {| scenario_name := "Original Market";
          products :=
            map (fun pshare : Product * R =>
                   {| ps_name := p_name (fst pshare);
                      ps_rowNumber := p_rowNumber (fst pshare);
                      ps_currentShare := p_currentShare (fst pshare);
                      ps_marketShare := snd pshare;
                      ps_change := None |})
                (combine original_products original_shares_normalized);
          total_share := py_sum original_shares_normalized |} in
     projected_scenarios <-
       mapM (fun ix : nat * Scenario =>
               project_scenario req original_products original_shares_normalized
                                (fst ix) (snd ix))
            (combine (seq 0 (List.length (sa_new_scenarios req))) (sa_new_scenarios req)) ;;
     market_impact <- first_scenario_impact original_scenario projected_scenarios ;;
     Ok {| original_scenario := original_scenario;
           projected_scenarios := projected_scenarios;
           market_impact := market_impact;
           diagnostics := {| total_scenarios := List.length projected_scenarios;
                             choice_rule := sa_rule req;
                             analysis_timestamp := now |} |}).

Definition with_new_scenarios (req : ScenarioAnalysisRequest) (l : list Scenario)
  : ScenarioAnalysisRequest :=
  {| sa_intercept := sa_intercept req;
     sa_utilities := sa_utilities req;
     sa_original_market_shares := sa_original_market_shares req;
     sa_new_scenarios := l;
     sa_rule := sa_rule req |}.

Definition known_rule (rule : string) : bool :=
  String.eqb rule "logit" || String.eqb rule "first_choice".










Lemma mapM_all_ok {A B : Type} (f : A -> result B) (l : list A) :
  (forall x, exists y, f x = Ok y) -> exists ys, mapM f l = Ok ys.
Proof.
  intros Hf. induction l as [|a l (ys & IH)].
  - now exists [].
  - destruct (Hf a) as (y & Hy). exists (y :: ys). simpl. now rewrite Hy, IH.
Qed.

Lemma softmax_snoc_ok (x : list R) (u : R) : exists shares, softmax (x ++ [u]) = Ok shares.
Proof.
  destruct (x ++ [u]) as [|a l] eqn:E.
  - destruct x; discriminate.
  - rewrite softmax_nonempty. eexists. reflexivity.
Qed.

(** Whether a projection succeeds is decided by the rule name alone. *)
Lemma project_scenario_ok_any (req : ScenarioAnalysisRequest)
  (original_products : list Product) (normalized : list R)
  (idx : nat) (sc : Scenario) (ms : MarketShareScenario) :
  project_scenario req original_products normalized idx sc = Ok ms ->
  forall idx' sc', exists ms',
    project_scenario req original_products normalized idx' sc' = Ok ms'.
Proof.
  unfold project_scenario, project_market_shares_with_new_product.
  intros H idx' sc'.
  destruct (String.eqb (sa_rule req) "logit").
  - match goal with
    | |- context [softmax (?x ++ [?v])] => destruct (softmax_snoc_ok x v) as (sh & Hsh)
    end.
    rewrite Hsh. cbn [bind]. eexists. reflexivity.
  - destruct (String.eqb (sa_rule req) "first_choice").
    + cbn [bind]. eexists. reflexivity.
    + discriminate.
Qed.

Lemma original_products_shares (ps : list Product) (shares : list R) :
  List.length ps = List.length shares ->
  map ps_marketShare
      (map (fun pshare : Product * R =>
              {| ps_name := p_name (fst pshare);
                 ps_rowNumber := p_rowNumber (fst pshare);
                 ps_currentShare := p_currentShare (fst pshare);
                 ps_marketShare := snd pshare;
                 ps_change := None |})
           (combine ps shares))
  = shares.
Proof.
  revert shares. induction ps as [|p ps IH]; intros [|x shares] Hlen;
    try discriminate; [reflexivity|].
  simpl. f_equal. apply IH. now inversion Hlen.
Qed.

Lemma normalize_length (shares : list R) :
  List.length (normalize_market_shares shares) = List.length shares.
Proof.
  unfold normalize_market_shares. destruct (Req_dec_T (py_sum shares) 0).
  - apply repeat_length.
  - apply length_map.
Qed.

Lemma project_scenario_is_ok (req : ScenarioAnalysisRequest)
  (original_products : list Product) (normalized : list R) (idx : nat) (sc : Scenario) :
  is_ok (project_scenario req original_products normalized idx sc)
  = known_rule (sa_rule req).
Proof.
  unfold project_scenario, project_market_shares_with_new_product, known_rule.
  destruct (String.eqb (sa_rule req) "logit").
  - match goal with
    | |- context [softmax (?x ++ [?v])] => destruct (softmax_snoc_ok x v) as (sh & Hsh)
    end.
    now rewrite Hsh.
  - destruct (String.eqb (sa_rule req) "first_choice"); reflexivity.
Qed.

Lemma project_scenario_products (req : ScenarioAnalysisRequest)
  (original_products : list Product) (normalized : list R) (idx : nat) (sc : Scenario)
  (ms : MarketShareScenario) :
  project_scenario req original_products normalized idx sc = Ok ms ->
  List.length (removelast (products ms)) = List.length original_products /\
  exists entrant, last_product (products ms) = Ok entrant.
Proof.
  unfold project_scenario.
  destruct (project_market_shares_with_new_product _ _ _ _) as [sh | e]; [|discriminate].
  cbn [bind]. intros E. inversion E. subst ms. cbn [products]. split.
  - rewrite removelast_last, length_map, length_combine, length_seq. lia.
  - unfold last_product. rewrite rev_unit. eexists. reflexivity.
Qed.

Lemma calculate_market_impact_ok (original projected : list R) :
  List.length original = List.length projected ->
  exists impact, calculate_market_impact original projected = Ok impact.
Proof.
  intros Hlen. unfold calculate_market_impact. rewrite Hlen, Nat.eqb_refl.
  eexists. reflexivity.
Qed.

(** C9. With at least one new scenario, [analyze_scenarios] answers a
    request with scenarios [s :: rest] with the same [market_impact] as the
    request with [s] alone (or fails with the same exception, which happens
    exactly when the rule name is unknown), and that [market_impact] is
    [calculate_market_impact] of the normalized original shares against the
    existing products of the first projected scenario, with the first
    entrant's share added; with no new scenario the [market_impact] is the
    empty dictionary. *)
Theorem market_impact_from_first_scenario
  (now : string) (req : ScenarioAnalysisRequest) (s : Scenario) (rest : list Scenario) :
  match analyze_scenarios now (with_new_scenarios req (s :: rest)),
        analyze_scenarios now (with_new_scenarios req [s]) with
  | Ok all, Ok one =>
      known_rule (sa_rule req) = true /\
      market_impact all = market_impact one /\
      exists first others impact entrant,
        projected_scenarios all = first :: others /\
        projected_scenarios one = [first] /\
        calculate_market_impact
          (normalize_market_shares
             (map p_currentShare (map read_product (sa_original_market_shares req))))
          (map ps_marketShare (removelast (products first))) = Ok impact /\
        last_product (products first) = Ok entrant /\
        market_impact all
        = set (set impact "new_product_share" (JNum (ps_marketShare entrant)))
              "market_expansion"
              (JBool (if Rlt_dec 0 (ps_marketShare entrant) then true else false))
  | Raise e_all, Raise e_one => known_rule (sa_rule req) = false /\ e_all = e_one
  | _, _ => False
  end /\
  exists resp,
    analyze_scenarios now (with_new_scenarios req []) = Ok resp /\
    market_impact resp = [] /\ projected_scenarios resp = [].
Proof.
  split; [|eexists; split; [reflexivity | split; reflexivity]].
  unfold analyze_scenarios.
  cbn [with_new_scenarios sa_new_scenarios sa_original_market_shares sa_rule
       List.length seq combine mapM fst snd].
  set (prods := map read_product (sa_original_market_shares req)).
  set (norm := normalize_market_shares (map p_currentShare prods)).
  set (orig := {| scenario_name := "Original Market"; products := _;
                  total_share := py_sum norm |}).
  change (project_scenario (with_new_scenarios req (s :: rest)))
    with (project_scenario req).
  change (project_scenario (with_new_scenarios req [s]))
    with (project_scenario req).
  pose proof (project_scenario_is_ok req prods norm 0 s) as Hrule.
  destruct (project_scenario req prods norm 0 s) as [first | e] eqn:Hfirst;
    [|split; [now rewrite <- Hrule | reflexivity]].
  destruct (mapM_all_ok
              (fun ix : nat * Scenario => project_scenario req prods norm (fst ix) (snd ix))
              (combine (seq 1 (List.length rest)) rest)) as (others & Hothers).
  { intros [i sc]. apply (project_scenario_ok_any _ _ _ _ _ _ Hfirst). }
  rewrite Hothers. cbn [bind first_scenario_impact].
  assert (Horig : map ps_marketShare (products orig) = norm).
  { subst orig. cbn [products]. apply original_products_shares.
    subst norm. now rewrite normalize_length, length_map. }
  rewrite Horig.
  destruct (project_scenario_products _ _ _ _ _ _ Hfirst) as (Hlen & entrant & Hentrant).
  destruct (calculate_market_impact_ok norm
              (map ps_marketShare (removelast (products first)))) as (impact & Himpact).
  { rewrite length_map, Hlen. subst norm prods.
    now rewrite normalize_length, !length_map. }
  rewrite Himpact, Hentrant.
  cbn [bind rewrap market_impact projected_scenarios].
  split; [now rewrite <- Hrule|]. split; [reflexivity|].
  exists first, others, impact, entrant.
  repeat split; try reflexivity; assumption.
Qed.

End Market.

(* ------------------------------------------------------------------ *)
(** ** Discrete-choice estimator: solver fallback, utilities, diagnostics *)

Module Estimator.

Import DesignMatrix.

(** What the code reads from the object [model.fit] returns. An absent
    attribute ([hasattr] false, or [getattr] giving its default) is [None]. *)
Record FitResult : Type := {
  res_params : dict float;
  res_llf : option float;
  res_llnull : option float;
  res_aic : option float;
  res_bic : option float;
  res_prsquared : option float;
  res_converged : option bool;
  res_iterations : option Z;
  res_method : option string
}.

(** The [diagnostics] dictionary. [pseudo_r2] is [None] when the key is
    absent and [Some None] when it is present with the value [None]. *)
Record Diagnostics : Type := {
  converged : bool;
  iterations : Z;
  method : option string;
  n_observations : nat;
  n_parameters : nat;
  log_likelihood : option float;
  null_log_likelihood : option float;
  aic : option float;
  bic : option float;
  pseudo_r2 : option (option float)
}.

Record EstimateResponse : Type := {
  intercept : float;
  utilities : dict (dict float);
  columns : list string;
  schema : list AttributeDef;
  diagnostics : Diagnostics
}.

(** [df.dropna(subset=[col])] *)
Definition dropna (df : DataFrame) (col : string) : result DataFrame :=
  if str_in col (df_columns df)
  then Ok {| df_columns := df_columns df;
             df_rows := filter (fun row => negb (isna (row_get (df_columns df) row col CNaN)))
                               (df_rows df) |}
  else Raise (KeyError col).

(** [series.astype(int)] *)
Definition astype_int (series : list cell) : result (list Z) :=
  mapM (fun c => match c with
                 | CInt z => Ok z
                 | CStr s => match int_of_string s with
                             | Some z => Ok z
                             | None => Raise (ValueError
                                 ("invalid literal for int() with base 10: '" ++ s ++ "'"))
                             end
                 | CNaN => Raise (ValueError "cannot convert float NaN to integer")
                 end) series.

(** "Group utilities by attribute": the loop over [util.items()]. *)
Definition group_utilities (util : dict float) : dict (dict float) :=
  fold_left
    (fun (by_attr : dict (dict float)) (kv : string * float) =>
       if String.eqb (fst kv) "const" then by_attr
       else match split_dunder (fst kv) with
            | Some (attr, lvl) =>
                set by_attr attr (set (get_default by_attr attr []) lvl (snd kv))
            | None => by_attr
            end)
    util [].

(** The block that fills [diagnostics["pseudo_r2"]] in [app.py]: the
    solver's value when it is there and not NaN, else a value derived from
    the null log-likelihood when that is not [None], not [0] and not NaN. *)
Definition app_pseudo_r2 (prsquared null_ll : option float) (log_likelihood : float)
  : option (option float) :=
  let derived :=
    match null_ll with
    | Some n => if negb (PrimFloat.eqb n 0) && negb (is_nan n)
                then Some (Some (1 - log_likelihood / n)%float)
                else None
    | None => None
    end in
  match prsquared with
  | Some p => if negb (is_nan p) then Some (Some p) else derived
  | None => derived
  end.

(** The same block in [_fit_mnlogit], where [log_likelihood] may be [None]
    and the key is then set to [None]. *)
Definition cli_pseudo_r2 (prsquared null_ll log_likelihood : option float)
  : option (option float) :=
  let derived :=
    match null_ll with
    | Some n => if negb (PrimFloat.eqb n 0) && negb (is_nan n)
                then Some (match log_likelihood with
                           | Some ll => Some (1 - ll / n)%float
                           | None => None
                           end)
                else None
    | None => None
    end in
  match prsquared with
  | Some p => if negb (is_nan p) then Some (Some p) else derived
  | None => derived
  end.

Definition numerical_issues_message : string :=
  "Model estimation failed due to numerical issues (NaN/Inf). "
  ++ "This usually happens when attributes have too many levels (>20). "
  ++ "Consider recoding your attributes into fewer categories.".

Definition some_or {A : Type} (o : option A) (dflt : A) : A :=
  match o with Some a => a | None => dflt end.

(** From "Extract coefficients" to the end of the [try] block of the two
    estimation endpoints of [app.py]. *)
Definition app_response (X : Frame) (attributes_schema : list AttributeDef)
  (res : FitResult) : result EstimateResponse :=
  let util := res_params res in
  let by_attr := group_utilities util in
  match res_llf res with
  | None => Raise (ValueError numerical_issues_message)
  | Some log_likelihood =>
      if is_nan log_likelihood || is_infinity log_likelihood
      then Raise (ValueError numerical_issues_message)
      else
        Ok {| intercept := get_default util "const" 0%float;
              utilities := by_attr;
              columns := f_columns X;
              schema := attributes_schema;
              diagnostics :=
                {| converged := some_or (res_converged res) true;
                   iterations := some_or (res_iterations res) 0%Z;
                   method := res_method res;
                   n_observations := List.length (f_rows X);
                   n_parameters := List.length (f_columns X);
                   log_likelihood := Some log_likelihood;
                   null_log_likelihood := res_llnull res;
                   aic := res_aic res;
                   bic := res_bic res;
                   pseudo_r2 := app_pseudo_r2 (res_prsquared res) (res_llnull res)
                                              log_likelihood |} |}
  end.

(** The same part of [_fit_mnlogit], which has no numerical check. *)
Definition cli_response (X : Frame) (attributes_schema : list AttributeDef)
  (res : FitResult) : EstimateResponse :=
  let util_dict := group_utilities (res_params res) in
  let log_likelihood := res_llf res in
  {| intercept := get_default (res_params res) "const" 0%float;
     utilities := util_dict;
     columns := f_columns X;
     schema := attributes_schema;
     diagnostics :=
       {| converged := some_or (res_converged res) true;
          iterations := some_or (res_iterations res) 0%Z;
          method := res_method res;
          n_observations := List.length (f_rows X);
          n_parameters := List.length (f_columns X);
          log_likelihood := log_likelihood;
          null_log_likelihood := res_llnull res;
          aic := res_aic res;
          bic := res_bic res;
          pseudo_r2 := cli_pseudo_r2 (res_prsquared res) (res_llnull res)
                                     log_likelihood |} |}.

(** The solver gives no usable pseudo-R2: the attribute is absent or NaN. *)
Definition no_usable_prsquared (res : FitResult) : Prop :=
  match res_prsquared res with
  | None => True
  | Some p => is_nan p = true
  end.

(** A design matrix and two solver results on which the responses are
    evaluated below: a regular one, and one with an infinite null
    log-likelihood. *)
Definition sample_X : Frame :=
  {| f_columns := ["const"; "Price__Low"];
     f_rows := [[1; 1]; [1; -1]; [1; 1]; [1; -1]]%float |}.

Definition sample_res (llnull : option float) : FitResult :=
  {| res_params := [("const", 0.25%float); ("Price__Low", 0.5%float)];
     res_llf := Some (-10)%float;
     res_llnull := llnull;
     res_aic := Some 24%float;
     res_bic := Some 25%float;
     res_prsquared := None;
     res_converged := Some true;
     res_iterations := Some 5%Z;
     res_method := Some "newton" |}.

(** A name of the enclosing Python scope, resolved when the line runs. *)
Definition lookup_name {A : Type} (scope : dict A) (name : string) : result A :=
  match get scope name with
  | Some v => Ok v
  | None => Raise (NameError name)
  end.

(** One call of [model.fit]: the method name and [maxiter]. *)
Definition Attempt : Type := (string * nat)%type.

(** A computation that may call the solver: it extends the log of calls. *)
Definition Solver (A : Type) : Type := list Attempt -> list Attempt * result A.

(** [try: m except Exception as e: handler(e)] *)
Definition try_except {A : Type} (m : Solver A) (handler : exn -> Solver A) : Solver A :=
  fun log =>
    match m log with
    | (log', Ok a) => (log', Ok a)
    | (log', Raise e) => handler e log'
    end.

Definition raise {A : Type} (e : exn) : Solver A := fun log => (log, Raise e).

Section WithSolver.

(** statsmodels: the model object, its constructor [MNLogit(y, X)] and
    [model.fit(method=..., disp=False, maxiter=...)]. *)
Variable Model : Type.
Variable MNLogit : list Z -> Frame -> result Model.
Variable fit : Model -> string -> nat -> result FitResult.

Definition call_fit (model : Model) (method : string) (maxiter : nat) : Solver FitResult :=
  fun log => (log ++ [(method, maxiter)], fit model method maxiter).

(** The nested [try] blocks around [model.fit]; [both_failed] builds the
    message of the final [ValueError] from the two caught exceptions. *)
Definition fit_with_fallback (both_failed : string -> string -> string) (model : Model)
  : Solver FitResult :=
  try_except (call_fit model "newton" 100)
    (fun e =>
       try_except (call_fit model "bfgs" 200)
         (fun e2 => raise (ValueError (both_failed (exn_str e) (exn_str e2))))).

Definition app_both_failed (e e2 : string) : string :=
  "Model estimation failed with both methods. Newton: " ++ e ++ ", BFGS: " ++ e2.

Definition cli_both_failed (first_exc second_exc : string) : string :=
  "Model estimation failed with Newton (" ++ first_exc ++ ") and BFGS ("
  ++ second_exc ++ ").".

(** The block "Build model and estimate" shared, word for word, by
    [estimate_from_two_sheets] and [estimate_from_survey_export]; [scope]
    holds the attribute lists the enclosing function has bound by then,
    under their names. *)
Definition estimation_stage (scope : dict (list AttributeDef)) (df_data : DataFrame)
  (chosen_col : string) : result EstimateResponse :=
  rewrap "Estimation failed: "
    (df <- dropna df_data chosen_col ;;
     if Nat.eqb (List.length (df_rows df)) 0
     then Raise (ValueError "No valid choice data found after removing missing values")
     else
       y <- astype_int (column df chosen_col) ;;
       attributes_schema <- lookup_name scope "attributes_schema" ;;
       X <- build_design_matrix df attributes_schema ;;
       model <- MNLogit y X ;;
       res <- snd (fit_with_fallback app_both_failed model []) ;;
       app_response X attributes_schema res).

(** [_fit_mnlogit(df_long, attributes_schema)] of the command-line tool. *)
Definition _fit_mnlogit (df_long : DataFrame) (attributes_schema : list AttributeDef)
  : result EstimateResponse :=
  df_clean <- dropna df_long "chosen" ;;
  if Nat.eqb (List.length (df_rows df_clean)) 0
  then Raise (ValueError "No valid choice data found after removing missing values")
  else
    y <- astype_int (column df_clean "chosen") ;;
    X <- build_design_matrix df_clean attributes_schema ;;
    model <- MNLogit y X ;;
    result <- snd (fit_with_fallback cli_both_failed model []) ;;
    Ok (cli_response X attributes_schema result).

(** The first lines of the two estimation functions, up to the model
    object: what must succeed for the solver to be called at all. *)
Definition app_prepare (scope : dict (list AttributeDef)) (df_data : DataFrame)
  (chosen_col : string) : result (list AttributeDef * Frame * Model) :=
  df <- dropna df_data chosen_col ;;
  if Nat.eqb (List.length (df_rows df)) 0
  then Raise (ValueError "No valid choice data found after removing missing values")
  else
    y <- astype_int (column df chosen_col) ;;
    attributes_schema <- lookup_name scope "attributes_schema" ;;
    X <- build_design_matrix df attributes_schema ;;
    model <- MNLogit y X ;;
    Ok (attributes_schema, X, model).

Definition cli_prepare (df_long : DataFrame) (attributes_schema : list AttributeDef)
  : result (Frame * Model) :=
  df_clean <- dropna df_long "chosen" ;;
  if Nat.eqb (List.length (df_rows df_clean)) 0
  then Raise (ValueError "No valid choice data found after removing missing values")
  else
    y <- astype_int (column df_clean "chosen") ;;
    X <- build_design_matrix df_clean attributes_schema ;;
    model <- MNLogit y X ;;
    Ok (X, model).

Lemma estimation_stage_prepared (scope : dict (list AttributeDef)) (df_data : DataFrame)
  (chosen_col : string) :
  estimation_stage scope df_data chosen_col
  = rewrap "Estimation failed: "
      (p <- app_prepare scope df_data chosen_col ;;
       res <- snd (fit_with_fallback app_both_failed (snd p) []) ;;
       app_response (snd (fst p)) (fst (fst p)) res).
Proof.
  unfold estimation_stage, app_prepare. f_equal.
  destruct (dropna df_data chosen_col) as [df|e]; [|reflexivity]. cbn [bind].
  destruct (Nat.eqb (List.length (df_rows df)) 0); [reflexivity|].
  destruct (astype_int (column df chosen_col)) as [y|e]; [|reflexivity]. cbn [bind].
  destruct (lookup_name scope "attributes_schema") as [sch|e]; [|reflexivity]. cbn [bind].
  destruct (build_design_matrix df sch) as [X|e]; [|reflexivity]. cbn [bind].
  destruct (MNLogit y X) as [model|e]; reflexivity.
Qed.

Lemma fit_mnlogit_prepared (df_long : DataFrame) (attributes_schema : list AttributeDef) :
  _fit_mnlogit df_long attributes_schema
  = (p <- cli_prepare df_long attributes_schema ;;
     result <- snd (fit_with_fallback cli_both_failed (snd p) []) ;;
     Ok (cli_response (fst p) attributes_schema result)).
Proof.
  unfold _fit_mnlogit, cli_prepare.
  destruct (dropna df_long "chosen") as [df|e]; [|reflexivity]. cbn [bind].
  destruct (Nat.eqb (List.length (df_rows df)) 0); [reflexivity|].
  destruct (astype_int (column df "chosen")) as [y|e]; [|reflexivity]. cbn [bind].
  destruct (build_design_matrix df attributes_schema) as [X|e]; [|reflexivity]. cbn [bind].
  destruct (MNLogit y X) as [model|e]; reflexivity.
Qed.

(** The solver calls of [fit_with_fallback] and its outcome, by the outcome
    of each call. *)
Lemma fit_with_fallback_runs (both_failed : string -> string -> string) (model : Model)
  (log : list Attempt) :
  fit_with_fallback both_failed model log
  = match fit model "newton" 100 with
    | Ok res => (log ++ [("newton", 100)], Ok res)
    | Raise e =>
        match fit model "bfgs" 200 with
        | Ok res => ((log ++ [("newton", 100)]) ++ [("bfgs", 200)], Ok res)
        | Raise e2 =>
            ((log ++ [("newton", 100)]) ++ [("bfgs", 200)],
             Raise (ValueError (both_failed (exn_str e) (exn_str e2))))
        end
    end.
Proof.
  unfold fit_with_fallback, try_except, call_fit, raise.
  destruct (fit model "newton" 100); [reflexivity|].
  destruct (fit model "bfgs" 200); reflexivity.
Qed.

(** C5. The estimator calls the Newton solver first, with [maxiter] 100;
    it calls BFGS, with [maxiter] 200, only when that first call raised; when
    both raise, the whole call raises an error whose message contains the
    messages of both exceptions, in the service ([estimation_stage]) and in
    the command-line tool ([_fit_mnlogit]), and no response is returned. *)
Theorem solver_fallback_policy (model : Model) :
  (forall both_failed,
     fit_with_fallback both_failed model []
     = match fit model "newton" 100 with
       | Ok res => ([("newton", 100)], Ok res)
       | Raise e =>
           match fit model "bfgs" 200 with
           | Ok res => ([("newton", 100); ("bfgs", 200)], Ok res)
           | Raise e2 =>
               ([("newton", 100); ("bfgs", 200)],
                Raise (ValueError (both_failed (exn_str e) (exn_str e2))))
           end
       end) /\
  (forall e e2 scope df_data chosen_col attributes_schema X,
     fit model "newton" 100 = Raise e ->
     fit model "bfgs" 200 = Raise e2 ->
     app_prepare scope df_data chosen_col = Ok (attributes_schema, X, model) ->
     estimation_stage scope df_data chosen_col
     = Raise (HTTPException 400
                ("Estimation failed: Model estimation failed with both methods. Newton: "
                 ++ exn_str e ++ ", BFGS: " ++ exn_str e2))) /\
  (forall e e2 df_long attributes_schema X,
     fit model "newton" 100 = Raise e ->
     fit model "bfgs" 200 = Raise e2 ->
     cli_prepare df_long attributes_schema = Ok (X, model) ->
     _fit_mnlogit df_long attributes_schema
     = Raise (ValueError
                ("Model estimation failed with Newton (" ++ exn_str e ++ ") and BFGS ("
                 ++ exn_str e2 ++ ")."))).
Proof.
  split; [|split].
  - intros both_failed. apply (fit_with_fallback_runs both_failed model []).
  - intros e e2 scope df_data chosen_col attributes_schema X He He2 Hprep.
    rewrite estimation_stage_prepared, Hprep. cbn [bind fst snd].
    rewrite fit_with_fallback_runs, He, He2. reflexivity.
  - intros e e2 df_long attributes_schema X He He2 Hprep.
    rewrite fit_mnlogit_prepared, Hprep. cbn [bind fst snd].
    rewrite fit_with_fallback_runs, He, He2. reflexivity.
Qed.

End WithSolver.

Lemma app_pseudo_r2_derived (res : FitResult) (ll : float) :
  no_usable_prsquared res ->
  app_pseudo_r2 (res_prsquared res) (res_llnull res) ll
  = match res_llnull res with
    | Some n => if PrimFloat.eqb n 0 || is_nan n then None
                else Some (Some (1 - ll / n)%float)
    | None => None
    end.
Proof.
  unfold no_usable_prsquared, app_pseudo_r2. intros H.
  destruct (res_prsquared res) as [p|]; [rewrite H; cbn [negb]|];
    (destruct (res_llnull res) as [n|]; [|reflexivity]);
    destruct (PrimFloat.eqb n 0), (is_nan n); reflexivity.
Qed.

Lemma cli_pseudo_r2_derived (res : FitResult) :
  no_usable_prsquared res ->
  cli_pseudo_r2 (res_prsquared res) (res_llnull res) (res_llf res)
  = match res_llnull res with
    | Some n => if PrimFloat.eqb n 0 || is_nan n then None
                else Some (option_map (fun ll => (1 - ll / n)%float) (res_llf res))
    | None => None
    end.
Proof.
  unfold no_usable_prsquared, cli_pseudo_r2. intros H.
  destruct (res_prsquared res) as [p|]; [rewrite H; cbn [negb]|];
    (destruct (res_llnull res) as [n|]; [|reflexivity]);
    destruct (PrimFloat.eqb n 0), (is_nan n); destruct (res_llf res); reflexivity.
Qed.

(** C8, as the code has it. When the solver gives no usable pseudo-R2, the
    diagnostics of a successful fit contain [pseudo_r2 = 1 - logLik/nullLogLik]
    exactly when the null log-likelihood is present, not zero and not NaN, and
    have no [pseudo_r2] otherwise; an infinite null log-likelihood is not
    excluded. In the command-line tool the key then holds [None] when the
    log-likelihood itself is absent. *)
Theorem pseudo_r2_derived_unless_zero_or_nan
  (X : Frame) (attributes_schema : list AttributeDef) (res : FitResult) :
  no_usable_prsquared res ->
  (forall resp,
     app_response X attributes_schema res = Ok resp ->
     exists ll,
       res_llf res = Some ll /\
       pseudo_r2 (diagnostics resp)
       = match res_llnull res with
         | Some n => if PrimFloat.eqb n 0 || is_nan n then None
                     else Some (Some (1 - ll / n)%float)
         | None => None
         end) /\
  pseudo_r2 (diagnostics (cli_response X attributes_schema res))
  = match res_llnull res with
    | Some n => if PrimFloat.eqb n 0 || is_nan n then None
                else Some (option_map (fun ll => (1 - ll / n)%float) (res_llf res))
    | None => None
    end.
Proof.
  intros Hpr. split.
  - intros resp. unfold app_response.
    destruct (res_llf res) as [ll|]; [|discriminate].
    destruct (is_nan ll || is_infinity ll); [discriminate|].
    intros E. inversion E. subst resp. cbn [diagnostics pseudo_r2].
    exists ll. split; [reflexivity | now apply app_pseudo_r2_derived].
  - unfold cli_response. cbn [diagnostics pseudo_r2]. now apply cli_pseudo_r2_derived.
Qed.

Lemma pseudo_r2_derived_witness :
  (forall resp,
     app_response sample_X [] (sample_res (Some (-20)%float)) = Ok resp ->
     exists ll,
       Some (-10)%float = Some ll /\
       pseudo_r2 (diagnostics resp) = Some (Some (1 - ll / (-20))%float)) /\
  pseudo_r2 (diagnostics (cli_response sample_X [] (sample_res (Some (-20)%float))))
  = Some (Some 0.5%float).
Proof.
  apply (pseudo_r2_derived_unless_zero_or_nan sample_X [] (sample_res (Some (-20)%float))).
  exact I.
Defined.

(** Against the specification's wording: with a null
    log-likelihood of minus infinity (and a finite log-likelihood of -10) the
    fit is accepted and the diagnostics do contain [pseudo_r2], with value
    [1 - (-10)/(-inf) = 1.0], in the service and in the command-line tool. *)
Lemma pseudo_r2_present_for_infinite_null :
  is_infinity neg_infinity = true /\
  no_usable_prsquared (sample_res (Some neg_infinity)) /\
  option_map (fun resp => pseudo_r2 (diagnostics resp))
             (match app_response sample_X [] (sample_res (Some neg_infinity)) with
              | Ok resp => Some resp
              | Raise _ => None
              end)
  = Some (Some (Some 1%float)) /\
  pseudo_r2 (diagnostics (cli_response sample_X [] (sample_res (Some neg_infinity))))
  = Some (Some 1%float).
Proof.
  repeat split; vm_compute; reflexivity.
Qed.

Example pseudo_r2_absent_for_zero_null :
  pseudo_r2 (diagnostics (cli_response sample_X [] (sample_res (Some 0%float)))) = None /\
  pseudo_r2 (diagnostics (cli_response sample_X [] (sample_res (Some nan)))) = None /\
  pseudo_r2 (diagnostics (cli_response sample_X [] (sample_res None))) = None.
Proof. repeat split; vm_compute; reflexivity. Qed.

End Estimator.

(* ------------------------------------------------------------------ *)
(** ** Survey export converter: [parse_survey_export_to_long] *)

Module Converter.

Import DesignMatrix.

(** *** Column-name patterns *)

(** [$] also matches just before one final newline. *)
Fixpoint chomp (s : string) : string :=
  match s with
  | String c EmptyString => if Ascii.eqb c "010"%char then EmptyString else s
  | String c s' => String c (chomp s')
  | EmptyString => EmptyString
  end.

Fixpoint strip_prefix (p s : string) : option string :=
  match p, s with
  | EmptyString, _ => Some s
  | String a p', String b s' => if Ascii.eqb a b then strip_prefix p' s' else None
  | String _ _, EmptyString => None
  end.

(** The text before and after the first occurrence of the character [c]. *)
Fixpoint split_first (c : ascii) (s : string) : option (string * string) :=
  match s with
  | EmptyString => None
  | String a s' =>
      if Ascii.eqb a c then Some (EmptyString, s')
      else match split_first c s' with
           | Some (before, after) => Some (String a before, after)
           | None => None
           end
  end.

(** The text before and after the last occurrence of the character [c]. *)
Fixpoint split_last (c : ascii) (s : string) : option (string * string) :=
  match s with
  | EmptyString => None
  | String a s' =>
      match split_last c s' with
      | Some (before, after) => Some (String a before, after)
      | None => if Ascii.eqb a c then Some (EmptyString, s') else None
      end
  end.

(** The character class [[A-Z0-9_]]. *)
Definition is_brand_char (c : ascii) : bool :=
  let n := nat_of_ascii c in
  (Nat.leb 65 n && Nat.leb n 90) || is_digit c || Ascii.eqb c "_"%char.

Definition is_brand (s : string) : bool :=
  negb (String.eqb s EmptyString) && all_chars is_brand_char s.

(** [re.match(r'^QC1_\d+$', c)] *)
Definition is_choice_col (c : string) : bool :=
  match strip_prefix "QC1_" c with
  | Some rest => is_digits (chomp rest)
  | None => false
  end.

(** The groups of [^hATTR_([A-Z0-9_]+?)_(\d+)c(\d+)$]. The text after the
    prefix must be a brand, an underscore, digits, [c], digits; the digits
    and [c] hold no underscore, so the brand ends at the last underscore
    whatever the laziness of the first group. *)
Definition match_attr_value (col : string) : option (string * string * string) :=
  match strip_prefix "hATTR_" col with
  | None => None
  | Some rest =>
      match split_last "_"%char (chomp rest) with
      | None => None
      | Some (brand_raw, tail) =>
          match split_first "c"%char tail with
          | None => None
          | Some (task_str, slot_str) =>
              if is_brand brand_raw && is_digits task_str && is_digits slot_str
              then Some (brand_raw, task_str, slot_str)
              else None
          end
      end
  end.

(** The groups of [^hATTR_([A-Z0-9_]+?)_H_(\d+)c(\d+)$]: as above, with
    [_H] between the brand and the last underscore. *)
Definition match_attr_header (col : string) : option (string * string * string) :=
  match strip_prefix "hATTR_" col with
  | None => None
  | Some rest =>
      match split_last "_"%char (chomp rest) with
      | None => None
      | Some (before, tail) =>
          match split_first "c"%char tail with
          | None => None
          | Some (task_str, slot_str) =>
              let n := String.length before in
              let brand_raw := substring 0 (n - 2) before in
              if Nat.leb 2 n && String.eqb (substring (n - 2) 2 before) "_H"
                 && is_brand brand_raw && is_digits task_str && is_digits slot_str
              then Some (brand_raw, task_str, slot_str)
              else None
          end
      end
  end.

(** *** The index of attribute columns: brand, task, slot *)

Record SlotEntry : Type := {
  slot_header : option string;
  slot_value : option string
}.

Definition SlotMap : Type := list (nat * SlotEntry).
Definition TaskMap : Type := list (nat * SlotMap).
Definition BrandMap : Type := dict TaskMap.

(** [d.setdefault(k, dflt)] followed by an update of the entry in place. *)
Fixpoint upsert_nat {V : Type} (k : nat) (dflt : V) (f : V -> V) (d : list (nat * V))
  : list (nat * V) :=
  match d with
  | [] => [(k, f dflt)]
  | (k', v) :: d' =>
      if Nat.eqb k' k then (k', f v) :: d' else (k', v) :: upsert_nat k dflt f d'
  end.

Fixpoint upsert_str {V : Type} (k : string) (dflt : V) (f : V -> V) (d : dict V) : dict V :=
  match d with
  | [] => [(k, f dflt)]
  | (k', v) :: d' =>
      if String.eqb k' k then (k', f v) :: d' else (k', v) :: upsert_str k dflt f d'
  end.

Fixpoint get_nat {V : Type} (d : list (nat * V)) (k : nat) : option V :=
  match d with
  | [] => None
  | (k', v) :: d' => if Nat.eqb k' k then Some v else get_nat d' k
  end.

Definition update_slot (brand : string) (task_num slot_num : nat)
  (f : SlotEntry -> SlotEntry) (brand_columns : BrandMap) : BrandMap :=
  upsert_str brand []
    (upsert_nat task_num []
       (upsert_nat slot_num {| slot_header := None; slot_value := None |} f))
    brand_columns.

(** The body of the loop [for col in df.columns]. *)
Definition index_column (brand_columns : BrandMap) (col : string) : BrandMap :=
  match match_attr_header col with
  | Some (brand_raw, task_str, slot_str) =>
      update_slot (upper brand_raw) (nat_of_digits task_str) (nat_of_digits slot_str)
        (fun e => {| slot_header := Some col; slot_value := slot_value e |})
        brand_columns
  | None =>
      match match_attr_value col with
      | Some (brand_raw, task_str, slot_str) =>
          let brand := upper brand_raw in
          if endswith brand "_H" then brand_columns
          else update_slot brand (nat_of_digits task_str) (nat_of_digits slot_str)
                 (fun e => {| slot_header := slot_header e; slot_value := Some col |})
                 brand_columns
      | None => brand_columns
      end
  end.

Definition some_slots (o : option SlotMap) : SlotMap :=
  match o with Some m => m | None => [] end.

Definition has_value (e : SlotEntry) : bool :=
  match slot_value e with Some _ => true | None => false end.

Definition nonempty {A : Type} (l : list A) : bool :=
  match l with [] => false | _ => true end.

(** The pruning loops: slots without a value column, then tasks without
    slots, then brands without tasks. *)
Definition prune (brand_columns : BrandMap) : BrandMap :=
  filter (fun bt : string * TaskMap => nonempty (snd bt))
    (map (fun bt : string * TaskMap =>
            (fst bt,
             filter (fun ts : nat * SlotMap => nonempty (snd ts))
               (map (fun ts : nat * SlotMap =>
                       (fst ts, filter (fun se : nat * SlotEntry => has_value (snd se)) (snd ts)))
                    (snd bt))))
         brand_columns).

Definition index_columns (cols : list string) : BrandMap :=
  prune (fold_left index_column cols []).

(** *** Attribute definitions from the design *)

(** A level of a design attribute: the [code] and [level] keys as text,
    empty when absent; a level given as a plain value has an empty code. *)
Record DesignLevel : Type := {
  dl_code : string;
  dl_level : string
}.

(** An entry of [attributes_from_design], keys read as text and empty when
    absent or [None]: [da_label] is [label] or else [attributeText],
    [da_reference] is [reference] or else [referenceLevel], [da_attr_no] is
    [attributeNo], [attribute_no] or [attributeNumber]. *)
Record DesignAttr : Type := {
  da_name : string;
  da_label : string;
  da_reference : string;
  da_attr_no : string;
  da_levels : list DesignLevel
}.

(** [entry_data] *)
Record DesignEntry : Type := {
  de_label : string;
  de_reference : option string;
  de_code_map : dict string;
  de_level_names : list string;
  de_schema_name : string
}.

(** [a or b] on text. *)
Definition or_str (a b : string) : string :=
  if String.eqb a "" then b else a.

Definition add_level_name (level_names : list string) (level_name : string) : list string :=
  if negb (String.eqb level_name "") && negb (str_in level_name level_names)
  then level_names ++ [level_name] else level_names.

Definition design_entry (attr : DesignAttr) : DesignEntry :=
  let attr_name := strip (da_name attr) in
  let attr_key := upper attr_name in
  let label := strip (or_str (da_label attr) attr_name) in
  let reference_str :=
    if String.eqb (strip (da_reference attr)) "" then None
    else Some (strip (da_reference attr)) in
  let attr_no := strip (da_attr_no attr) in
  let code_map :=
    fold_left (fun (code_map : dict string) (level_info : DesignLevel) =>
                 let code := strip (dl_code level_info) in
                 let level_name := strip (dl_level level_info) in
                 if String.eqb code "" then code_map
                 else set code_map code (or_str level_name code))
              (da_levels attr) [] in
  let level_names :=
    fold_left (fun level_names level_info => add_level_name level_names (strip (dl_level level_info)))
              (da_levels attr) [] in
  let level_names :=
    match reference_str with
    | Some r => if str_in r level_names then level_names else level_names ++ [r]
    | None => level_names
    end in
  {| de_label := or_str label (or_str attr_name attr_no);
     de_reference := reference_str;
     de_code_map := code_map;
     de_level_names := level_names;
     de_schema_name :=
       or_str attr_name
         (or_str label (if String.eqb attr_no "" then attr_key
                        else ("ATTR_" ++ attr_no)%string)) |}.

(** [design_lookup], keyed by upper-case name. *)
Definition build_design_lookup (attributes_from_design : list DesignAttr) : dict DesignEntry :=
  fold_left (fun lookup attr =>
               let attr_key := upper (strip (da_name attr)) in
               if String.eqb attr_key "" then lookup
               else set lookup attr_key (design_entry attr))
            attributes_from_design [].

(** [design_lookup_by_no], keyed by attribute number. *)
Definition build_design_lookup_by_no (attributes_from_design : list DesignAttr)
  : dict DesignEntry :=
  fold_left (fun lookup attr =>
               let attr_no := strip (da_attr_no attr) in
               if String.eqb attr_no "" then lookup
               else set lookup attr_no (design_entry attr))
            attributes_from_design [].

(** *** Rows *)

(** The nested [normalize_code]. *)
Definition normalize_code (value : cell) : string :=
  match value with
  | CInt z => str_of_Z z
  | CStr s => strip s
  | CNaN => "nan"
  end.

(** [int(chosen_alt_raw)]; [None] stands for [TypeError] or [ValueError]. *)
Definition int_of_cell (c : cell) : option Z :=
  match c with
  | CInt z => Some z
  | CStr s => int_of_string s
  | CNaN => None
  end.

(** [s[:-1]] *)
Definition drop_last_char (s : string) : string :=
  substring 0 (String.length s - 1) s.

Fixpoint insert_sorted (k : nat) (l : list nat) : list nat :=
  match l with
  | [] => [k]
  | x :: l' => if Nat.leb k x then k :: l else x :: insert_sorted k l'
  end.

(** [sorted] on slot numbers. *)
Definition sorted_nat (l : list nat) : list nat := fold_right insert_sorted [] l.

Fixpoint insert_sorted_str (k : string) (l : list string) : list string :=
  match l with
  | [] => [k]
  | x :: l' => if String.leb k x then k :: l else x :: insert_sorted_str k l'
  end.

(** [sorted] on names. *)
Definition sorted_str (l : list string) : list string := fold_right insert_sorted_str [] l.

(** [attributes_seen.add(name)] *)
Definition set_add (name : string) (seen : list string) : list string :=
  if str_in name seen then seen else seen ++ [name].

(** The state the loops over respondents and tasks update. *)
Record ConvState : Type := {
  long_data : list (dict cell);
  attributes_seen : list string;
  skipped_tasks : nat;
  skipped_due_to_missing_alts : nat;
  skipped_due_to_choice : nat;
  include_none_option : bool
}.

Definition initial_state : ConvState :=
  {| long_data := []; attributes_seen := []; skipped_tasks := 0;
     skipped_due_to_missing_alts := 0; skipped_due_to_choice := 0;
     include_none_option := false |}.

Section Rows.

Variable cols : list string.
Variable design_lookup : dict DesignEntry.
Variable design_lookup_by_no : dict DesignEntry.
Variable brand_columns : BrandMap.

(** The body of the loop over the slots of one alternative: the row so far
    and the names seen so far, updated. *)
Definition read_slot (row : list cell) (brand : string) (task_slots : SlotMap)
  (acc : dict cell * list string) (slot : nat) : dict cell * list string :=
  match get_nat task_slots slot with
  | None => acc
  | Some col_info =>
      match slot_value col_info with
      | None => acc
      | Some value_col =>
          let raw_value := row_get cols row value_col (CStr "") in
          if isna raw_value
             || match raw_value with CStr s => String.eqb s "" | _ => false end
          then acc
          else
            let attr_no :=
              match slot_header col_info with
              | Some header_col =>
                  let header_value := row_get cols row header_col (CStr "") in
                  if isna header_value then "" else strip (cell_str header_value)
              | None => ""
              end in
            let attr_no :=
              if String.eqb attr_no "" then
                let normalized := normalize_code raw_value in
                if Nat.ltb 1 (String.length normalized) then drop_last_char normalized
                else ""
              else attr_no in
            let entry :=
              match (if String.eqb attr_no "" then None else get design_lookup_by_no attr_no) with
              | Some e => Some e
              | None => get design_lookup brand
              end in
            match entry with
            | None => acc
            | Some design_entry =>
                let level_code := normalize_code raw_value in
                let level_name :=
                  or_str (get_default (de_code_map design_entry) level_code "") level_code in
                let schema_name :=
                  or_str (de_schema_name design_entry)
                    (or_str (de_label design_entry) (or_str attr_no brand)) in
                (set (fst acc) schema_name (CStr level_name), set_add schema_name (snd acc))
            end
      end
  end.

(** The body of the loop over [enumerate(brand_order, start=1)]: the row of
    one alternative, when the brand has slots for the task. *)
Definition alt_row (resp_id : Z) (task_num : nat) (chosen_alt : Z) (row : list cell)
  (seen : list string) (alt_index : nat) (brand : string)
  : option (dict cell) * list string :=
  let task_slots := some_slots (get_nat (get_default brand_columns brand []) task_num) in
  match task_slots with
  | [] => (None, seen)
  | _ =>
      let alt_data : dict cell :=
        [("resp_id", CInt resp_id);
         ("task_id", CInt (Z.of_nat task_num));
         ("alt_id", CInt (Z.of_nat alt_index));
         ("chosen", CInt (if Z.eqb (Z.of_nat alt_index) chosen_alt then 1 else 0)%Z)] in
      let acc := fold_left (read_slot row brand task_slots)
                           (sorted_nat (map fst task_slots)) (alt_data, seen) in
      (Some (fst acc), snd acc)
  end.

(** [brand_order] and [n_alts] *)
Definition brand_order : list string := keys brand_columns.
Definition n_alts : nat := List.length brand_order.

(** The loop over the alternatives of one task: the rows assembled, in
    order, and the names seen. *)
Definition alt_rows_for_task (resp_id : Z) (task_num : nat) (chosen_alt : Z)
  (row : list cell) (seen : list string) : list (dict cell) * list string :=
  fold_left
    (fun (acc : list (dict cell) * list string) (ib : nat * string) =>
       match alt_row resp_id task_num chosen_alt row (snd acc) (fst ib) (snd ib) with
       | (Some alt_data, seen') => (fst acc ++ [alt_data], seen')
       | (None, seen') => (fst acc, seen')
       end)
    (combine (seq 1 n_alts) brand_order) ([], seen).

(** The row of the synthesized "none" alternative. *)
Definition none_alt_data (resp_id : Z) (task_num : nat) (chosen_alt : Z) : dict cell :=
  let none_alt_id := Z.of_nat (n_alts + 1) in
  [("resp_id", CInt resp_id);
   ("task_id", CInt (Z.of_nat task_num));
   ("alt_id", CInt none_alt_id);
   ("chosen", CInt (if Z.eqb chosen_alt none_alt_id then 1 else 0)%Z)].

Definition skip_task (st : ConvState) : ConvState :=
  {| long_data := long_data st;
     attributes_seen := attributes_seen st;
     skipped_tasks := skipped_tasks st + 1;
     skipped_due_to_missing_alts := skipped_due_to_missing_alts st;
     skipped_due_to_choice := skipped_due_to_choice st;
     include_none_option := include_none_option st |}.

(** The body of the loop [for task_num in range(1, n_tasks + 1)]. *)
Definition process_task (resp_id : Z) (row : list cell) (st : ConvState) (task_num : nat)
  : ConvState :=
  let choice_col := ("QC1_" ++ str_of_nat task_num)%string in
  if negb (str_in choice_col cols) then st
  else
    let chosen_alt_raw := row_get cols row choice_col CNaN in
    if isna chosen_alt_raw then st
    else
      match int_of_cell chosen_alt_raw with
      | None => skip_task st
      | Some chosen_alt =>
          if (chosen_alt <? 1)%Z then skip_task st
          else
            let include_none :=
              if (Z.of_nat n_alts <? chosen_alt)%Z then true else include_none_option st in
            let assembled :=
              alt_rows_for_task resp_id task_num chosen_alt row (attributes_seen st) in
            let alt_rows :=
              if include_none
              then fst assembled ++ [none_alt_data resp_id task_num chosen_alt]
              else fst assembled in
            if Nat.ltb (List.length alt_rows) 2 then
              {| long_data := long_data st;
                 attributes_seen := snd assembled;
                 skipped_tasks := skipped_tasks st + 1;
                 skipped_due_to_missing_alts := skipped_due_to_missing_alts st + 1;
                 skipped_due_to_choice := skipped_due_to_choice st;
                 include_none_option := include_none |}
            else if (Z.of_nat (List.length alt_rows) <? chosen_alt)%Z then
              {| long_data := long_data st;
                 attributes_seen := snd assembled;
                 skipped_tasks := skipped_tasks st + 1;
                 skipped_due_to_missing_alts := skipped_due_to_missing_alts st;
                 skipped_due_to_choice := skipped_due_to_choice st + 1;
                 include_none_option := include_none |}
            else
              {| long_data := long_data st ++ alt_rows;
                 attributes_seen := snd assembled;
                 skipped_tasks := skipped_tasks st;
                 skipped_due_to_missing_alts := skipped_due_to_missing_alts st;
                 skipped_due_to_choice := skipped_due_to_choice st;
                 include_none_option := include_none |}
      end.

(** The loop [for resp_idx, row in df.iterrows()]. *)
Definition convert_rows (n_tasks : nat) (rows : list (list cell)) : ConvState :=
  fold_left
    (fun st (ir : nat * list cell) =>
       fold_left (process_task (Z.of_nat (fst ir) + 1) (snd ir)) (seq 1 n_tasks) st)
    (combine (seq 0 (List.length rows)) rows)
    initial_state.

End Rows.

(** [pd.DataFrame(long_data)]: the keys in order of first appearance, and
    NaN where a record lacks a key. *)
Definition dataframe_of_records (records : list (dict cell)) : DataFrame :=
  let columns :=
    fold_left (fun cols r => fold_left (fun cols k => set_add k cols) (keys r) cols)
              records [] in
  {| df_columns := columns;
     df_rows := map (fun r => map (fun c => get_default r c CNaN) columns) records |}.

(** The schema when a design was given. *)
Definition schema_from_design (attributes_from_design : list DesignAttr)
  (design_lookup design_lookup_by_no : dict DesignEntry) : list AttributeDef :=
  flat_map
    (fun attr =>
       let attr_name := strip (da_name attr) in
       let attr_key := upper attr_name in
       let attr_no := strip (da_attr_no attr) in
       let entry :=
         match (if String.eqb attr_no "" then None else get design_lookup_by_no attr_no) with
         | Some e => Some e
         | None => if String.eqb attr_key "" then None else get design_lookup attr_key
         end in
       match entry with
       | None => []
       | Some design_entry =>
           let schema_name :=
             or_str (de_schema_name design_entry)
               (or_str attr_name (or_str attr_key attr_no)) in
           let levels :=
             match de_level_names design_entry with
             | [] => filter (fun lvl => negb (String.eqb lvl ""))
                            (map (fun li => strip (dl_level li)) (da_levels attr))
             | names => names
             end in
           [{| attr_name := schema_name;
               attr_levels := levels;
               attr_reference := de_reference design_entry;
               attr_label := Some (de_label design_entry) |}]
       end)
    attributes_from_design.

(** The schema inferred from the values seen, names sorted, levels in
    order of first appearance. *)
Definition schema_from_seen (df_long : DataFrame) (seen : list string) : list AttributeDef :=
  map (fun schema_name =>
         let levels_series :=
           if str_in schema_name (df_columns df_long)
           then filter (fun c => negb (isna c)) (column df_long schema_name)
           else [] in
         let seen_levels :=
           fold_left (fun seen_levels val => set_add (cell_str val) seen_levels)
                     levels_series [] in
         {| attr_name := schema_name;
            attr_levels := seen_levels;
            attr_reference := None;
            attr_label := Some schema_name |})
      (sorted_str seen).

(** The state of the conversion loops at their end, for a table that has
    choice and attribute columns. *)
Definition conversion_state (df : DataFrame) (attributes_from_design : list DesignAttr)
  : ConvState :=
  convert_rows (df_columns df)
    (build_design_lookup attributes_from_design)
    (build_design_lookup_by_no attributes_from_design)
    (index_columns (df_columns df))
    (List.length (filter is_choice_col (df_columns df)))
    (df_rows df).

Definition parse_survey_export_to_long (df : DataFrame)
  (attributes_from_design : option (list DesignAttr))
  : result (DataFrame * list AttributeDef) :=
  let design := match attributes_from_design with Some l => l | None => [] end in
  let design_lookup := build_design_lookup design in
  let design_lookup_by_no := build_design_lookup_by_no design in
  let choice_cols := filter is_choice_col (df_columns df) in
  let n_tasks := List.length choice_cols in
  if Nat.eqb n_tasks 0
  then Raise (ValueError "No choice columns found (expected QC1_1, QC1_2, etc.)")
  else
    let brand_columns := index_columns (df_columns df) in
    if Nat.eqb (n_alts brand_columns) 0
    then Raise (ValueError
           "No attribute columns found (expected hATTR_{BRAND}_{TASK}c{SLOT} pattern)")
    else
      let st := conversion_state df design in
      match long_data st with
      | [] => Raise (ValueError
                "No valid choice data could be constructed from the survey export")
      | _ =>
          let df_long := dataframe_of_records (long_data st) in
          let attributes_schema :=
            match design with
            | [] => schema_from_seen df_long (attributes_seen st)
            | _ => schema_from_design design design_lookup design_lookup_by_no
            end in
          Ok (df_long, attributes_schema)
      end.

(** Scenario 3 of the specification: one choice column, two alternatives,
    and a respondent whose choice is [choice]. *)
Definition two_alternative_export (choice : Z) (a b : cell) : DataFrame :=
  {| df_columns := ["QC1_1"; "hATTR_A_1c1"; "hATTR_B_1c1"];
     df_rows := [[CInt choice; a; b]] |}.


Definition some_design (attributes_from_design : option (list DesignAttr)) : list DesignAttr :=
  match attributes_from_design with Some l => l | None => [] end.

(** The brand has slots for the task: its alternative gets a row. *)
Definition has_slots (brand_columns : BrandMap) (task_num : nat) (brand : string) : bool :=
  nonempty (some_slots (get_nat (get_default brand_columns brand []) task_num)).

Example index_columns_example :
  index_columns ["record"; "QC1_1"; "hATTR_A_H_1c1"; "hATTR_A_1c1"; "hATTR_B_1c1";
                 "hATTR_C_H_1c1"]
  = [("A", [(1, [(1, {| slot_header := Some "hATTR_A_H_1c1";
                        slot_value := Some "hATTR_A_1c1" |})])]);
     ("B", [(1, [(1, {| slot_header := None; slot_value := Some "hATTR_B_1c1" |})])])].
Proof. reflexivity. Qed.

Lemma alt_row_some_iff_slots (cols : list string) (L1 L2 : dict DesignEntry)
  (bm : BrandMap) (resp_id : Z) (task_num : nat) (chosen_alt : Z) (row : list cell)
  (seen : list string) (alt_index : nat) (brand : string) :
  match fst (alt_row cols L1 L2 bm resp_id task_num chosen_alt row seen alt_index brand) with
  | Some _ => has_slots bm task_num brand = true
  | None => has_slots bm task_num brand = false
  end.
Proof.
  unfold alt_row, has_slots.
  destruct (some_slots (get_nat (get_default bm brand []) task_num)); reflexivity.
Qed.

(** The loop over alternatives assembles one row per brand that has slots
    for the task, whatever the cells and the design hold. *)
Lemma alt_rows_count (cols : list string) (L1 L2 : dict DesignEntry) (bm : BrandMap)
  (resp_id : Z) (task_num : nat) (chosen_alt : Z) (row : list cell) :
  forall (brands : list string) (idxs : list nat) (rows0 : list (dict cell))
         (seen0 : list string),
    List.length idxs = List.length brands ->
    List.length
      (fst (fold_left
              (fun (acc : list (dict cell) * list string) (ib : nat * string) =>
                 match alt_row cols L1 L2 bm resp_id task_num chosen_alt row
                               (snd acc) (fst ib) (snd ib) with
                 | (Some alt_data, seen') => (fst acc ++ [alt_data], seen')
                 | (None, seen') => (fst acc, seen')
                 end)
              (combine idxs brands) (rows0, seen0)))
    = List.length rows0 + List.length (filter (has_slots bm task_num) brands).
Proof.
  induction brands as [|brand brands IH]; intros idxs rows0 seen0 Hlen.
  - destruct idxs; simpl; lia.
  - destruct idxs as [|i idxs]; [discriminate|]. cbn [combine fold_left fst snd filter].
    pose proof (alt_row_some_iff_slots cols L1 L2 bm resp_id task_num chosen_alt row
                  seen0 i brand) as Hslot.
    destruct (alt_row cols L1 L2 bm resp_id task_num chosen_alt row seen0 i brand)
      as [[alt_data|] seen'];
      cbn [fst] in Hslot; rewrite Hslot; rewrite IH by (now inversion Hlen).
    + rewrite length_app. simpl. lia.
    + reflexivity.
Qed.

Lemma alt_rows_for_task_count (cols : list string) (L1 L2 : dict DesignEntry)
  (bm : BrandMap) (resp_id : Z) (task_num : nat) (chosen_alt : Z) (row : list cell)
  (seen : list string) :
  List.length (fst (alt_rows_for_task cols L1 L2 bm resp_id task_num chosen_alt row seen))
  = List.length (filter (has_slots bm task_num) (brand_order bm)).
Proof.
  unfold alt_rows_for_task. rewrite alt_rows_count.
  - reflexivity.
  - unfold n_alts. now rewrite length_seq.
Qed.






End Converter.

(* ------------------------------------------------------------------ *)
(** ** The estimation endpoints *)

Module Endpoints.

Import DesignMatrix Estimator Converter.

(** An uploaded file: its name, the length of its content, and what pandas
    reads from the content, the sheets in order or an exception. *)
Record Upload : Type := {
  filename : string;
  file_size : N;
  workbook : result (list DataFrame)
}.

Definition MAX_FILE_SIZE_MB : N := 50.
Definition MAX_FILE_SIZE_BYTES : N := MAX_FILE_SIZE_MB * 1024 * 1024.

(** The body of the loop of [parse_definitions_sheet]: the attribute of one
    row, or [None] for a row that is passed over. *)
Definition parse_definition_row (cols : list string) (row : list cell)
  : result (option AttributeDef) :=
  let name := strip (cell_str (row_get cols row "name" CNaN)) in
  let typ := lower (strip (cell_str (row_get cols row "type" (CStr "categorical")))) in
  let levels_raw := row_get cols row "levels" (CStr "") in
  let reference := row_get cols row "reference" CNaN in
  if String.eqb name "" || String.eqb (lower name) "nan" then Ok None
  else if negb (String.eqb typ "categorical") then
    Raise (ValueError ("Only categorical attributes supported. Offending attribute: '"
                       ++ name ++ "' (type='" ++ typ ++ "')."))
  else
    match levels_raw with
    | CStr raw =>
        if String.eqb (strip raw) "" then
          Raise (ValueError ("Attribute '" ++ name ++ "' must list levels (comma-separated)."))
        else
          let levels := filter (fun s => negb (String.eqb s ""))
                               (map strip (split_comma raw)) in
          if Nat.ltb (List.length levels) 2 then
            Raise (ValueError ("Attribute '" ++ name ++ "' must have at least 2 levels."))
          else
            let ref := if isna reference then None
                       else Some (strip (cell_str reference)) in
            match ref with
            | Some r =>
                if negb (String.eqb r "") && negb (str_in r levels) then
                  Raise (ValueError ("Attribute '" ++ name ++ "' reference '" ++ r
                                     ++ "' is not in its levels."))
                else Ok (Some {| attr_name := name; attr_levels := levels;
                                 attr_reference := ref; attr_label := None |})
            | None => Ok (Some {| attr_name := name; attr_levels := levels;
                                  attr_reference := None; attr_label := None |})
            end
    | _ => Raise (ValueError ("Attribute '" ++ name
                              ++ "' must list levels (comma-separated)."))
    end.

Fixpoint somes {A : Type} (l : list (option A)) : list A :=
  match l with
  | [] => []
  | Some a :: l' => a :: somes l'
  | None :: l' => somes l'
  end.

Definition parse_definitions_sheet (df_defs : DataFrame) : result (list AttributeDef) :=
  let cols := df_columns df_defs in
  if negb (str_in "name" cols) then
    Raise (ValueError "Definitions must include a 'name' column.")
  else if negb (str_in "type" cols) then
    Raise (ValueError "Definitions must include a 'type' column (must be 'categorical').")
  else if negb (str_in "levels" cols) then
    Raise (ValueError "Definitions must include a 'levels' column (comma-separated).")
  else
    attributes <- mapM (parse_definition_row cols) (df_rows df_defs) ;;
    Ok (somes attributes).

(** The loop "Validate required columns": the first missing one raises. *)
Fixpoint require_columns (prefix : string) (cols : list string) (required : list string)
  : result unit :=
  match required with
  | [] => Ok tt
  | col :: rest =>
      if str_in col cols then require_columns prefix cols rest
      else Raise (HTTPException 400 (prefix ++ col))
  end.

(** A workbook of the two-sheet flow: a data sheet with the four id columns
    and one attribute column, and a definitions sheet for that attribute. *)
Definition valid_workbook : Upload :=
  {| filename := "study.xlsx";
     file_size := 9000;
     workbook :=
       Ok [{| df_columns := ["resp_id"; "task_id"; "alt_id"; "chosen"; "Price"];
              df_rows := [[CInt 1; CInt 1; CInt 1; CInt 1; CStr "Low"];
                          [CInt 1; CInt 1; CInt 2; CInt 0; CStr "High"];
                          [CInt 2; CInt 1; CInt 1; CInt 0; CStr "Medium"];
                          [CInt 2; CInt 1; CInt 2; CInt 1; CStr "High"]] |};
           {| df_columns := ["name"; "type"; "levels"];
              df_rows := [[CStr "Price"; CStr "categorical"; CStr "Low, Medium, High"]] |}] |}.

(** A solver that always converges, to run the endpoints on. *)
Definition constant_solver (_ : unit) (method : string) (_ : nat) : result FitResult :=
  Ok {| res_params := [("const", 0.25%float); ("Price__Low", 0.5%float);
                       ("Price__Medium", (-0.125)%float)];
        res_llf := Some (-2.5)%float;
        res_llnull := Some (-2.75)%float;
        res_aic := Some 11%float;
        res_bic := Some 9.5%float;
        res_prsquared := Some 0.125%float;
        res_converged := Some true;
        res_iterations := Some 6%Z;
        res_method := Some method |}.

Section WithSolver.

Variable Model : Type.
Variable MNLogit : list Z -> Frame -> result Model.
Variable fit : Model -> string -> nat -> result FitResult.

(** [f"{file_size / 1024 / 1024:.1f}"], Python's formatting of a float. *)
Variable format_mb : N -> string.

(** The checks of the file name and size that open both endpoints. *)
Definition check_upload (file : Upload) : result unit :=
  if negb (endswith (lower (filename file)) ".xlsx") then
    Raise (HTTPException 400 "Only .xlsx Excel files are supported.")
  else if (MAX_FILE_SIZE_BYTES <? file_size file)%N then
    Raise (HTTPException 400
             ("File size (" ++ format_mb (file_size file)
              ++ "MB) exceeds maximum allowed (50MB)"))
  else Ok tt.

Definition empty_frame : DataFrame := {| df_columns := []; df_rows := [] |}.

Definition estimate_from_two_sheets (file : Upload)
  (resp_col task_col alt_col chosen_col : string) : result EstimateResponse :=
  _ <- check_upload file ;;
  dfs <- rewrap "Failed to read Excel: "
           (sheets <- workbook file ;;
            if Nat.ltb (List.length sheets) 2 then
              Raise (HTTPException 400
                       ("Workbook must have 2 sheets: data then definitions. Found "
                        ++ str_of_nat (List.length sheets) ++ " sheet(s)."))
            else Ok (nth 0 sheets empty_frame, nth 1 sheets empty_frame)) ;;
  let df_data := fst dfs in
  let df_defs := snd dfs in
  attributes <- rewrap "Definitions error: " (parse_definitions_sheet df_defs) ;;
  _ <- require_columns "Missing required column in data: " (df_columns df_data)
         [resp_col; task_col; alt_col; chosen_col] ;;
  estimation_stage Model MNLogit fit [("attributes", attributes)] df_data chosen_col.

Definition estimate_from_survey_export (file : Upload)
  (attributes_from_design : option (list DesignAttr))
  (resp_col task_col alt_col chosen_col : string) : result EstimateResponse :=
  _ <- check_upload file ;;
  df_wide <- rewrap "Failed to read Excel: "
               (sheets <- workbook file ;;
                match sheets with
                | df :: _ => Ok df
                | [] => Raise (IndexError "list index out of range")
                end) ;;
  parsed <- rewrap "Survey conversion failed: "
              (parse_survey_export_to_long df_wide attributes_from_design) ;;
  let df_long := fst parsed in
  let attributes_schema := snd parsed in
  _ <- require_columns "Missing required column: " (df_columns df_long)
         [resp_col; task_col; alt_col; chosen_col] ;;
  estimation_stage Model MNLogit fit [("attributes_schema", attributes_schema)]
                   df_long chosen_col.

Lemma rewrap_raises_400 {A : Type} (prefix : string) (r : result A) (e : exn) :
  rewrap prefix r = Raise e -> exists detail, e = HTTPException 400 detail.
Proof.
  destruct r as [a|e']; simpl; intros H; [discriminate|].
  inversion H. eexists. reflexivity.
Qed.

Lemma require_columns_raises_400 (prefix : string) (cols required : list string) (e : exn) :
  require_columns prefix cols required = Raise e -> exists detail, e = HTTPException 400 detail.
Proof.
  induction required as [|col rest IH]; simpl; [discriminate|].
  destruct (str_in col cols); [exact IH|].
  intros H. inversion H. eexists. reflexivity.
Qed.

Lemma check_upload_raises_400 (file : Upload) (e : exn) :
  check_upload file = Raise e -> exists detail, e = HTTPException 400 detail.
Proof.
  unfold check_upload.
  destruct (negb (endswith (lower (filename file)) ".xlsx")).
  - intros H. inversion H. eexists. reflexivity.
  - destruct (MAX_FILE_SIZE_BYTES <? file_size file)%N; [|discriminate].
    intros H. inversion H. eexists. reflexivity.
Qed.

(** With [attributes_schema] unbound the shared block never gets past the
    line that builds the design matrix. *)
Lemma estimation_stage_unbound (scope : dict (list AttributeDef)) (df_data : DataFrame)
  (chosen_col : string) :
  get scope "attributes_schema" = None ->
  exists detail,
    estimation_stage Model MNLogit fit scope df_data chosen_col
    = Raise (HTTPException 400 detail).
Proof.
  intros Hscope. unfold estimation_stage, lookup_name. rewrite Hscope.
  destruct (dropna df_data chosen_col) as [df|e]; [|eexists; reflexivity]. cbn [bind].
  destruct (Nat.eqb (List.length (df_rows df)) 0); [eexists; reflexivity|].
  destruct (astype_int (column df chosen_col)) as [y|e]; eexists; reflexivity.
Qed.

(** C1, as the code has it: [estimate_from_two_sheets] never returns an
    estimation result. Whatever the upload and the column names, the call
    raises an HTTP 400 exception; for a valid two-sheet workbook the reason
    is that the block that builds the model names [attributes_schema], which
    the function never binds (its attribute list is called [attributes]). *)
Theorem estimate_from_two_sheets_always_raises
  (file : Upload) (resp_col task_col alt_col chosen_col : string) :
  (exists detail,
     estimate_from_two_sheets file resp_col task_col alt_col chosen_col
     = Raise (HTTPException 400 detail)) /\
  estimate_from_two_sheets valid_workbook "resp_id" "task_id" "alt_id" "chosen"
  = Raise (HTTPException 400
             "Estimation failed: name 'attributes_schema' is not defined").
Proof.
  split; [|reflexivity].
  unfold estimate_from_two_sheets.
  destruct (check_upload file) as [[]|e] eqn:Hcheck.
  2:{ destruct (check_upload_raises_400 _ _ Hcheck) as (d & ->). now exists d. }
  cbn [bind].
  match goal with
  | |- context [rewrap "Failed to read Excel: " ?r] =>
      destruct (rewrap "Failed to read Excel: " r) as [dfs|e] eqn:Hread
  end.
  2:{ destruct (rewrap_raises_400 _ _ _ Hread) as (d & ->). now exists d. }
  cbn [bind].
  destruct (rewrap "Definitions error: " (parse_definitions_sheet (snd dfs)))
    as [attributes|e] eqn:Hdefs.
  2:{ destruct (rewrap_raises_400 _ _ _ Hdefs) as (d & ->). now exists d. }
  cbn [bind].
  destruct (require_columns "Missing required column in data: " (df_columns (fst dfs))
              [resp_col; task_col; alt_col; chosen_col]) as [[]|e] eqn:Hcols.
  2:{ destruct (require_columns_raises_400 _ _ _ _ Hcols) as (d & ->). now exists d. }
  cbn [bind].
  apply estimation_stage_unbound. reflexivity.
Qed.

End WithSolver.

Example parse_definitions_valid :
  option_map parse_definitions_sheet
             (match workbook valid_workbook with
              | Ok sheets => nth_error sheets 1
              | Raise _ => None
              end)
  = Some (Ok [{| attr_name := "Price"; attr_levels := ["Low"; "Medium"; "High"];
                 attr_reference := None; attr_label := None |}]).
Proof. reflexivity. Qed.

(** The same block with the name bound, as in [estimate_from_survey_export],
    does reach the solver and returns a result. *)
Example estimation_stage_with_bound_schema :
  option_map (fun resp => (intercept resp, utilities resp, columns resp))
    (match estimation_stage unit (fun _ _ => Ok tt) constant_solver
             [("attributes_schema",
               [{| attr_name := "Price"; attr_levels := ["Low"; "Medium"; "High"];
                   attr_reference := None; attr_label := None |}])]
             {| df_columns := ["resp_id"; "task_id"; "alt_id"; "chosen"; "Price"];
                df_rows := [[CInt 1; CInt 1; CInt 1; CInt 1; CStr "Low"];
                            [CInt 1; CInt 1; CInt 2; CInt 0; CStr "High"]] |}
             "chosen" with
     | Ok resp => Some resp
     | Raise _ => None
     end)
  = Some (0.25%float,
          [("Price", [("Low", 0.5%float); ("Medium", (-0.125)%float)])],
          ["const"; "Price__Low"; "Price__Medium"]).
Proof. vm_compute. reflexivity. Qed.

(** When both solver calls raise, the call fails with both messages. *)
Example estimation_stage_both_solvers_fail :
  estimation_stage unit (fun _ _ => Ok tt)
    (fun _ method _ => Raise (ValueError (method ++ " did not converge")))
    [("attributes_schema",
      [{| attr_name := "Price"; attr_levels := ["Low"; "Medium"; "High"];
          attr_reference := None; attr_label := None |}])]
    {| df_columns := ["resp_id"; "task_id"; "alt_id"; "chosen"; "Price"];
       df_rows := [[CInt 1; CInt 1; CInt 1; CInt 1; CStr "Low"];
                   [CInt 1; CInt 1; CInt 2; CInt 0; CStr "High"]] |}
    "chosen"
  = Raise (HTTPException 400
             ("Estimation failed: Model estimation failed with both methods. "
              ++ "Newton: newton did not converge, BFGS: bfgs did not converge")).
Proof. vm_compute. reflexivity. Qed.

End Endpoints.

(* ------------------------------------------------------------------ *)
(** ** The service: its operations as functions of the request and of the
    state around the call *)

Module Service.

Import DesignMatrix Simulation Market Estimator Converter Endpoints.

(** What a call can read besides its request: the wall clock, as
    [datetime.now().isoformat()] returns it. The module keeps no other
    state between calls; the log it writes is never read. *)
Record World : Type := {
  wall_clock : string
}.

Inductive Request : Type :=
| Simulate (req : SimulateRequest)
| AnalyzeScenarios (req : ScenarioAnalysisRequest)
| EstimateFromTwoSheets (file : Upload) (resp_col task_col alt_col chosen_col : string)
| EstimateFromSurveyExport (file : Upload) (attributes : option (list DesignAttr))
    (resp_col task_col alt_col chosen_col : string).

Inductive Response : Type :=
| Simulated (resp : SimulateResponse)
| Analyzed (resp : ScenarioAnalysisResponse)
| Estimated (resp : EstimateResponse).

Definition fmap {A B : Type} (f : A -> B) (r : result A) : result B :=
  match r with
  | Ok a => Ok (f a)
  | Raise e => Raise e
  end.

Section WithSolver.

Variable Model : Type.
Variable MNLogit : list Z -> Frame -> result Model.
Variable fit : Model -> string -> nat -> result FitResult.
Variable format_mb : N -> string.

(** One call of an operation in the world [w]. *)
Definition handle (w : World) (r : Request) : result Response :=
  match r with
  | Simulate req => fmap Simulated (simulate req)
  | AnalyzeScenarios req => fmap Analyzed (analyze_scenarios (wall_clock w) req)
  | EstimateFromTwoSheets file resp_col task_col alt_col chosen_col =>
      fmap Estimated
        (estimate_from_two_sheets Model MNLogit fit format_mb file
           resp_col task_col alt_col chosen_col)
  | EstimateFromSurveyExport file attributes resp_col task_col alt_col chosen_col =>
      fmap Estimated
        (estimate_from_survey_export Model MNLogit fit format_mb file attributes
           resp_col task_col alt_col chosen_col)
  end.

End WithSolver.







(** A solver that converges with Newton as [constant_solver] does and
    raises on every other method. *)
Definition newton_only_solver (model : unit) (method : string) (maxiter : nat)
  : result FitResult :=
  if String.eqb method "newton" then constant_solver model method maxiter
  else Raise (ValueError "Singular matrix").

(** A design with one attribute, and an estimation request for the export
    of one respondent who chose the first of two alternatives. *)
Definition price_design : list DesignAttr :=
  [{| da_name := "Price"; da_label := ""; da_reference := ""; da_attr_no := "1";
      da_levels := [{| dl_code := "11"; dl_level := "Low" |};
                    {| dl_code := "12"; dl_level := "High" |}] |}].

Definition survey_request : Request :=
  EstimateFromSurveyExport
    {| filename := "export.xlsx"; file_size := 9000;
       workbook := Ok [two_alternative_export 1 (CStr "11") (CStr "12")] |}
    (Some price_design) "resp_id" "task_id" "alt_id" "chosen".











(** The request of the witness reaches the solver and gets an estimate. *)
Example survey_request_is_estimated :
  option_map (fun resp => match resp with
                          | Estimated e => (columns e, utilities e)
                          | _ => ([], [])
                          end)
    (match handle unit (fun _ _ => Ok tt) newton_only_solver (fun _ => "0.0")
                  {| wall_clock := "2026-01-01T09:00:01.000000" |} survey_request with
     | Ok resp => Some resp
     | Raise _ => None
     end)
  = Some (["const"; "Price__Low"],
          [("Price", [("Low", 0.5%float); ("Medium", (-0.125)%float)])]).
Proof. vm_compute. reflexivity. Qed.


End Service.

(* ------------------------------------------------------------------ *)
(** ** The two choice rules: [softmax] and first choice *)

Module ChoiceRules.

Import Simulation Market.
Local Open Scope R_scope.

(** The entry of first-choice shares at position [j], for the winner [k]. *)
Definition winner_share (k j : nat) : R := if Nat.eqb j k then 1 else 0.




Lemma argmax_from_spec (u : list R) :
  forall (best_i : nat) (best : R) (i : nat),
    (argmax_from best_i best i u = best_i /\ Forall (fun y => y <= best) u) \/
    (exists p, argmax_from best_i best i u = (i + p)%nat /\
               (p < List.length u)%nat /\
               best < nth p u 0 /\
               Forall (fun y => y <= nth p u 0) u /\
               forall q, (q < p)%nat -> nth q u 0 < nth p u 0).
Proof.
  induction u as [|a u IH]; intros best_i best i.
  - left. split; [reflexivity | constructor].
  - simpl argmax_from. destruct (Rlt_dec best a) as [Hlt | Hge].
    + right. destruct (IH i a (S i)) as [[Hr Hall] | (p & Hr & Hp & Hbest & Hall & Hbefore)].
      * exists 0%nat. rewrite Hr, Nat.add_0_r. simpl. repeat split; try lia; try assumption.
        constructor; [lra | assumption].
      * exists (S p). rewrite Hr. simpl. repeat split; try lia.
        -- lra.
        -- constructor; [lra | assumption].
        -- intros [|q] Hq; [lra | apply Hbefore; lia].
    + destruct (IH best_i best (S i)) as [[Hr Hall] | (p & Hr & Hp & Hbest & Hall & Hbefore)].
      * left. split; [assumption|]. constructor; [lra | assumption].
      * right. exists (S p). rewrite Hr. simpl. repeat split; try lia.
        -- assumption.
        -- constructor; [lra | assumption].
        -- intros [|q] Hq; [lra | apply Hbefore; lia].
Qed.

(** X3. On a non-empty array the first-choice rule gives share 1 to one
    position and 0 to all others; that position holds a maximal utility, and
    every earlier position holds a strictly smaller one (ties go to the
    first). On an empty array the shares are the empty list. *)
Theorem first_choice_picks_first_maximum (a : R) (x : list R) :
  let u := a :: x in
  let k := argmax u in
  (k < List.length u)%nat /\
  (forall j, (j < List.length u)%nat -> nth j u 0 <= nth k u 0) /\
  (forall j, (j < k)%nat -> nth j u 0 < nth k u 0) /\
  List.length (first_choice u) = List.length u /\
  (forall j, (j < List.length u)%nat -> nth j (first_choice u) 0 = winner_share k j) /\
  first_choice [] = [].
Proof.
  intros u k.
  assert (Hk : (k < List.length u)%nat /\
               Forall (fun y => y <= nth k u 0) u /\
               forall j, (j < k)%nat -> nth j u 0 < nth k u 0).
  { subst k u. unfold argmax.
    destruct (argmax_from_spec x 0%nat a 1%nat)
      as [[Hr Hall] | (p & Hr & Hp & Hbest & Hall & Hbefore)]; rewrite Hr.
    - simpl. repeat split; try lia. constructor; [lra | assumption].
    - change (1 + p)%nat with (S p). simpl. repeat split; try lia.
      + constructor; [lra | assumption].
      + intros [|q] Hq; [lra | apply Hbefore; lia]. }
  destruct Hk as (Hlen & Hmax & Hfirst).
  repeat split; try assumption.
  - intros j Hj. rewrite Forall_forall in Hmax. apply Hmax. now apply nth_In.
  - unfold first_choice. now rewrite length_map, length_seq.
  - intros j Hj. unfold first_choice. fold k.
    rewrite (nth_indep _ 0 (winner_share k 0)) by now rewrite length_map, length_seq.
    change (map (fun i => if Nat.eqb i k then 1 else 0) (seq 0 (List.length u)))
      with (map (winner_share k) (seq 0 (List.length u))).
    rewrite map_nth, seq_nth by assumption. reflexivity.
Qed.

End ChoiceRules.

(* ------------------------------------------------------------------ *)
(** ** [scenario_utilities] and [simulate]: what a scenario contributes and
    how a request fails *)

Module ScenarioFacts.

Import Simulation.
Local Open Scope R_scope.

(** The items of a scenario whose attribute the utility table has. *)
Definition known_items (utilities : Utilities) (s : Scenario) : Scenario :=
  filter (fun item : string * string => str_in (fst item) (keys utilities)) s.





Lemma get_None_not_in_keys {V : Type} (d : dict V) (k : string) :
  get d k = None <-> ~ In k (keys d).
Proof.
  split.
  - intros Hget Hin. destruct (in_keys_get d k Hin) as (v & Hv). congruence.
  - intros Hnotin. destruct (get d k) as [v|] eqn:E; [|reflexivity].
    exfalso. apply Hnotin. eapply get_Some_in_keys. exact E.
Qed.

Lemma level_part_unknown_attribute (utilities : Utilities) (item : string * string) :
  str_in (fst item) (keys utilities) = false -> level_part utilities item = 0.
Proof.
  intros Hout. apply str_in_not_In in Hout. apply get_None_not_in_keys in Hout.
  unfold level_part, get_default. rewrite Hout. simpl.
  unfold explicit_sum, py_sum. simpl. lra.
Qed.

Lemma py_sum_known_items (utilities : Utilities) (s : Scenario) :
  py_sum (map (level_part utilities) (known_items utilities s))
  = py_sum (map (level_part utilities) s).
Proof.
  unfold known_items. induction s as [|item s IH]; [reflexivity|].
  simpl. destruct (str_in (fst item) (keys utilities)) eqn:E.
  - simpl. rewrite !py_sum_cons, IH. reflexivity.
  - rewrite py_sum_cons, IH, (level_part_unknown_attribute _ _ E). lra.
Qed.


(** X4. A scenario item whose attribute is not in the utility table adds
    nothing: the utilities of any scenarios are those of the scenarios with
    such items removed. *)
Theorem scenario_utilities_ignore_unknown_attributes
  (scenarios : list Scenario) (utilities : Utilities) (intercept : R) :
  scenario_utilities scenarios utilities intercept
  = scenario_utilities (map (known_items utilities) scenarios) utilities intercept.
Proof.
  unfold scenario_utilities. rewrite map_map. apply map_ext. intros s.
  rewrite !scenario_total_parts, py_sum_known_items. reflexivity.
Qed.




Lemma validate_scenarios_raises_400 (attrs : list string) (scenarios : list Scenario)
  (idx : nat) (e : exn) :
  validate_scenarios attrs idx scenarios = Raise e ->
  exists detail, e = HTTPException 400 detail.
Proof.
  revert idx. induction scenarios as [|s rest IH]; intros idx; simpl; [discriminate|].
  destruct (missing_attributes attrs s); [apply IH|].
  intros H. inversion H. eexists. reflexivity.
Qed.



(** X7. A successful [simulate] returns one utility and one share per
    scenario, in order; a failing one raises HTTP 400 and nothing else. With
    no scenario at all the first-choice rule returns two empty lists while
    the logit rule fails. *)
Theorem simulate_one_share_per_scenario (req : SimulateRequest) :
  match simulate req with
  | Ok resp =>
      resp_utilities resp
      = scenario_utilities (req_scenarios req) (req_utilities req) (req_intercept req) /\
      List.length (resp_utilities resp) = List.length (req_scenarios req) /\
      List.length (resp_shares resp) = List.length (req_scenarios req)
  | Raise e => exists detail, e = HTTPException 400 detail
  end /\
  (req_scenarios req = [] ->
   simulate req
   = if String.eqb (req_rule req) "first_choice"
     then Ok {| resp_utilities := []; resp_shares := [] |}
     else if String.eqb (req_rule req) "logit"
     then Raise (HTTPException 400
            ("Simulation failed: zero-size array to reduction operation maximum "
             ++ "which has no identity"))
     else Raise (HTTPException 400
            ("Simulation failed: 400: Unknown simulation rule: " ++ req_rule req
             ++ ". Use 'logit' or 'first_choice'."))).
Proof.
  split.
  - unfold simulate.
    destruct (validate_scenarios _ 0 (req_scenarios req)) as [[]|e] eqn:Hval.
    2:{ cbn [bind]. eapply validate_scenarios_raises_400. exact Hval. }
    cbn [bind].
    set (u := scenario_utilities _ _ _).
    assert (Hu : List.length u = List.length (req_scenarios req))
      by (subst u; unfold scenario_utilities; now rewrite length_map).
    destruct (String.eqb (req_rule req) "first_choice").
    + cbn. repeat split; try assumption.
      unfold first_choice. now rewrite length_map, length_seq.
    + destruct (String.eqb (req_rule req) "logit").
      * destruct u as [|a x] eqn:Eu.
        -- cbn. eexists. reflexivity.
        -- rewrite softmax_nonempty. cbn. repeat split; try assumption.
           rewrite !length_map. assumption.
      * cbn. eexists. reflexivity.
  - intros Hnone. unfold simulate. rewrite Hnone. cbn.
    destruct (String.eqb (req_rule req) "first_choice"); [reflexivity|].
    destruct (String.eqb (req_rule req) "logit"); reflexivity.
Qed.

End ScenarioFacts.

(* ------------------------------------------------------------------ *)
(** ** Market shares: normalization and impact metrics *)

Module MarketFacts.

Import Simulation Market.
Local Open Scope R_scope.




























End MarketFacts.

(* ------------------------------------------------------------------ *)
(** ** The design matrix as a whole: [build_design_matrix] *)

Module DesignFacts.

Import DesignMatrix.

(** The attribute can be coded against the table: its column is there, and
    a reference can be found (one is given, or there is a last level). *)
Definition codable (df : DataFrame) (attr : AttributeDef) : Prop :=
  In (attr_name attr) (df_columns df) /\
  (attr_levels attr <> [] \/ attr_reference attr <> None).

(** The column labels of the block of one attribute: [name__level] for
    each level other than the reference, in the order of the level list. *)
Definition block_labels (attr : AttributeDef) : list string :=
  match resolve_reference (attr_levels attr) (attr_reference attr) with
  | Ok r => map (col_label (attr_name attr)) (non_reference (attr_levels attr) r)
  | Raise _ => []
  end.

(** The entries the block of one attribute holds for one row of the table. *)
Definition coded_cells (cols : list string) (row : list cell) (attr : AttributeDef)
  : list float :=
  match resolve_reference (attr_levels attr) (attr_reference attr) with
  | Ok r =>
      coded_row r (non_reference (attr_levels attr) r)
        (coerce (attr_levels attr) r (cell_str (row_get cols row (attr_name attr) CNaN)))
  | Raise _ => []
  end.

(** The block of one attribute, in closed form. *)
Definition block_of (df : DataFrame) (attr : AttributeDef) : Frame :=
  {| f_columns := block_labels attr;
     f_rows := map (fun row => coded_cells (df_columns df) row attr) (df_rows df) |}.

(** A table with one respondent column and two attribute columns, and the
    definitions of the two attributes. *)
Definition phone_table : DataFrame :=
  {| df_columns := ["chosen"; "Brand"; "Price"];
     df_rows := [[CInt 1; CStr "Acme"; CStr "Low"]; [CInt 0; CStr "Bolt"; CStr "High"]] |}.

Definition brand_attr : AttributeDef :=
  {| attr_name := "Brand"; attr_levels := ["Acme"; "Bolt"];
     attr_reference := Some "Acme"; attr_label := None |}.

Definition size_attr : AttributeDef :=
  {| attr_name := "Size"; attr_levels := ["S"; "L"];
     attr_reference := None; attr_label := None |}.

Definition no_level_attr : AttributeDef :=
  {| attr_name := "Price"; attr_levels := [];
     attr_reference := None; attr_label := None |}.

Lemma codable_reference (df : DataFrame) (attr : AttributeDef) :
  codable df attr ->
  exists r, resolve_reference (attr_levels attr) (attr_reference attr) = Ok r.
Proof.
  intros [_ H]. unfold resolve_reference.
  destruct (attr_reference attr) as [r|]; [now exists r|].
  destruct (attr_levels attr) as [|l ls]; [|now exists (last ls l)].
  destruct H as [H | H]; congruence.
Qed.

Lemma design_block_codable (df : DataFrame) (attr : AttributeDef) :
  codable df attr -> design_block df attr = Ok (block_of df attr).
Proof.
  intros Hc. destruct (codable_reference df attr Hc) as (r & Hr).
  destruct Hc as [Hcol _]. apply str_in_In in Hcol.
  unfold design_block. rewrite Hcol.
  rewrite (effect_code_closed_form _ _ _ _ r Hr).
  unfold block_of, block_labels, coded_cells, column. rewrite Hr.
  now rewrite !map_map.
Qed.

Lemma design_blocks_codable (df : DataFrame) (attributes : list AttributeDef) :
  Forall (codable df) attributes ->
  design_blocks df attributes = Ok (map (block_of df) attributes).
Proof.
  unfold design_blocks. induction 1 as [|attr attrs Hc _ IH]; [reflexivity|].
  cbn [mapM map]. rewrite (design_block_codable df attr Hc). cbn [bind].
  rewrite IH. reflexivity.
Qed.

Lemma zip_rows_map {A : Type} (g h : A -> list float) (l : list A) :
  zip_rows (map g l) (map h l) = map (fun x => g x ++ h x) l.
Proof.
  induction l as [|a l IH]; simpl; [reflexivity | now rewrite IH].
Qed.

(** [pd.concat] of the closed-form blocks, started from any table with one
    row per row of [df]. *)
Lemma concat_blocks (df : DataFrame) (attributes : list AttributeDef) :
  forall (labels : list string) (g : list cell -> list float),
    fold_left (fun acc q => {| f_columns := f_columns acc ++ f_columns q;
                               f_rows := zip_rows (f_rows acc) (f_rows q) |})
              (map (block_of df) attributes)
              {| f_columns := labels; f_rows := map g (df_rows df) |}
    = {| f_columns := labels ++ flat_map block_labels attributes;
         f_rows := map (fun row => g row
                                   ++ flat_map (coded_cells (df_columns df) row) attributes)
                       (df_rows df) |}.
Proof.
  induction attributes as [|attr attrs IH]; intros labels g.
  - cbn [map fold_left flat_map]. rewrite app_nil_r. f_equal.
    apply map_ext. intros row. now rewrite app_nil_r.
  - cbn [map fold_left flat_map f_columns f_rows block_of].
    rewrite zip_rows_map.
    rewrite (IH (labels ++ block_labels attr)
                (fun row => g row ++ coded_cells (df_columns df) row attr)).
    rewrite <- app_assoc. f_equal. apply map_ext. intros row. now rewrite <- app_assoc.
Qed.

Lemma coded_cells_length (cols : list string) (row : list cell) (attr : AttributeDef) :
  List.length (coded_cells cols row attr) = List.length (block_labels attr).
Proof.
  unfold coded_cells, block_labels, coded_row.
  destruct (resolve_reference (attr_levels attr) (attr_reference attr)) as [r|e];
    [|reflexivity].
  destruct (String.eqb _ r); now rewrite !length_map.
Qed.

Lemma flat_map_length_eq {A B C : Type} (f : A -> list B) (g : A -> list C) (l : list A) :
  (forall a, List.length (f a) = List.length (g a)) ->
  List.length (flat_map f l) = List.length (flat_map g l).
Proof.
  intros H. induction l as [|a l IH]; simpl; [reflexivity|].
  now rewrite !length_app, H, IH.
Qed.

Lemma design_blocks_stop (df : DataFrame) (pre post : list AttributeDef)
  (attr : AttributeDef) (e : exn) :
  Forall (codable df) pre ->
  design_block df attr = Raise e ->
  design_blocks df (pre ++ attr :: post) = Raise e.
Proof.
  unfold design_blocks. induction 1 as [|a pre Hc _ IH]; intros Hattr.
  - cbn [app mapM]. now rewrite Hattr.
  - cbn [app mapM]. rewrite (design_block_codable df a Hc). cbn [bind].
    now rewrite (IH Hattr).
Qed.

Lemma build_design_matrix_codable (df : DataFrame) (attributes : list AttributeDef) :
  attributes <> [] ->
  Forall (codable df) attributes ->
  build_design_matrix df attributes
  = Ok {| f_columns := "const" :: flat_map block_labels attributes;
          f_rows := map (fun row => 1%float
                                    :: flat_map (coded_cells (df_columns df) row) attributes)
                        (df_rows df) |}.
Proof.
  intros Hne Hall. unfold build_design_matrix.
  rewrite (design_blocks_codable df attributes Hall). cbn [bind].
  destruct attributes as [|attr attrs]; [congruence|].
  cbn [map pd_concat bind].
  pose proof (concat_blocks df attrs (block_labels attr)
                (fun row => coded_cells (df_columns df) row attr)) as F.
  cbv beta in F. unfold block_of at 2. rewrite F. clear F.
  unfold add_constant. cbn [f_columns f_rows flat_map]. now rewrite map_map.
Qed.

(** X13. For a non-empty list of attributes whose columns are all in the
    table and that each have a reference (given, or a last level),
    [build_design_matrix] succeeds; the columns of the result are [const]
    followed, attribute by attribute in the order given, by [name__level]
    for the non-reference levels; there is one row per row of the table,
    holding 1.0 followed by the effects-coded entries of each attribute for
    that row; so every row has exactly one entry per column. *)
Theorem build_design_matrix_closed_form (df : DataFrame) (attributes : list AttributeDef) :
  attributes <> [] ->
  Forall (codable df) attributes ->
  exists X,
    build_design_matrix df attributes = Ok X /\
    f_columns X = "const" :: flat_map block_labels attributes /\
    f_rows X = map (fun row => 1%float
                               :: flat_map (coded_cells (df_columns df) row) attributes)
                   (df_rows df) /\
    List.length (f_rows X) = List.length (df_rows df) /\
    Forall (fun row => List.length row = List.length (f_columns X)) (f_rows X).
Proof.
  intros Hne Hall. eexists.
  split; [exact (build_design_matrix_codable df attributes Hne Hall)|].
  cbn [f_columns f_rows].
  split; [reflexivity|]. split; [reflexivity|].
  split; [now rewrite length_map|].
  apply Forall_forall. intros row Hrow. apply in_map_iff in Hrow.
  destruct Hrow as (cells & <- & _). cbn [List.length]. f_equal.
  apply flat_map_length_eq. intros a. apply coded_cells_length.
Qed.

Lemma design_matrix_shape_witness :
  exists X,
    build_design_matrix phone_table [brand_attr; price_attr] = Ok X /\
    f_columns X = ["const"; "Brand__Bolt"; "Price__Low"; "Price__Medium"] /\
    f_rows X = [[1; -1; 1; 0]; [1; 1; -1; -1]]%float /\
    List.length (f_rows X) = 2 /\
    Forall (fun row => List.length row = List.length (f_columns X)) (f_rows X).
Proof.
  apply (build_design_matrix_closed_form phone_table [brand_attr; price_attr]).
  - discriminate.
  - constructor; [|constructor; [|constructor]].
    + split; [simpl; tauto | left; discriminate].
    + split; [simpl; tauto | left; discriminate].
Defined.

(** X14. [build_design_matrix] fails on an empty attribute list, with the
    [ValueError] of [pd.concat]; and on a list whose first attribute that
    cannot be coded is [attr] it fails with the error of that attribute,
    whatever follows it: [ValueError] naming the attribute when its column
    is not in the table, else [IndexError] (no reference and no level). *)
Theorem build_design_matrix_first_failure
  (df : DataFrame) (pre post : list AttributeDef) (attr : AttributeDef) :
  Forall (codable df) pre ->
  ~ codable df attr ->
  build_design_matrix df [] = Raise (ValueError "No objects to concatenate") /\
  build_design_matrix df (pre ++ attr :: post)
  = Raise (if str_in (attr_name attr) (df_columns df)
           then IndexError "list index out of range"
           else ValueError ("Attribute column missing in data: " ++ attr_name attr)).
Proof.
  intros Hpre Hattr. split; [reflexivity|].
  unfold build_design_matrix.
  rewrite (design_blocks_stop df pre post attr
             (if str_in (attr_name attr) (df_columns df)
              then IndexError "list index out of range"
              else ValueError ("Attribute column missing in data: " ++ attr_name attr)));
    [reflexivity | exact Hpre |].
  unfold design_block. destruct (str_in (attr_name attr) (df_columns df)) eqn:Hcol;
    [|reflexivity].
  apply str_in_In in Hcol. unfold effect_code.
  destruct (attr_reference attr) as [r|] eqn:Hr.
  - exfalso. apply Hattr. split; [exact Hcol|]. right. rewrite Hr. discriminate.
  - destruct (attr_levels attr) as [|l ls] eqn:Hl; [reflexivity|].
    exfalso. apply Hattr. split; [exact Hcol|]. left. rewrite Hl. discriminate.
Qed.

Lemma design_matrix_failure_witness :
  build_design_matrix phone_table [] = Raise (ValueError "No objects to concatenate") /\
  build_design_matrix phone_table ([brand_attr] ++ size_attr :: [price_attr])
  = Raise (ValueError "Attribute column missing in data: Size").
Proof.
  apply (build_design_matrix_first_failure phone_table [brand_attr] [price_attr] size_attr).
  - constructor; [|constructor].
    split; [simpl; tauto | left; discriminate].
  - intros [H _]. simpl in H. intuition discriminate.
Defined.

Example build_design_matrix_no_levels :
  build_design_matrix phone_table [brand_attr; no_level_attr]
  = Raise (IndexError "list index out of range").
Proof. reflexivity. Qed.

End DesignFacts.

(* ------------------------------------------------------------------ *)
(** ** Grouping the coefficients by attribute *)

Module UtilityGrouping.

Import DesignMatrix Estimator.

(** The name holds no double underscore and does not end with an
    underscore: [name__level] then splits at the separator. *)
Fixpoint plain_name (s : string) : bool :=
  match s with
  | EmptyString => true
  | String a rest =>
      if Ascii.eqb a "_"%char then
        match rest with
        | EmptyString => false
        | String b _ => negb (Ascii.eqb b "_"%char) && plain_name rest
        end
      else plain_name rest
  end.

(** The body of the loop over [util.items()]. *)
Definition group_step (by_attr : dict (dict float)) (kv : string * float)
  : dict (dict float) :=
  if String.eqb (fst kv) "const" then by_attr
  else match split_dunder (fst kv) with
       | Some (attr, lvl) =>
           set by_attr attr (set (get_default by_attr attr []) lvl (snd kv))
       | None => by_attr
       end.

(** [by_attr.get(attr, {}).get(lvl)] *)
Definition grouped (by_attr : dict (dict float)) (attr lvl : string) : option float :=
  get (get_default by_attr attr []) lvl.

(** The key [kv] of a coefficient is filed under [attr] and [lvl]. *)
Definition filed_under (attr lvl : string) (k : string) : bool :=
  negb (String.eqb k "const")
  && match split_dunder k with
     | Some (a, l) => String.eqb a attr && String.eqb l lvl
     | None => false
     end.

(** [attr__lvl] splits back into [attr] and [lvl]. *)
Definition splits_back (attr lvl : string) : bool :=
  match split_dunder (col_label attr lvl) with
  | Some (a, l) => String.eqb a attr && String.eqb l lvl
  | None => false
  end.

(** Coefficients as the solver names them for a design with the
    attributes [Price] and [Screen_Size]. *)
Definition sample_params : dict float :=
  [("const", 0.25%float); ("Price__Low", 0.5%float);
   ("Screen_Size__6.1__inch", (-0.125)%float)].

Lemma append_assoc (a b c : string) : ((a ++ b) ++ c)%string = (a ++ (b ++ c))%string.
Proof.
  induction a as [|ch a IH]; simpl; [reflexivity | now rewrite IH].
Qed.

Lemma append_nil_r (a : string) : (a ++ "")%string = a.
Proof.
  induction a as [|ch a IH]; simpl; [reflexivity | now rewrite IH].
Qed.

Lemma get_set_same {V : Type} (d : dict V) (k : string) (v : V) :
  get (set d k v) k = Some v.
Proof.
  induction d as [|[k' v'] d IH]; simpl.
  - now rewrite String.eqb_refl.
  - destruct (String.eqb k' k) eqn:E; simpl; rewrite E; [reflexivity | exact IH].
Qed.

Lemma get_set_other {V : Type} (d : dict V) (k k2 : string) (v : V) :
  k <> k2 -> get (set d k v) k2 = get d k2.
Proof.
  intros Hne. induction d as [|[k' v'] d IH]; simpl.
  - apply String.eqb_neq in Hne. now rewrite Hne.
  - destruct (String.eqb k' k) eqn:E; simpl.
    + apply String.eqb_eq in E. subst k'. apply String.eqb_neq in Hne. now rewrite Hne.
    + destruct (String.eqb k' k2); [reflexivity | exact IH].
Qed.

Lemma get_snoc {V : Type} (d : dict V) (k' k : string) (v' : V) :
  get (d ++ [(k', v')]) k
  = match get d k with
    | Some v => Some v
    | None => if String.eqb k' k then Some v' else None
    end.
Proof.
  induction d as [|[k0 v0] d IH]; simpl; [reflexivity|].
  destruct (String.eqb k0 k); [reflexivity | exact IH].
Qed.

Lemma get_absent {V : Type} (d : dict V) (k : string) :
  ~ In k (keys d) -> get d k = None.
Proof.
  intros H. destruct (get d k) as [v|] eqn:E; [|reflexivity].
  exfalso. apply H. exact (get_Some_in_keys d k v E).
Qed.

(** What [split] returns, joined by the separator, is the key. *)
Lemma split_dunder_aux_sound (s : string) :
  forall before attr lvl,
    split_dunder_aux before s = Some (attr, lvl) ->
    (before ++ s)%string = col_label attr lvl.
Proof.
  induction s as [|a s IH]; intros before attr lvl; [discriminate|].
  destruct s as [|b rest]; [discriminate|].
  cbn [split_dunder_aux].
  destruct (Ascii.eqb a "_"%char && Ascii.eqb b "_"%char) eqn:E.
  - intros H. inversion H. subst. apply andb_prop in E. destruct E as [Ea Eb].
    apply Ascii.eqb_eq in Ea. apply Ascii.eqb_eq in Eb. subst a b. reflexivity.
  - intros H. apply IH in H. rewrite <- H.
    rewrite append_assoc. reflexivity.
Qed.

Lemma split_dunder_sound (k attr lvl : string) :
  split_dunder k = Some (attr, lvl) -> k = col_label attr lvl.
Proof.
  intros H. apply split_dunder_aux_sound in H. exact H.
Qed.

Lemma split_dunder_aux_plain (name : string) :
  forall before lvl,
    plain_name name = true ->
    split_dunder_aux before (col_label name lvl) = Some ((before ++ name)%string, lvl).
Proof.
  unfold col_label. induction name as [|a rest IH]; intros before lvl Hplain.
  - cbn. now rewrite append_nil_r.
  - cbn [plain_name] in Hplain.
    change ((String a rest ++ "__" ++ lvl)%string)
      with (String a (rest ++ "__" ++ lvl)%string).
    assert (Hstep : split_dunder_aux before (String a (rest ++ "__" ++ lvl)%string)
                    = split_dunder_aux (before ++ String a EmptyString)
                                       (rest ++ "__" ++ lvl)%string
                      /\ plain_name rest = true).
    { destruct rest as [|b rest'].
      - destruct (Ascii.eqb a "_"%char) eqn:Ea; [discriminate|].
        cbn. rewrite Ea. cbn. split; reflexivity.
      - change ((String b rest' ++ "__" ++ lvl)%string)
          with (String b (rest' ++ "__" ++ lvl)%string).
        cbn [split_dunder_aux].
        destruct (Ascii.eqb a "_"%char) eqn:Ea.
        + apply andb_prop in Hplain. destruct Hplain as [Hb Hrest].
          apply negb_true_iff in Hb. rewrite Hb. cbn [andb]. split; [reflexivity | exact Hrest].
        + cbn [andb]. split; [reflexivity | exact Hplain]. }
    destruct Hstep as [-> Hrest]. rewrite (IH _ _ Hrest).
    rewrite append_assoc. reflexivity.
Qed.

Lemma split_dunder_plain (name lvl : string) :
  plain_name name = true -> split_dunder (col_label name lvl) = Some (name, lvl).
Proof.
  intros H. unfold split_dunder. now rewrite (split_dunder_aux_plain name "" lvl H).
Qed.

Lemma group_utilities_fold (util : dict float) :
  group_utilities util = fold_left group_step util [].
Proof. reflexivity. Qed.

Lemma grouped_step (by_attr : dict (dict float)) (kv : string * float) (attr lvl : string) :
  grouped (group_step by_attr kv) attr lvl
  = if filed_under attr lvl (fst kv) then Some (snd kv) else grouped by_attr attr lvl.
Proof.
  unfold group_step, filed_under.
  destruct (String.eqb (fst kv) "const"); [reflexivity|]. cbn [negb andb].
  destruct (split_dunder (fst kv)) as [[a l]|]; [|reflexivity].
  unfold grouped, get_default.
  destruct (String.eqb a attr) eqn:Ea; cbn [andb].
  - apply String.eqb_eq in Ea. subst a. rewrite get_set_same.
    destruct (String.eqb l lvl) eqn:El.
    + apply String.eqb_eq in El. subst l. apply get_set_same.
    + apply String.eqb_neq in El. now rewrite get_set_other.
  - apply String.eqb_neq in Ea. now rewrite get_set_other.
Qed.

Lemma filed_under_iff (attr lvl k : string) :
  filed_under attr lvl k = true <-> k = col_label attr lvl /\ splits_back attr lvl = true.
Proof.
  unfold filed_under, splits_back. split.
  - intros H. apply andb_prop in H. destruct H as [_ H].
    destruct (split_dunder k) as [[a l]|] eqn:Es; [|discriminate].
    apply andb_prop in H. destruct H as [Ea El].
    apply String.eqb_eq in Ea. apply String.eqb_eq in El. subst a l.
    pose proof (split_dunder_sound _ _ _ Es) as Hk. subst k.
    rewrite Es, !String.eqb_refl. now split.
  - intros [-> H]. rewrite H.
    destruct (String.eqb (col_label attr lvl) "const") eqn:Ec; [|reflexivity].
    apply String.eqb_eq in Ec. rewrite Ec in H. discriminate H.
Qed.

(** The grouped table after the loop, read at [attr] and [lvl]. *)
Lemma grouped_fold (util : dict float) (attr lvl : string) :
  NoDup (keys util) ->
  grouped (fold_left group_step util []) attr lvl
  = if splits_back attr lvl then get util (col_label attr lvl) else None.
Proof.
  induction util as [|[k' v'] util IH] using rev_ind; intros Hnd.
  - cbn. now destruct (splits_back attr lvl).
  - unfold keys in Hnd. rewrite map_app in Hnd. cbn [map fst] in Hnd.
    apply NoDup_remove in Hnd. rewrite app_nil_r in Hnd. destruct Hnd as [Hnd Hfresh].
    fold (keys util) in Hnd, Hfresh.
    rewrite fold_left_app. cbn [fold_left]. rewrite grouped_step, (IH Hnd). cbn [fst snd].
    rewrite get_snoc.
    destruct (filed_under attr lvl k') eqn:Ef.
    + apply filed_under_iff in Ef. destruct Ef as [-> Hs]. rewrite Hs.
      now rewrite (get_absent util _ Hfresh), String.eqb_refl.
    + destruct (splits_back attr lvl) eqn:Hs; [|reflexivity].
      destruct (get util (col_label attr lvl)); [reflexivity|].
      destruct (String.eqb k' (col_label attr lvl)) eqn:E; [|reflexivity].
      apply String.eqb_eq in E.
      assert (filed_under attr lvl k' = true) by (apply filed_under_iff; now split).
      congruence.
Qed.

(** X15. Keys are unique in the coefficient dictionary. Then the grouped
    utilities hold a value under an attribute and a level only if the
    coefficient named [attribute__level] has that value; and for an
    attribute name without a double underscore and not ending in an
    underscore, the utility filed under the attribute and a level is exactly
    the coefficient of the design column [name__level], for every level. *)
Theorem group_utilities_inverts_column_labels (util : dict float) :
  NoDup (keys util) ->
  (forall attr lvl v,
     grouped (group_utilities util) attr lvl = Some v ->
     get util (col_label attr lvl) = Some v) /\
  (forall name lvl,
     plain_name name = true ->
     grouped (group_utilities util) name lvl = get util (col_label name lvl)).
Proof.
  intros Hnd. rewrite group_utilities_fold. split.
  - intros attr lvl v. rewrite (grouped_fold util attr lvl Hnd).
    destruct (splits_back attr lvl); [tauto | discriminate].
  - intros name lvl Hplain. rewrite (grouped_fold util name lvl Hnd).
    unfold splits_back. rewrite (split_dunder_plain name lvl Hplain).
    now rewrite !String.eqb_refl.
Qed.

Lemma group_utilities_inverts_witness :
  (forall attr lvl v,
     grouped (group_utilities sample_params) attr lvl = Some v ->
     get sample_params (col_label attr lvl) = Some v) /\
  (forall name lvl,
     plain_name name = true ->
     grouped (group_utilities sample_params) name lvl
     = get sample_params (col_label name lvl)).
Proof.
  apply (group_utilities_inverts_column_labels sample_params).
  repeat constructor; simpl; intuition discriminate.
Defined.

Example group_utilities_sample :
  group_utilities sample_params
  = [("Price", [("Low", 0.5%float)]); ("Screen_Size", [("6.1__inch", (-0.125)%float)])].
Proof. reflexivity. Qed.

(** A name with a double underscore is cut at its first one: the
    coefficient of the column [Screen__Size__Large] is filed under [Screen],
    and nothing is filed under the attribute's own name. *)
Example group_utilities_name_with_separator :
  group_utilities [(col_label "Screen__Size" "Large", 0.5%float)]
  = [("Screen", [("Size__Large", 0.5%float)])].
Proof. reflexivity. Qed.

End UtilityGrouping.

(* ------------------------------------------------------------------ *)
(** ** The converter without a design, and its accounting *)

Module ConverterFacts.

Import DesignMatrix Estimator Converter Endpoints.

Definition id_columns : list string := ["resp_id"; "task_id"; "alt_id"; "chosen"].

(** A long row that holds the four identifiers and nothing else. *)
Definition id_record (r : dict cell) : Prop :=
  exists a b c d,
    r = [("resp_id", CInt a); ("task_id", CInt b); ("alt_id", CInt c); ("chosen", CInt d)].

Definition id_row (row : list cell) : Prop :=
  exists a b c d, row = [CInt a; CInt b; CInt c; CInt d].

(** The invariant of the conversion loops when no design was given. *)
Definition bare (st : ConvState) : Prop :=
  attributes_seen st = [] /\ Forall id_record (long_data st).

(** The invariant of the conversion loops, with or without a design, after
    [p] tasks have been looked at, [n] being the number of alternatives. *)
Definition accounted (n p : nat) (st : ConvState) : Prop :=
  exists kept,
    kept + skipped_tasks st <= p /\
    2 * kept <= List.length (long_data st) /\
    List.length (long_data st) <= kept * (n + 1) /\
    skipped_due_to_missing_alts st + skipped_due_to_choice st <= skipped_tasks st.

Lemma fold_left_invariant {A B : Type} (P : A -> Prop) (f : A -> B -> A) (l : list B) :
  (forall a b, P a -> P (f a b)) -> forall a, P a -> P (fold_left f l a).
Proof.
  intros Hstep. induction l as [|b l IH]; intros a Ha; [exact Ha|].
  simpl. apply IH. now apply Hstep.
Qed.

Lemma read_slot_no_design (cols : list string) (bm : BrandMap) (row : list cell)
  (brand : string) (task_slots : SlotMap) (acc : dict cell * list string) (slot : nat) :
  read_slot cols [] [] row brand task_slots acc slot = acc.
Proof.
  unfold read_slot.
  destruct (get_nat task_slots slot) as [col_info|]; [|reflexivity].
  destruct (slot_value col_info) as [value_col|]; [|reflexivity].
  match goal with |- (if ?c then _ else _) = _ => destruct c end; [reflexivity|].
  match goal with |- context [if ?c then None else _] => destruct c end; reflexivity.
Qed.

Lemma alt_row_no_design (cols : list string) (bm : BrandMap) (resp_id : Z)
  (task_num : nat) (chosen_alt : Z) (row : list cell) (seen : list string)
  (alt_index : nat) (brand : string) :
  snd (alt_row cols [] [] bm resp_id task_num chosen_alt row seen alt_index brand) = seen /\
  match fst (alt_row cols [] [] bm resp_id task_num chosen_alt row seen alt_index brand) with
  | Some r => id_record r
  | None => True
  end.
Proof.
  unfold alt_row.
  destruct (some_slots (get_nat (get_default bm brand []) task_num)) as [|s slots];
    [now split|].
  set (l := sorted_nat (map fst (s :: slots))).
  match goal with
  | |- context [fold_left ?f l ?a] =>
      assert (E : fold_left f l a = a)
  end.
  { apply (fold_left_invariant (fun x => x = _)); [|reflexivity].
    intros a b ->. apply (read_slot_no_design cols bm). }
  rewrite E. cbn [fst snd]. split; [reflexivity|].
  repeat eexists.
Qed.

Lemma alt_rows_no_design (cols : list string) (bm : BrandMap) (resp_id : Z)
  (task_num : nat) (chosen_alt : Z) (row : list cell) (seen : list string) :
  snd (alt_rows_for_task cols [] [] bm resp_id task_num chosen_alt row seen) = seen /\
  Forall id_record
    (fst (alt_rows_for_task cols [] [] bm resp_id task_num chosen_alt row seen)).
Proof.
  unfold alt_rows_for_task.
  apply (fold_left_invariant
           (fun acc : list (dict cell) * list string =>
              snd acc = seen /\ Forall id_record (fst acc))).
  - intros [rows seen'] [i brand] [Hs Hr]. cbn [fst snd] in *. subst seen'.
    pose proof (alt_row_no_design cols bm resp_id task_num chosen_alt row seen i brand)
      as [H1 H2].
    destruct (alt_row cols [] [] bm resp_id task_num chosen_alt row seen i brand)
      as [[r|] seen']; cbn [fst snd] in *; subst seen'.
    + split; [reflexivity|]. apply Forall_app. split; [exact Hr | now constructor].
    + now split.
  - now split.
Qed.

Lemma process_task_bare (cols : list string) (bm : BrandMap) (resp_id : Z)
  (row : list cell) (st : ConvState) (task_num : nat) :
  bare st -> bare (process_task cols [] [] bm resp_id row st task_num).
Proof.
  intros [Hseen Hrows]. unfold process_task.
  destruct (negb (str_in _ cols)); [now split|].
  destruct (isna _); [now split|].
  destruct (int_of_cell _) as [chosen_alt|]; [|now split].
  destruct (chosen_alt <? 1)%Z; [now split|].
  pose proof (alt_rows_no_design cols bm resp_id task_num chosen_alt row
                (attributes_seen st)) as [H1 H2].
  destruct (alt_rows_for_task cols [] [] bm resp_id task_num chosen_alt row
              (attributes_seen st)) as [rows seen'].
  cbn [fst snd] in *. subst seen'.
  match goal with |- context [if Nat.ltb ?n 2 then _ else _] => destruct (Nat.ltb n 2) end;
    [now split|].
  match goal with |- context [if (?a <? ?b)%Z then _ else _] => destruct (a <? b)%Z end;
    [now split|].
  split; [exact Hseen|]. cbn [long_data]. apply Forall_app. split; [exact Hrows|].
  match goal with |- context [if ?c then _ else _] => destruct c end; [|exact H2].
  apply Forall_app. split; [exact H2|]. constructor; [|constructor].
  unfold none_alt_data. repeat eexists.
Qed.

Lemma convert_rows_bare (cols : list string) (bm : BrandMap) (n_tasks : nat)
  (rows : list (list cell)) :
  bare (convert_rows cols [] [] bm n_tasks rows).
Proof.
  unfold convert_rows. apply fold_left_invariant.
  - intros st ir Hst. apply fold_left_invariant; [|exact Hst].
    intros st' t. apply process_task_bare.
  - split; [reflexivity | constructor].
Qed.

Lemma build_design_lookup_none :
  build_design_lookup [] = [] /\ build_design_lookup_by_no [] = [].
Proof. split; reflexivity. Qed.

Lemma id_columns_fold (records : list (dict cell)) :
  Forall id_record records ->
  fold_left (fun cols r => fold_left (fun cols k => set_add k cols) (keys r) cols)
            records id_columns
  = id_columns.
Proof.
  induction 1 as [|r records Hr _ IH]; [reflexivity|].
  destruct Hr as (a & b & c & d & ->). exact IH.
Qed.

(** [pd.DataFrame] over rows that hold only the identifiers. *)
Lemma dataframe_of_id_records (r : dict cell) (records : list (dict cell)) :
  Forall id_record (r :: records) ->
  df_columns (dataframe_of_records (r :: records)) = id_columns /\
  Forall id_row (df_rows (dataframe_of_records (r :: records))) /\
  df_rows (dataframe_of_records (r :: records)) <> [].
Proof.
  intros Hall.
  assert (Hcols : df_columns (dataframe_of_records (r :: records)) = id_columns).
  { unfold dataframe_of_records. cbn [df_columns fold_left].
    inversion Hall as [|? ? Hr Hrest]; subst.
    destruct Hr as (a & b & c & d & ->).
    exact (id_columns_fold records Hrest). }
  split; [exact Hcols|].
  unfold dataframe_of_records in *. cbn [df_columns df_rows] in *. rewrite Hcols.
  split; [|discriminate].
  apply Forall_forall. intros row Hrow. apply in_map_iff in Hrow.
  destruct Hrow as (r' & <- & Hin).
  rewrite Forall_forall in Hall. destruct (Hall r' Hin) as (a & b & c & d & ->).
  exists a, b, c, d. reflexivity.
Qed.

(** The converter run without a design. *)
Lemma parse_bare (df : DataFrame) (attributes_from_design : option (list DesignAttr)) :
  some_design attributes_from_design = [] ->
  match parse_survey_export_to_long df attributes_from_design with
  | Ok (df_long, attributes_schema) =>
      attributes_schema = [] /\
      df_columns df_long = id_columns /\
      Forall id_row (df_rows df_long) /\
      df_rows df_long <> []
  | Raise e => exists msg, e = ValueError msg
  end.
Proof.
  intros Hdesign. unfold parse_survey_export_to_long.
  fold (some_design attributes_from_design). rewrite Hdesign. cbv zeta.
  destruct (Nat.eqb _ 0); [eexists; reflexivity|].
  destruct (Nat.eqb _ 0); [eexists; reflexivity|].
  pose proof (convert_rows_bare (df_columns df) (index_columns (df_columns df))
                (List.length (filter is_choice_col (df_columns df))) (df_rows df))
    as [Hseen Hrows].
  change (conversion_state df [])
    with (convert_rows (df_columns df) [] [] (index_columns (df_columns df))
            (List.length (filter is_choice_col (df_columns df))) (df_rows df)).
  destruct (long_data _) as [|r records]; [eexists; reflexivity|].
  rewrite Hseen. split; [reflexivity|].
  exact (dataframe_of_id_records r records Hrows).
Qed.

Lemma require_columns_ok (prefix : string) (cols required : list string) :
  require_columns prefix cols required = Ok tt -> Forall (fun c => In c cols) required.
Proof.
  induction required as [|c rest IH]; simpl; [constructor|].
  destruct (str_in c cols) eqn:E; [|discriminate].
  intros H. constructor; [now apply str_in_In | now apply IH].
Qed.

Lemma id_row_cell (row : list cell) (col : string) :
  id_row row -> In col id_columns -> exists z, row_get id_columns row col CNaN = CInt z.
Proof.
  intros (a & b & c & d & ->) Hin. unfold id_columns in Hin. simpl in Hin.
  destruct Hin as [<- | [<- | [<- | [<- | []]]]]; eexists; reflexivity.
Qed.

Lemma astype_int_ints (series : list cell) :
  Forall (fun c => exists z, c = CInt z) series -> exists y, astype_int series = Ok y.
Proof.
  unfold astype_int. induction 1 as [|c series (z & ->) _ (y & IH)].
  - now exists [].
  - exists (z :: y). cbn [mapM bind]. now rewrite IH.
Qed.

Lemma filter_all {A : Type} (f : A -> bool) (l : list A) :
  Forall (fun x => f x = true) l -> filter f l = l.
Proof.
  induction 1 as [|x l Hx _ IH]; simpl; [reflexivity|]. now rewrite Hx, IH.
Qed.

(** The shared estimation block on a long table that holds only the
    identifiers, with an empty schema. *)
Lemma estimation_stage_no_attributes
  (Model : Type) (MNLogit : list Z -> Frame -> result Model)
  (fit : Model -> string -> nat -> result FitResult)
  (df_long : DataFrame) (chosen_col : string) :
  df_columns df_long = id_columns ->
  Forall id_row (df_rows df_long) ->
  df_rows df_long <> [] ->
  In chosen_col id_columns ->
  estimation_stage Model MNLogit fit [("attributes_schema", [])] df_long chosen_col
  = Raise (HTTPException 400 "Estimation failed: No objects to concatenate").
Proof.
  intros Hcols Hrows Hne Hin. unfold estimation_stage, dropna.
  rewrite Hcols. rewrite (proj2 (str_in_In chosen_col id_columns) Hin). cbn [bind].
  rewrite filter_all.
  2:{ eapply Forall_impl; [|exact Hrows]. intros row Hrow. cbv beta.
      destruct (id_row_cell row chosen_col Hrow Hin) as (z & ->). reflexivity. }
  cbn [df_rows df_columns].
  destruct (df_rows df_long) as [|row rows] eqn:Hr; [congruence|].
  cbn [List.length Nat.eqb].
  destruct (astype_int_ints
              (column {| df_columns := id_columns; df_rows := row :: rows |} chosen_col))
    as (y & Hy).
  { unfold column. cbn [df_rows df_columns]. apply Forall_forall. intros c Hc.
    apply in_map_iff in Hc. destruct Hc as (row' & <- & Hrow').
    rewrite Forall_forall in Hrows. exact (id_row_cell row' chosen_col (Hrows row' Hrow') Hin). }
  rewrite Hy. reflexivity.
Qed.

Lemma process_task_accounted (cols : list string) (L1 L2 : dict DesignEntry)
  (bm : BrandMap) (resp_id : Z) (row : list cell) (st : ConvState) (task_num p : nat) :
  accounted (n_alts bm) p st ->
  accounted (n_alts bm) (S p) (process_task cols L1 L2 bm resp_id row st task_num).
Proof.
  intros (kept & Hp & Hlo & Hhi & Htally). unfold process_task.
  destruct (negb (str_in _ cols)); [exists kept; repeat split; lia|].
  destruct (isna _); [exists kept; repeat split; lia|].
  destruct (int_of_cell _) as [chosen_alt|];
    [|exists kept; cbn; repeat split; lia].
  destruct (chosen_alt <? 1)%Z; [exists kept; cbn; repeat split; lia|].
  pose proof (alt_rows_for_task_count cols L1 L2 bm resp_id task_num chosen_alt row
                (attributes_seen st)) as Hcount.
  pose proof (filter_length_le (has_slots bm task_num) (brand_order bm)) as Hle.
  fold (n_alts bm) in Hle.
  destruct (alt_rows_for_task cols L1 L2 bm resp_id task_num chosen_alt row
              (attributes_seen st)) as [rows seen'].
  cbn [fst snd] in *.
  match goal with
  | |- context [if Nat.ltb (List.length ?l) 2 then _ else _] =>
      assert (Hlen : List.length l <= n_alts bm + 1);
      [| destruct (Nat.ltb (List.length l) 2) eqn:Elt;
         [exists kept; cbn; repeat split; lia|] ]
  end.
  { match goal with |- context [if ?c then _ else _] => destruct c end;
      [rewrite length_app; simpl; lia | lia]. }
  apply Nat.ltb_ge in Elt.
  match goal with |- context [if (?a <? ?b)%Z then _ else _] => destruct (a <? b)%Z end;
    [exists kept; cbn; repeat split; lia|].
  exists (S kept). cbn [long_data skipped_tasks skipped_due_to_missing_alts
                        skipped_due_to_choice].
  rewrite length_app. repeat split; nia.
Qed.

Lemma convert_rows_accounted (cols : list string) (L1 L2 : dict DesignEntry)
  (bm : BrandMap) (n_tasks : nat) (rows : list (list cell)) :
  accounted (n_alts bm) (List.length rows * n_tasks)
            (convert_rows cols L1 L2 bm n_tasks rows).
Proof.
  unfold convert_rows.
  assert (Htasks : forall resp_id row (ts : list nat) p st,
             accounted (n_alts bm) p st ->
             accounted (n_alts bm) (p + List.length ts)
               (fold_left (process_task cols L1 L2 bm resp_id row) ts st)).
  { intros resp_id row ts. induction ts as [|t ts IH]; intros p st Hst.
    - now rewrite Nat.add_0_r.
    - cbn [fold_left List.length]. rewrite <- Nat.add_succ_comm.
      apply IH. now apply process_task_accounted. }
  assert (Hrows : forall (irs : list (nat * list cell)) p st,
             accounted (n_alts bm) p st ->
             accounted (n_alts bm) (p + List.length irs * n_tasks)
               (fold_left
                  (fun st (ir : nat * list cell) =>
                     fold_left (process_task cols L1 L2 bm (Z.of_nat (fst ir) + 1) (snd ir))
                               (seq 1 n_tasks) st)
                  irs st)).
  { induction irs as [|ir irs IH]; intros p st Hst.
    - now rewrite Nat.add_0_r.
    - cbn [fold_left List.length].
      replace (p + S (List.length irs) * n_tasks)
        with ((p + n_tasks) + List.length irs * n_tasks) by lia.
      apply IH.
      pose proof (Htasks (Z.of_nat (fst ir) + 1)%Z (snd ir) (seq 1 n_tasks) p st Hst) as H.
      now rewrite length_seq in H. }
  specialize (Hrows (combine (seq 0 (List.length rows)) rows) 0 initial_state).
  rewrite length_combine, length_seq, Nat.min_id in Hrows. apply Hrows.
  exists 0. cbn. repeat split; lia.
Qed.

(** X16. Without a design (none given, or an empty list) the converter
    either raises a [ValueError] or returns a long table whose columns are
    exactly the four identifiers, with integer cells and at least one row,
    together with an empty schema: no attribute is ever read from the
    export. *)
Theorem parse_without_design_reads_no_attribute
  (df : DataFrame) (attributes_from_design : option (list DesignAttr)) :
  some_design attributes_from_design = [] ->
  match parse_survey_export_to_long df attributes_from_design with
  | Ok (df_long, attributes_schema) =>
      attributes_schema = [] /\
      df_columns df_long = ["resp_id"; "task_id"; "alt_id"; "chosen"] /\
      Forall id_row (df_rows df_long) /\
      df_rows df_long <> []
  | Raise e => exists msg, e = ValueError msg
  end.
Proof.
  exact (parse_bare df attributes_from_design).
Qed.

Lemma parse_without_design_witness :
  match parse_survey_export_to_long (two_alternative_export 1 (CStr "11") (CStr "21"))
                                    (Some []) with
  | Ok (df_long, attributes_schema) =>
      attributes_schema = [] /\
      df_columns df_long = ["resp_id"; "task_id"; "alt_id"; "chosen"] /\
      Forall id_row (df_rows df_long) /\
      df_rows df_long <> []
  | Raise e => exists msg, e = ValueError msg
  end.
Proof.
  apply (parse_without_design_reads_no_attribute
           (two_alternative_export 1 (CStr "11") (CStr "21")) (Some [])).
  reflexivity.
Defined.

(** X17. Without a design, [estimate_from_survey_export] never returns an
    estimate: every call raises HTTP 400; and when the upload is accepted,
    the workbook is read, the conversion succeeds and the four column names
    are found, the detail is "Estimation failed: No objects to concatenate",
    the error of [build_design_matrix] on the empty schema. *)
Theorem survey_export_without_design_always_raises
  (Model : Type) (MNLogit : list Z -> Frame -> result Model)
  (fit : Model -> string -> nat -> result FitResult) (format_mb : N -> string)
  (file : Upload) (attributes_from_design : option (list DesignAttr))
  (resp_col task_col alt_col chosen_col : string) :
  some_design attributes_from_design = [] ->
  exists detail,
    estimate_from_survey_export Model MNLogit fit format_mb file attributes_from_design
      resp_col task_col alt_col chosen_col
    = Raise (HTTPException 400 detail) /\
    (forall df_wide sheets parsed,
       check_upload format_mb file = Ok tt ->
       workbook file = Ok (df_wide :: sheets) ->
       parse_survey_export_to_long df_wide attributes_from_design = Ok parsed ->
       require_columns "Missing required column: " (df_columns (fst parsed))
         [resp_col; task_col; alt_col; chosen_col] = Ok tt ->
       detail = "Estimation failed: No objects to concatenate").
Proof.
  intros Hdesign. unfold estimate_from_survey_export.
  destruct (check_upload format_mb file) as [[]|e] eqn:Hcheck.
  2:{ destruct (check_upload_raises_400 _ _ _ Hcheck) as (d & ->). exists d.
      split; [reflexivity | discriminate]. }
  cbn [bind].
  destruct (workbook file) as [[|df_wide sheets]|e] eqn:Hbook;
    try (eexists; split; [reflexivity | discriminate]).
  cbn [bind rewrap].
  pose proof (parse_bare df_wide attributes_from_design Hdesign) as Hparse.
  destruct (parse_survey_export_to_long df_wide attributes_from_design)
    as [[df_long schema]|e] eqn:Hp.
  2:{ cbn [rewrap bind]. eexists. split; [reflexivity|].
      intros df_wide' sheets' parsed _ E. inversion E. subst. rewrite Hp. discriminate. }
  destruct Hparse as (-> & Hcols & Hrows & Hne).
  cbn [rewrap bind fst snd].
  destruct (require_columns "Missing required column: " (df_columns df_long)
              [resp_col; task_col; alt_col; chosen_col]) as [[]|e] eqn:Hreq.
  2:{ destruct (require_columns_raises_400 _ _ _ _ Hreq) as (d & ->). exists d.
      split; [reflexivity|].
      intros df_wide' sheets' parsed _ E. inversion E. subst. rewrite Hp.
      intros E2. inversion E2. subst. cbn [fst]. rewrite Hreq. discriminate. }
  cbn [bind].
  apply require_columns_ok in Hreq. rewrite Hcols in Hreq.
  assert (Hin : In chosen_col id_columns).
  { inversion Hreq as [|? ? _ H1]; subst. inversion H1 as [|? ? _ H2]; subst.
    inversion H2 as [|? ? _ H3]; subst. now inversion H3. }
  rewrite (estimation_stage_no_attributes Model MNLogit fit df_long chosen_col
             Hcols Hrows Hne Hin).
  eexists. split; [reflexivity|]. intros. reflexivity.
Qed.

Lemma survey_export_without_design_witness :
  exists detail,
    estimate_from_survey_export unit (fun _ _ => Ok tt) constant_solver (fun _ => "0.0")
      {| filename := "export.xlsx"; file_size := 9000;
         workbook := Ok [two_alternative_export 1 (CStr "11") (CStr "21")] |}
      None "resp_id" "task_id" "alt_id" "chosen"
    = Raise (HTTPException 400 detail) /\
    (forall df_wide sheets parsed,
       check_upload (fun _ => "0.0")
         {| filename := "export.xlsx"; file_size := 9000;
            workbook := Ok [two_alternative_export 1 (CStr "11") (CStr "21")] |} = Ok tt ->
       Ok [two_alternative_export 1 (CStr "11") (CStr "21")] = Ok (df_wide :: sheets) ->
       parse_survey_export_to_long df_wide None = Ok parsed ->
       require_columns "Missing required column: " (df_columns (fst parsed))
         ["resp_id"; "task_id"; "alt_id"; "chosen"] = Ok tt ->
       detail = "Estimation failed: No objects to concatenate").
Proof.
  apply (survey_export_without_design_always_raises unit (fun _ _ => Ok tt)
           constant_solver (fun _ => "0.0")
           {| filename := "export.xlsx"; file_size := 9000;
              workbook := Ok [two_alternative_export 1 (CStr "11") (CStr "21")] |}
           None "resp_id" "task_id" "alt_id" "chosen").
  reflexivity.
Defined.

Example survey_export_without_design_example :
  estimate_from_survey_export unit (fun _ _ => Ok tt) constant_solver (fun _ => "0.0")
    {| filename := "export.xlsx"; file_size := 9000;
       workbook := Ok [two_alternative_export 1 (CStr "11") (CStr "21")] |}
    None "resp_id" "task_id" "alt_id" "chosen"
  = Raise (HTTPException 400 "Estimation failed: No objects to concatenate").
Proof. vm_compute. reflexivity. Qed.

(** X18. The accounting of the conversion loops, whatever the export and
    the design. With [n_tasks] choice columns and [n_alts] alternatives, at
    the end of the loops: the two reasons tallied never exceed the number
    of skipped tasks; at most one task per respondent and choice column is
    skipped; the long rows number at most [n_alts + 1] for each task not
    skipped; and the long table never has exactly one row (a kept task
    brings at least two). *)
Theorem conversion_accounting (df : DataFrame) (design : list DesignAttr) :
  let st := conversion_state df design in
  let n_tasks := List.length (filter is_choice_col (df_columns df)) in
  let n := n_alts (index_columns (df_columns df)) in
  skipped_due_to_missing_alts st + skipped_due_to_choice st <= skipped_tasks st /\
  skipped_tasks st <= List.length (df_rows df) * n_tasks /\
  List.length (long_data st)
  <= (List.length (df_rows df) * n_tasks - skipped_tasks st) * (n + 1) /\
  List.length (long_data st) <> 1.
Proof.
  intros st n_tasks n.
  destruct (convert_rows_accounted (df_columns df) (build_design_lookup design)
              (build_design_lookup_by_no design) (index_columns (df_columns df))
              n_tasks (df_rows df)) as (kept & Hp & Hlo & Hhi & Htally).
  fold n in Hhi. change (convert_rows _ _ _ _ _ _) with st in *.
  repeat split; try lia.
  eapply Nat.le_trans; [exact Hhi|]. apply Nat.mul_le_mono_r. lia.
Qed.

End ConverterFacts.

(* ------------------------------------------------------------------ *)
(** ** What [parse_definitions_sheet] returns *)

Module DefinitionFacts.

Import DesignMatrix Endpoints DesignFacts.

(** What holds of every attribute the parser returns. *)
Definition parsed_attribute (attr : AttributeDef) : Prop :=
  attr_name attr <> "" /\
  2 <= List.length (attr_levels attr) /\
  ~ In "" (attr_levels attr) /\
  attr_label attr = None /\
  match attr_reference attr with
  | None => True
  | Some r => r = "" \/ In r (attr_levels attr)
  end.

(** A definitions sheet with a blank row, a reference left empty and a
    reference cell that holds only white space. *)
Definition definitions_sheet : DataFrame :=
  {| df_columns := ["name"; "type"; "levels"; "reference"];
     df_rows := [[CStr "Price"; CStr "Categorical"; CStr "Low, Medium, High"; CNaN];
                 [CNaN; CNaN; CNaN; CNaN];
                 [CStr "Brand"; CStr "categorical"; CStr "Acme,Bolt,,Acme"; CStr "Bolt"];
                 [CStr "Size"; CStr "categorical"; CStr "S,L"; CStr " "]] |}.

Lemma mapM_Forall2 {A B : Type} (f : A -> result B) (l : list A) :
  forall bs, mapM f l = Ok bs -> Forall2 (fun a b => f a = Ok b) l bs.
Proof.
  induction l as [|a l IH]; intros bs; cbn [mapM].
  - intros E. inversion E. constructor.
  - destruct (f a) as [b|e] eqn:Ea; [|discriminate]. cbn [bind].
    destruct (mapM f l) as [bs'|e]; [|discriminate]. cbn [bind].
    intros E. inversion E. subst. constructor; [exact Ea | now apply IH].
Qed.

Lemma parse_definition_row_attribute (cols : list string) (row : list cell)
  (attr : AttributeDef) :
  parse_definition_row cols row = Ok (Some attr) -> parsed_attribute attr.
Proof.
  unfold parse_definition_row.
  set (name := strip (cell_str (row_get cols row "name" CNaN))).
  destruct (String.eqb name "" || String.eqb (lower name) "nan") eqn:Ename; [discriminate|].
  apply orb_false_iff in Ename. destruct Ename as [Ename _].
  apply String.eqb_neq in Ename.
  destruct (negb (String.eqb _ "categorical")); [discriminate|].
  destruct (row_get cols row "levels" (CStr "")) as [| |raw]; try discriminate.
  destruct (String.eqb (strip raw) ""); [discriminate|].
  set (levels := filter (fun s => negb (String.eqb s "")) (map strip (split_comma raw))).
  destruct (Nat.ltb (List.length levels) 2) eqn:Elen; [discriminate|].
  apply Nat.ltb_ge in Elen.
  assert (Hblank : ~ In "" levels).
  { unfold levels. intros H. apply filter_In in H. destruct H as [_ H]. discriminate H. }
  destruct (isna (row_get cols row "reference" CNaN)).
  - intros E. inversion E. subst attr. repeat split; assumption.
  - set (r := strip (cell_str (row_get cols row "reference" CNaN))).
    destruct (negb (String.eqb r "") && negb (str_in r levels)) eqn:Eref; [discriminate|].
    intros E. inversion E. subst attr. repeat split; try assumption.
    cbn [attr_reference attr_levels].
    apply andb_false_iff in Eref. destruct Eref as [Eref | Eref];
      apply negb_false_iff in Eref.
    + left. now apply String.eqb_eq.
    + right. now apply str_in_In.
Qed.

Lemma somes_Forall {A B : Type} (P : B -> Prop) (f : A -> result (option B))
  (l : list A) (bs : list (option B)) :
  (forall a b, f a = Ok (Some b) -> P b) ->
  Forall2 (fun a b => f a = Ok b) l bs ->
  Forall P (somes bs) /\ List.length (somes bs) <= List.length l.
Proof.
  intros Hf. induction 1 as [|a [b|] l bs Ha _ IH]; cbn [somes List.length].
  - split; [constructor | lia].
  - destruct IH as [IH1 IH2]. split; [constructor; eauto | lia].
  - destruct IH as [IH1 IH2]. split; [exact IH1 | lia].
Qed.

Lemma parsed_attributes (df_defs : DataFrame) (attributes : list AttributeDef) :
  parse_definitions_sheet df_defs = Ok attributes ->
  Forall parsed_attribute attributes /\
  List.length attributes <= List.length (df_rows df_defs).
Proof.
  unfold parse_definitions_sheet.
  destruct (negb (str_in "name" _)); [discriminate|].
  destruct (negb (str_in "type" _)); [discriminate|].
  destruct (negb (str_in "levels" _)); [discriminate|].
  destruct (mapM _ _) as [bs|e] eqn:Hm; [|discriminate]. cbn [bind].
  intros E. inversion E. subst attributes.
  apply mapM_Forall2 in Hm.
  exact (somes_Forall parsed_attribute _ _ _
           (parse_definition_row_attribute (df_columns df_defs)) Hm).
Qed.

(** X19. Every attribute that [parse_definitions_sheet] returns has a
    non-empty name, at least two levels, none of them empty, no label, and
    a reference that is unset, empty, or one of its levels; there is at most
    one attribute per row of the sheet. Such definitions are always accepted
    by [build_design_matrix]: when at least one attribute was parsed and the
    data table has a column for each, the design matrix is built, with one
    row per row of the data. *)
Theorem parsed_definitions_build_a_design
  (df_defs : DataFrame) (attributes : list AttributeDef) :
  parse_definitions_sheet df_defs = Ok attributes ->
  Forall parsed_attribute attributes /\
  List.length attributes <= List.length (df_rows df_defs) /\
  forall df,
    attributes <> [] ->
    Forall (fun attr => In (attr_name attr) (df_columns df)) attributes ->
    exists X, build_design_matrix df attributes = Ok X /\
              List.length (f_rows X) = List.length (df_rows df).
Proof.
  intros Hparse. destruct (parsed_attributes df_defs attributes Hparse) as [Hall Hlen].
  split; [exact Hall|]. split; [exact Hlen|].
  intros df Hne Hcols. eexists. split.
  - apply (build_design_matrix_codable df attributes Hne).
    rewrite Forall_forall in *. intros attr Hin. split; [now apply Hcols|].
    left. destruct (Hall attr Hin) as (_ & Hlevels & _).
    intros E. rewrite E in Hlevels. simpl in Hlevels. lia.
  - cbn [f_rows]. now rewrite length_map.
Qed.

Lemma parsed_definitions_witness :
  Forall parsed_attribute
    [{| attr_name := "Price"; attr_levels := ["Low"; "Medium"; "High"];
        attr_reference := None; attr_label := None |};
     {| attr_name := "Brand"; attr_levels := ["Acme"; "Bolt"; "Acme"];
        attr_reference := Some "Bolt"; attr_label := None |};
     {| attr_name := "Size"; attr_levels := ["S"; "L"];
        attr_reference := Some ""; attr_label := None |}] /\
  3 <= 4 /\
  forall df,
    [{| attr_name := "Price"; attr_levels := ["Low"; "Medium"; "High"];
        attr_reference := None; attr_label := None |};
     {| attr_name := "Brand"; attr_levels := ["Acme"; "Bolt"; "Acme"];
        attr_reference := Some "Bolt"; attr_label := None |};
     {| attr_name := "Size"; attr_levels := ["S"; "L"];
        attr_reference := Some ""; attr_label := None |}] <> [] ->
    Forall (fun attr => In (attr_name attr) (df_columns df))
      [{| attr_name := "Price"; attr_levels := ["Low"; "Medium"; "High"];
          attr_reference := None; attr_label := None |};
       {| attr_name := "Brand"; attr_levels := ["Acme"; "Bolt"; "Acme"];
          attr_reference := Some "Bolt"; attr_label := None |};
       {| attr_name := "Size"; attr_levels := ["S"; "L"];
          attr_reference := Some ""; attr_label := None |}] ->
    exists X,
      build_design_matrix df
        [{| attr_name := "Price"; attr_levels := ["Low"; "Medium"; "High"];
            attr_reference := None; attr_label := None |};
         {| attr_name := "Brand"; attr_levels := ["Acme"; "Bolt"; "Acme"];
            attr_reference := Some "Bolt"; attr_label := None |};
         {| attr_name := "Size"; attr_levels := ["S"; "L"];
            attr_reference := Some ""; attr_label := None |}] = Ok X /\
      List.length (f_rows X) = List.length (df_rows df).
Proof.
  apply (parsed_definitions_build_a_design definitions_sheet).
  reflexivity.
Defined.

(** A reference cell that holds only white space is kept as an empty
    reference: no level is left out of the coding, and every level of the
    attribute gets a column. *)
Example blank_reference_codes_every_level :
  block_labels {| attr_name := "Size"; attr_levels := ["S"; "L"];
                  attr_reference := Some ""; attr_label := None |}
  = ["Size__S"; "Size__L"].
Proof. reflexivity. Qed.

End DefinitionFacts.

(* ------------------------------------------------------------------ *)
(** ** Identifiers of the command-line tool: [_sanitize_identifier] *)

Module Identifiers.

Import Converter UtilityGrouping.

(** [re.sub(p + "+", "_", s)] for a character class [p]: every maximal run
    of characters of the class becomes one underscore. [in_run] tells that
    the character before was of the class. *)
Fixpoint sub_runs_aux (p : ascii -> bool) (in_run : bool) (s : string) : string :=
  match s with
  | EmptyString => EmptyString
  | String c s' =>
      if p c then
        if in_run then sub_runs_aux p true s'
        else String "_"%char (sub_runs_aux p true s')
      else String c (sub_runs_aux p false s')
  end.

Definition sub_runs (p : ascii -> bool) (s : string) : string := sub_runs_aux p false s.

(** The character class [[a-zA-Z0-9_]]. *)
Definition is_word_char (c : ascii) : bool :=
  let n := nat_of_ascii c in
  (Nat.leb 97 n && Nat.leb n 122) || (Nat.leb 65 n && Nat.leb n 90)
  || is_digit c || Ascii.eqb c "_"%char.

Definition is_underscore (c : ascii) : bool := Ascii.eqb c "_"%char.

(** [re.sub(r"[^a-zA-Z0-9_]", "_", s)] *)
Definition sub_non_word (s : string) : string :=
  map_chars (fun c => if is_word_char c then c else "_"%char) s.

(** [s.lstrip(chars)] and [s.rstrip(chars)] for a character class. *)
Fixpoint lstrip_by (p : ascii -> bool) (s : string) : string :=
  match s with
  | String c s' => if p c then lstrip_by p s' else s
  | EmptyString => EmptyString
  end.

Fixpoint rstrip_by (p : ascii -> bool) (s : string) : string :=
  match s with
  | String c s' =>
      match rstrip_by p s' with
      | EmptyString => if p c then EmptyString else String c EmptyString
      | t => String c t
      end
  | EmptyString => EmptyString
  end.

(** [s.strip("_")] *)
Definition strip_underscores (s : string) : string :=
  rstrip_by is_underscore (lstrip_by is_underscore s).

(** [_sanitize_identifier(value, fallback)]; [value] is [None] when the
    argument is not a string. *)
Definition _sanitize_identifier (value : option string) (fallback : string) : string :=
  match value with
  | None => fallback
  | Some value =>
      let cleaned := strip value in
      let cleaned := sub_runs is_space cleaned in
      let cleaned := sub_non_word cleaned in
      let cleaned := sub_runs is_underscore cleaned in
      let cleaned := upper (strip_underscores cleaned) in
      if String.eqb cleaned "" then fallback else cleaned
  end.

(** The string starts with an underscore. *)
Definition starts_underscore (s : string) : bool :=
  match s with
  | String c _ => is_underscore c
  | EmptyString => false
  end.

(** An upper-case snake-case identifier: not empty, over [[A-Z0-9_]], no
    underscore at either end and no two underscores in a row. *)
Definition identifier (s : string) : bool :=
  negb (String.eqb s "") && all_chars is_brand_char s
  && negb (starts_underscore s) && plain_name s.

Example sanitize_examples :
  (_sanitize_identifier (Some "  screen size (in) ") "ATT01",
   _sanitize_identifier (Some "__Brand--name__") "ATT02",
   _sanitize_identifier (Some " ?! ") "ATT03",
   _sanitize_identifier None "ATT04")
  = ("SCREEN_SIZE_IN", "BRAND_NAME", "ATT03", "ATT04").
Proof. reflexivity. Qed.

Lemma upper_keeps_underscores (c : ascii) :
  is_underscore (upper_ascii c) = is_underscore c.
Proof.
  destruct c as [[] [] [] [] [] [] [] []]; reflexivity.
Qed.

Lemma upper_word_is_brand (c : ascii) :
  is_word_char c = true -> is_brand_char (upper_ascii c) = true.
Proof.
  destruct c as [[] [] [] [] [] [] [] []]; intros H; try reflexivity; discriminate H.
Qed.

Lemma upper_brand_fixed (c : ascii) :
  is_brand_char c = true -> upper_ascii c = c.
Proof.
  destruct c as [[] [] [] [] [] [] [] []]; intros H; try reflexivity; discriminate H.
Qed.

Lemma brand_is_word (c : ascii) :
  is_brand_char c = true -> is_word_char c = true.
Proof.
  destruct c as [[] [] [] [] [] [] [] []]; intros H; try reflexivity; discriminate H.
Qed.

Lemma brand_not_space (c : ascii) :
  is_brand_char c = true -> is_space c = false.
Proof.
  destruct c as [[] [] [] [] [] [] [] []]; intros H; try reflexivity; discriminate H.
Qed.

Lemma underscore_is_word (c : ascii) :
  is_underscore c = true -> is_word_char c = true.
Proof.
  unfold is_underscore. intros H. apply Ascii.eqb_eq in H. now subst c.
Qed.

(** The shape that matters after underscores were collapsed: no two in a
    row, and none at the start when the text before ended with one. *)
Fixpoint single_underscores (s : string) : bool :=
  match s with
  | EmptyString => true
  | String a rest =>
      (if is_underscore a then negb (starts_underscore rest) else true)
      && single_underscores rest
  end.

(** The string does not end with an underscore. *)
Fixpoint open_ended (s : string) : bool :=
  match s with
  | EmptyString => true
  | String a EmptyString => negb (is_underscore a)
  | String _ rest => open_ended rest
  end.

Lemma plain_name_shape (s : string) :
  plain_name s = single_underscores s && open_ended s.
Proof.
  induction s as [|a rest IH]; [reflexivity|].
  cbn [plain_name single_underscores]. fold (is_underscore a).
  destruct rest as [|b rest'].
  - cbn. destruct (is_underscore a); reflexivity.
  - change (open_ended (String a (String b rest'))) with (open_ended (String b rest')).
    rewrite IH. cbn [starts_underscore]. fold (is_underscore b).
    destruct (is_underscore a); [|reflexivity].
    destruct (is_underscore b); reflexivity.
Qed.

Lemma sub_non_word_chars (s : string) : all_chars is_word_char (sub_non_word s) = true.
Proof.
  unfold sub_non_word. induction s as [|c s IH]; [reflexivity|].
  cbn [map_chars all_chars]. rewrite IH.
  destruct (is_word_char c) eqn:E; [now rewrite E | reflexivity].
Qed.

Lemma collapse_shape (s : string) :
  all_chars is_word_char s = true ->
  forall in_run,
    all_chars is_word_char (sub_runs_aux is_underscore in_run s) = true /\
    single_underscores (sub_runs_aux is_underscore in_run s) = true /\
    (in_run = true -> starts_underscore (sub_runs_aux is_underscore in_run s) = false).
Proof.
  induction s as [|c s IH]; intros Hall in_run; [now repeat split|].
  cbn [all_chars] in Hall. apply andb_prop in Hall. destruct Hall as [Hc Hs].
  cbn [sub_runs_aux].
  destruct (is_underscore c) eqn:Ec.
  - destruct (IH Hs true) as (H1 & H2 & H3). specialize (H3 eq_refl).
    destruct in_run.
    + now repeat split.
    + cbn [all_chars single_underscores starts_underscore].
      rewrite H1, H2, H3. now repeat split.
  - destruct (IH Hs false) as (H1 & H2 & _).
    cbn [all_chars single_underscores starts_underscore].
    rewrite Hc, Ec, H1, H2. now repeat split.
Qed.

Lemma lstrip_by_shape (s : string) :
  all_chars is_word_char s = true -> single_underscores s = true ->
  all_chars is_word_char (lstrip_by is_underscore s) = true /\
  single_underscores (lstrip_by is_underscore s) = true /\
  starts_underscore (lstrip_by is_underscore s) = false.
Proof.
  induction s as [|c s IH]; intros Hall Hsingle; [now repeat split|].
  cbn [lstrip_by]. destruct (is_underscore c) eqn:Ec.
  - cbn [all_chars single_underscores] in *.
    apply andb_prop in Hall. apply andb_prop in Hsingle. now apply IH.
  - repeat split; assumption.
Qed.

Lemma rstrip_by_shape (s : string) :
  all_chars is_word_char s = true -> single_underscores s = true ->
  all_chars is_word_char (rstrip_by is_underscore s) = true /\
  single_underscores (rstrip_by is_underscore s) = true /\
  open_ended (rstrip_by is_underscore s) = true /\
  (starts_underscore s = false -> starts_underscore (rstrip_by is_underscore s) = false).
Proof.
  induction s as [|c s IH]; intros Hall Hsingle; [now repeat split|].
  cbn [all_chars single_underscores] in Hall, Hsingle.
  apply andb_prop in Hall. destruct Hall as [Hc Hs].
  apply andb_prop in Hsingle. destruct Hsingle as [Hcs Hss].
  destruct (IH Hs Hss) as (H1 & H2 & H3 & H4).
  cbn [rstrip_by].
  destruct (rstrip_by is_underscore s) as [|d t] eqn:Er.
  - destruct (is_underscore c) eqn:Ec; [now repeat split|].
    cbn [all_chars single_underscores open_ended starts_underscore].
    rewrite Hc, Ec. now repeat split.
  - remember (String d t) as T eqn:ET in *.
    assert (Hopen : open_ended (String c T) = open_ended T) by (subst T; reflexivity).
    rewrite Hopen. cbn [all_chars single_underscores starts_underscore].
    rewrite Hc, H1, H2, H3. repeat split; [|tauto].
    destruct (is_underscore c) eqn:Ec; [|reflexivity].
    try rewrite Ec in Hcs. apply negb_true_iff in Hcs.
    now rewrite (H4 Hcs).
Qed.

Lemma upper_shape (s : string) :
  all_chars is_word_char s = true ->
  all_chars is_brand_char (upper s) = true /\
  single_underscores (upper s) = single_underscores s /\
  open_ended (upper s) = open_ended s /\
  starts_underscore (upper s) = starts_underscore s.
Proof.
  unfold upper. induction s as [|c s IH]; intros Hall; [now repeat split|].
  cbn [all_chars] in Hall. apply andb_prop in Hall. destruct Hall as [Hc Hs].
  destruct (IH Hs) as (H1 & H2 & H3 & H4).
  cbn [map_chars all_chars single_underscores starts_underscore].
  rewrite (upper_word_is_brand c Hc), H1, H2, H4, upper_keeps_underscores.
  repeat split.
  destruct s as [|d s']; [cbn; now rewrite upper_keeps_underscores|].
  exact H3.
Qed.

Lemma lstrip_spaces_fixed (s : string) :
  all_chars is_brand_char s = true -> lstrip s = s.
Proof.
  destruct s as [|c s]; [reflexivity|]. cbn [all_chars lstrip]. intros H.
  apply andb_prop in H. destruct H as [Hc _]. now rewrite (brand_not_space c Hc).
Qed.

Lemma rstrip_spaces_fixed (s : string) :
  all_chars is_brand_char s = true -> rstrip s = s.
Proof.
  induction s as [|c s IH]; [reflexivity|]. cbn [all_chars rstrip]. intros H.
  apply andb_prop in H. destruct H as [Hc Hs]. rewrite (IH Hs).
  destruct s; [now rewrite (brand_not_space c Hc) | reflexivity].
Qed.

Lemma sub_spaces_fixed (s : string) :
  all_chars is_brand_char s = true -> sub_runs_aux is_space false s = s.
Proof.
  induction s as [|c s IH]; [reflexivity|]. cbn [all_chars sub_runs_aux]. intros H.
  apply andb_prop in H. destruct H as [Hc Hs].
  now rewrite (brand_not_space c Hc), (IH Hs).
Qed.

Lemma sub_non_word_fixed (s : string) :
  all_chars is_brand_char s = true -> sub_non_word s = s.
Proof.
  unfold sub_non_word. induction s as [|c s IH]; [reflexivity|].
  cbn [all_chars map_chars]. intros H.
  apply andb_prop in H. destruct H as [Hc Hs].
  now rewrite (brand_is_word c Hc), (IH Hs).
Qed.

Lemma collapse_fixed (s : string) :
  single_underscores s = true ->
  forall in_run,
    (in_run = true -> starts_underscore s = false) ->
    sub_runs_aux is_underscore in_run s = s.
Proof.
  induction s as [|c s IH]; intros Hsingle in_run Hrun; [reflexivity|].
  cbn [single_underscores] in Hsingle. apply andb_prop in Hsingle.
  destruct Hsingle as [Hc Hs]. cbn [sub_runs_aux].
  destruct (is_underscore c) eqn:Ec.
  - destruct in_run.
    + specialize (Hrun eq_refl). cbn [starts_underscore] in Hrun. congruence.
    + apply negb_true_iff in Hc. rewrite (IH Hs true (fun _ => Hc)).
      unfold is_underscore in Ec. apply Ascii.eqb_eq in Ec. now subst c.
  - now rewrite (IH Hs false) by discriminate.
Qed.

Lemma lstrip_by_fixed (s : string) :
  starts_underscore s = false -> lstrip_by is_underscore s = s.
Proof.
  destruct s as [|c s]; [reflexivity|]. cbn [starts_underscore lstrip_by].
  now intros ->.
Qed.

Lemma rstrip_by_fixed (s : string) :
  open_ended s = true -> rstrip_by is_underscore s = s.
Proof.
  induction s as [|c s IH]; [reflexivity|]. intros H. cbn [rstrip_by].
  destruct s as [|d s'].
  - cbn in *. apply negb_true_iff in H. now rewrite H.
  - change (open_ended (String c (String d s'))) with (open_ended (String d s')) in H.
    now rewrite (IH H).
Qed.

Lemma upper_fixed (s : string) :
  all_chars is_brand_char s = true -> upper s = s.
Proof.
  unfold upper. induction s as [|c s IH]; [reflexivity|].
  cbn [all_chars map_chars]. intros H.
  apply andb_prop in H. destruct H as [Hc Hs].
  now rewrite (upper_brand_fixed c Hc), (IH Hs).
Qed.

Lemma identifier_parts (s : string) :
  identifier s = true ->
  s <> "" /\ all_chars is_brand_char s = true /\ starts_underscore s = false /\
  single_underscores s = true /\ open_ended s = true.
Proof.
  unfold identifier. rewrite plain_name_shape. intros H.
  apply andb_prop in H. destruct H as [H H4].
  apply andb_prop in H. destruct H as [H H3].
  apply andb_prop in H. destruct H as [H1 H2].
  apply andb_prop in H4. destruct H4 as [H4 H5].
  apply negb_true_iff in H1. apply String.eqb_neq in H1.
  apply negb_true_iff in H3. now repeat split.
Qed.

(** What the cleaning steps return before the fallback is considered. *)
Lemma cleaned_shape (value : string) :
  let cleaned :=
    upper (strip_underscores
             (sub_runs is_underscore (sub_non_word (sub_runs is_space (strip value))))) in
  cleaned = "" \/ identifier cleaned = true.
Proof.
  intros cleaned.
  pose proof (sub_non_word_chars (sub_runs is_space (strip value))) as H0.
  destruct (collapse_shape _ H0 false) as (H1 & H2 & _).
  fold (sub_runs is_underscore (sub_non_word (sub_runs is_space (strip value)))) in H1, H2.
  destruct (lstrip_by_shape _ H1 H2) as (H3 & H4 & H5).
  destruct (rstrip_by_shape _ H3 H4) as (H6 & H7 & H8 & H9). specialize (H9 H5).
  fold (strip_underscores
          (sub_runs is_underscore (sub_non_word (sub_runs is_space (strip value)))))
    in H6, H7, H8, H9.
  destruct (upper_shape _ H6) as (U1 & U2 & U3 & U4).
  fold cleaned in U1, U2, U3, U4.
  destruct (String.eqb cleaned "") eqn:E; [left; now apply String.eqb_eq|].
  right. unfold identifier.
  rewrite plain_name_shape, E, U1, U2, U3, U4, H7, H8, H9. reflexivity.
Qed.

Lemma sanitize_identifier_fixed (s fallback : string) :
  identifier s = true -> _sanitize_identifier (Some s) fallback = s.
Proof.
  intros H. destruct (identifier_parts s H) as (Hne & Hall & Hstart & Hsingle & Hopen).
  unfold _sanitize_identifier, strip, sub_runs, strip_underscores.
  rewrite (lstrip_spaces_fixed s Hall), (rstrip_spaces_fixed s Hall),
    (sub_spaces_fixed s Hall), (sub_non_word_fixed s Hall).
  rewrite (collapse_fixed s Hsingle false) by discriminate.
  rewrite (lstrip_by_fixed s Hstart), (rstrip_by_fixed s Hopen), (upper_fixed s Hall).
  apply String.eqb_neq in Hne. now rewrite Hne.
Qed.

(** X20. [_sanitize_identifier] returns the fallback for a value that is
    not a string; for a string it returns either the fallback (when nothing
    is left after cleaning) or an upper-case snake-case identifier: not
    empty, over [[A-Z0-9_]], with no underscore at either end and no two
    underscores in a row. Such a result is left unchanged when sanitized
    again, is a brand token of the converter's column pattern, and is an
    attribute name that the grouping of the coefficients splits back from
    [name__level]. *)
Theorem sanitize_identifier_gives_identifier (value fallback fallback' : string) :
  _sanitize_identifier None fallback = fallback /\
  (_sanitize_identifier (Some value) fallback = fallback \/
   (identifier (_sanitize_identifier (Some value) fallback) = true /\
    _sanitize_identifier (Some (_sanitize_identifier (Some value) fallback)) fallback'
    = _sanitize_identifier (Some value) fallback /\
    is_brand (_sanitize_identifier (Some value) fallback) = true /\
    forall lvl,
      split_dunder (DesignMatrix.col_label (_sanitize_identifier (Some value) fallback) lvl)
      = Some (_sanitize_identifier (Some value) fallback, lvl))).
Proof.
  split; [reflexivity|].
  assert (H : _sanitize_identifier (Some value) fallback = fallback \/
              identifier (_sanitize_identifier (Some value) fallback) = true).
  { unfold _sanitize_identifier.
    destruct (cleaned_shape value) as [E | E]; cbv zeta in E.
    - rewrite E. now left.
    - destruct (String.eqb _ "") eqn:E0; [now left | now right]. }
  destruct H as [H | H]; [now left | right].
  set (r := _sanitize_identifier (Some value) fallback) in *.
  split; [exact H|]. split; [exact (sanitize_identifier_fixed r fallback' H)|].
  pose proof H as H'. unfold identifier in H'.
  apply andb_prop in H'. destruct H' as [H' Hplain].
  apply andb_prop in H'. destruct H' as [H' _].
  split; [exact H'|].
  intros lvl. exact (split_dunder_plain r lvl Hplain).
Qed.

End Identifiers.

(* ------------------------------------------------------------------ *)
(** ** The column names the converter recognises *)

Module ColumnNames.

Import Converter UtilityGrouping Identifiers.

(** The three kinds of column of a survey export. *)
Definition choice_column (task : string) : string := "QC1_" ++ task.

Definition value_column (brand task slot : string) : string :=
  "hATTR_" ++ brand ++ "_" ++ task ++ "c" ++ slot.

Definition header_column (brand task slot : string) : string :=
  "hATTR_" ++ brand ++ "_H_" ++ task ++ "c" ++ slot.

(** [brand_columns.get(brand, {}).get(task, {}).get(slot)] *)
Definition lookup_slot (brand_columns : BrandMap) (brand : string) (task slot : nat)
  : option SlotEntry :=
  get_nat (some_slots (get_nat (get_default brand_columns brand []) task)) slot.

Definition slot_or_empty (o : option SlotEntry) : SlotEntry :=
  match o with
  | Some e => e
  | None => {| slot_header := None; slot_value := None |}
  end.

Definition not_char (c a : ascii) : bool := negb (Ascii.eqb a c).

Lemma all_chars_app (p : ascii -> bool) (a b : string) :
  all_chars p (a ++ b) = all_chars p a && all_chars p b.
Proof.
  induction a as [|c a IH]; [reflexivity|].
  cbn [append all_chars]. now rewrite IH, andb_assoc.
Qed.

Lemma all_chars_impl (p q : ascii -> bool) (s : string) :
  (forall c, p c = true -> q c = true) ->
  all_chars p s = true -> all_chars q s = true.
Proof.
  intros Hpq. induction s as [|c s IH]; [reflexivity|].
  cbn [all_chars]. intros H. apply andb_prop in H. destruct H as [Hc Hs].
  now rewrite (Hpq c Hc), (IH Hs).
Qed.

Lemma digit_not_char (c : ascii) :
  is_digit c = false -> forall a, is_digit a = true -> not_char c a = true.
Proof.
  intros Hc a Ha. unfold not_char. destruct (Ascii.eqb a c) eqn:E; [|reflexivity].
  apply Ascii.eqb_eq in E. congruence.
Qed.

Lemma brand_not_newline (a : ascii) :
  is_brand_char a = true -> not_char "010"%char a = true.
Proof.
  destruct a as [[] [] [] [] [] [] [] []]; intros H; try reflexivity; discriminate H.
Qed.

Lemma digits_chars (s : string) : is_digits s = true -> all_chars is_digit s = true.
Proof.
  unfold is_digits. intros H. apply andb_prop in H. tauto.
Qed.

Lemma chomp_fixed (s : string) :
  all_chars (not_char "010"%char) s = true -> chomp s = s.
Proof.
  induction s as [|c s IH]; [reflexivity|]. cbn [all_chars]. intros H.
  apply andb_prop in H. destruct H as [Hc Hs].
  destruct s as [|d s'].
  - cbn. unfold not_char in Hc. apply negb_true_iff in Hc. now rewrite Hc.
  - change (chomp (String c (String d s'))) with (String c (chomp (String d s'))).
    now rewrite (IH Hs).
Qed.

Lemma split_last_none (c : ascii) (s : string) :
  all_chars (not_char c) s = true -> split_last c s = None.
Proof.
  induction s as [|a s IH]; [reflexivity|]. cbn [all_chars split_last]. intros H.
  apply andb_prop in H. destruct H as [Ha Hs]. rewrite (IH Hs).
  unfold not_char in Ha. apply negb_true_iff in Ha. now rewrite Ha.
Qed.

Lemma split_last_app (c : ascii) (before tail : string) :
  all_chars (not_char c) tail = true ->
  split_last c (before ++ String c tail) = Some (before, tail).
Proof.
  intros Htail. induction before as [|a before IH].
  - cbn [append split_last]. now rewrite (split_last_none c tail Htail), Ascii.eqb_refl.
  - cbn [append split_last]. now rewrite IH.
Qed.

Lemma split_first_app (c : ascii) (before after : string) :
  all_chars (not_char c) before = true ->
  split_first c (before ++ String c after) = Some (before, after).
Proof.
  induction before as [|a before IH]; intros H.
  - cbn [append split_first]. now rewrite Ascii.eqb_refl.
  - cbn [all_chars] in H. apply andb_prop in H. destruct H as [Ha Hb].
    cbn [append split_first]. unfold not_char in Ha. apply negb_true_iff in Ha.
    now rewrite Ha, (IH Hb).
Qed.

Lemma length_append (a b : string) :
  String.length (a ++ b) = String.length a + String.length b.
Proof.
  induction a as [|c a IH]; [reflexivity|]. cbn [append String.length]. now rewrite IH.
Qed.

Lemma substring_all (s : string) : substring 0 (String.length s) s = s.
Proof.
  induction s as [|c s IH]; [reflexivity|]. cbn [String.length substring]. now rewrite IH.
Qed.

Lemma substring_prefix (a b : string) : substring 0 (String.length a) (a ++ b) = a.
Proof.
  induction a as [|c a IH]; [now destruct b|].
  cbn [append String.length substring]. now rewrite IH.
Qed.

Lemma substring_suffix (a b : string) :
  substring (String.length a) (String.length b) (a ++ b) = b.
Proof.
  induction a as [|c a IH]; [apply substring_all|].
  cbn [append String.length substring]. exact IH.
Qed.

(** The text after the brand, and the whole text after the prefix. *)
Lemma tail_shape (task slot : string) :
  is_digits task = true -> is_digits slot = true ->
  all_chars (not_char "_"%char) (task ++ String "c"%char slot) = true /\
  all_chars (not_char "010"%char) (task ++ String "c"%char slot) = true /\
  all_chars (not_char "c"%char) task = true.
Proof.
  intros Ht Hs. apply digits_chars in Ht. apply digits_chars in Hs.
  rewrite !all_chars_app. cbn [all_chars].
  rewrite (all_chars_impl _ _ task (digit_not_char "_"%char eq_refl) Ht),
    (all_chars_impl _ _ slot (digit_not_char "_"%char eq_refl) Hs),
    (all_chars_impl _ _ task (digit_not_char "010"%char eq_refl) Ht),
    (all_chars_impl _ _ slot (digit_not_char "010"%char eq_refl) Hs),
    (all_chars_impl _ _ task (digit_not_char "c"%char eq_refl) Ht).
  repeat split.
Qed.

Lemma rest_split (before task slot : string) :
  all_chars is_brand_char before = true ->
  is_digits task = true -> is_digits slot = true ->
  split_last "_"%char (chomp (before ++ String "_"%char (task ++ String "c"%char slot)))
  = Some (before, (task ++ String "c"%char slot)%string) /\
  split_first "c"%char (task ++ String "c"%char slot) = Some (task, slot).
Proof.
  intros Hb Ht Hs. destruct (tail_shape task slot Ht Hs) as (H1 & H2 & H3).
  rewrite chomp_fixed.
  - split; [now apply split_last_app | now apply split_first_app].
  - rewrite all_chars_app. cbn [all_chars].
    now rewrite (all_chars_impl _ _ before brand_not_newline Hb), H2.
Qed.

Lemma match_attr_value_column (brand task slot : string) :
  is_brand brand = true -> is_digits task = true -> is_digits slot = true ->
  match_attr_value (value_column brand task slot) = Some (brand, task, slot).
Proof.
  intros Hb Ht Hs. unfold match_attr_value, value_column.
  change (strip_prefix "hATTR_" ("hATTR_" ++ brand ++ "_" ++ task ++ "c" ++ slot))
    with (Some (brand ++ String "_"%char (task ++ String "c"%char slot))%string).
  pose proof Hb as Hb'. unfold is_brand in Hb'. apply andb_prop in Hb'.
  destruct Hb' as [_ Hchars].
  destruct (rest_split brand task slot Hchars Ht Hs) as [-> ->].
  now rewrite Hb, Ht, Hs.
Qed.

Lemma header_rest (brand task slot : string) :
  (brand ++ "_H_" ++ task ++ "c" ++ slot)%string
  = ((brand ++ "_H") ++ String "_"%char (task ++ String "c"%char slot))%string.
Proof.
  now rewrite append_assoc.
Qed.

Lemma match_attr_header_column (brand task slot : string) :
  is_brand brand = true -> is_digits task = true -> is_digits slot = true ->
  match_attr_header (header_column brand task slot) = Some (brand, task, slot).
Proof.
  intros Hb Ht Hs. unfold match_attr_header, header_column.
  change (strip_prefix "hATTR_" ("hATTR_" ++ brand ++ "_H_" ++ task ++ "c" ++ slot))
    with (Some (brand ++ "_H_" ++ task ++ "c" ++ slot)%string).
  rewrite header_rest.
  pose proof Hb as Hb'. unfold is_brand in Hb'. apply andb_prop in Hb'.
  destruct Hb' as [_ Hchars].
  assert (Hbefore : all_chars is_brand_char (brand ++ "_H") = true).
  { rewrite all_chars_app, Hchars. reflexivity. }
  destruct (rest_split (brand ++ "_H") task slot Hbefore Ht Hs) as [-> ->].
  cbv zeta. rewrite length_append. cbn [String.length].
  replace (String.length brand + 2 - 2) with (String.length brand) by lia.
  rewrite substring_prefix.
  pose proof (substring_suffix brand "_H") as Hsuf. cbn [String.length] in Hsuf.
  rewrite Hsuf.
  replace (Nat.leb 2 (String.length brand + 2)) with true
    by (symmetry; apply Nat.leb_le; lia).
  now rewrite Hb, Ht, Hs.
Qed.

Lemma match_attr_header_value_column (brand task slot : string) :
  is_brand brand = true -> is_digits task = true -> is_digits slot = true ->
  endswith brand "_H" = false ->
  match_attr_header (value_column brand task slot) = None.
Proof.
  intros Hb Ht Hs Hend. unfold match_attr_header, value_column.
  change (strip_prefix "hATTR_" ("hATTR_" ++ brand ++ "_" ++ task ++ "c" ++ slot))
    with (Some (brand ++ String "_"%char (task ++ String "c"%char slot))%string).
  pose proof Hb as Hb'. unfold is_brand in Hb'. apply andb_prop in Hb'.
  destruct Hb' as [_ Hchars].
  destruct (rest_split brand task slot Hchars Ht Hs) as [-> ->].
  cbv zeta. unfold endswith in Hend. cbn [String.length] in Hend.
  now rewrite Hend.
Qed.

Lemma get_upsert_str {V : Type} (k : string) (dflt : V) (f : V -> V) (d : dict V) :
  get (upsert_str k dflt f d) k = Some (f (get_default d k dflt)).
Proof.
  unfold get_default. induction d as [|[k' v] d IH]; cbn [upsert_str get].
  - now rewrite String.eqb_refl.
  - destruct (String.eqb k' k) eqn:E; cbn [get]; rewrite E; [reflexivity | exact IH].
Qed.

Lemma get_upsert_nat {V : Type} (k : nat) (dflt : V) (f : V -> V) (d : list (nat * V)) :
  get_nat (upsert_nat k dflt f d) k
  = Some (f (match get_nat d k with Some v => v | None => dflt end)).
Proof.
  induction d as [|[k' v] d IH]; cbn [upsert_nat get_nat].
  - now rewrite Nat.eqb_refl.
  - destruct (Nat.eqb k' k) eqn:E; cbn [get_nat]; rewrite E; [reflexivity | exact IH].
Qed.

Lemma lookup_update_slot (brand : string) (task slot : nat)
  (f : SlotEntry -> SlotEntry) (brand_columns : BrandMap) :
  lookup_slot (update_slot brand task slot f brand_columns) brand task slot
  = Some (f (slot_or_empty (lookup_slot brand_columns brand task slot))).
Proof.
  unfold lookup_slot, update_slot, get_default at 1.
  rewrite get_upsert_str, get_upsert_nat. cbn [some_slots].
  rewrite get_upsert_nat. unfold slot_or_empty, some_slots, get_default.
  destruct (get brand_columns brand) as [tasks|]; [|reflexivity].
  destruct (get_nat tasks task) as [slots|]; reflexivity.
Qed.

(** X21. Columns named by the convention of the export are recognised.
    For a brand over [[A-Z0-9_]] and numbers written in digits: [QC1_task]
    is a choice column; [hATTR_brand_H_taskcslot] is read as the header
    column and [hATTR_brand_taskcslot], when the brand does not end in [_H],
    as the value column of that brand, task and slot; and after the indexing
    step for such a column, the entry looked up under the brand, the task
    number and the slot number names the column, as header or as value,
    and keeps the other field it had. *)
Theorem export_columns_are_indexed
  (brand task slot : string) (brand_columns : BrandMap) :
  is_brand brand = true -> is_digits task = true -> is_digits slot = true ->
  endswith brand "_H" = false ->
  let old := slot_or_empty (lookup_slot brand_columns brand
                              (nat_of_digits task) (nat_of_digits slot)) in
  is_choice_col (choice_column task) = true /\
  match_attr_header (header_column brand task slot) = Some (brand, task, slot) /\
  match_attr_value (value_column brand task slot) = Some (brand, task, slot) /\
  lookup_slot (index_column brand_columns (header_column brand task slot))
              brand (nat_of_digits task) (nat_of_digits slot)
  = Some {| slot_header := Some (header_column brand task slot);
            slot_value := slot_value old |} /\
  lookup_slot (index_column brand_columns (value_column brand task slot))
              brand (nat_of_digits task) (nat_of_digits slot)
  = Some {| slot_header := slot_header old;
            slot_value := Some (value_column brand task slot) |}.
Proof.
  intros Hb Ht Hs Hend old.
  pose proof Hb as Hb'. unfold is_brand in Hb'. apply andb_prop in Hb'.
  destruct Hb' as [_ Hchars].
  split; [|split; [|split; [|split]]].
  - unfold is_choice_col, choice_column.
    change (strip_prefix "QC1_" ("QC1_" ++ task)) with (Some task).
    cbv beta iota. rewrite chomp_fixed; [exact Ht|].
    exact (all_chars_impl _ _ task (digit_not_char "010"%char eq_refl) (digits_chars task Ht)).
  - now apply match_attr_header_column.
  - now apply match_attr_value_column.
  - unfold index_column. rewrite (match_attr_header_column brand task slot Hb Ht Hs).
    rewrite (upper_fixed brand Hchars). now rewrite lookup_update_slot.
  - unfold index_column.
    rewrite (match_attr_header_value_column brand task slot Hb Ht Hs Hend),
      (match_attr_value_column brand task slot Hb Ht Hs).
    cbv zeta. rewrite (upper_fixed brand Hchars), Hend. now rewrite lookup_update_slot.
Qed.

Lemma export_columns_witness :
  is_choice_col (choice_column "12") = true /\
  match_attr_header (header_column "BRAND_A" "12" "3") = Some ("BRAND_A", "12", "3") /\
  match_attr_value (value_column "BRAND_A" "12" "3") = Some ("BRAND_A", "12", "3") /\
  lookup_slot (index_column [] (header_column "BRAND_A" "12" "3")) "BRAND_A" 12 3
  = Some {| slot_header := Some "hATTR_BRAND_A_H_12c3"; slot_value := None |} /\
  lookup_slot (index_column [] (value_column "BRAND_A" "12" "3")) "BRAND_A" 12 3
  = Some {| slot_header := None; slot_value := Some "hATTR_BRAND_A_12c3" |}.
Proof.
  apply (export_columns_are_indexed "BRAND_A" "12" "3" []); reflexivity.
Defined.

(** A value column whose brand ends in [_H] is taken for the header column
    of the brand without that ending. *)
Example value_column_of_brand_ending_in_H :
  index_column [] (value_column "TV_H" "1" "2")
  = [("TV", [(1, [(2, {| slot_header := Some "hATTR_TV_H_1c2"; slot_value := None |})])])].
Proof. reflexivity. Qed.

End ColumnNames.

(* ------------------------------------------------------------------ *)
(** ** The command-line tool against the service *)

Module CliMirror.

Import DesignMatrix Estimator Endpoints.

(** A solver result whose log-likelihood is not a number. *)
Definition nan_solver (_ : unit) (method : string) (_ : nat) : result FitResult :=
  Ok {| res_params := [("const", 0.25%float); ("Price__Low", nan)];
        res_llf := Some nan;
        res_llnull := Some (-2.75)%float;
        res_aic := None;
        res_bic := None;
        res_prsquared := None;
        res_converged := Some false;
        res_iterations := Some 100%Z;
        res_method := Some method |}.

(** The long table of [valid_workbook]. *)
Definition price_choices : DataFrame :=
  {| df_columns := ["resp_id"; "task_id"; "alt_id"; "chosen"; "Price"];
     df_rows := [[CInt 1; CInt 1; CInt 1; CInt 1; CStr "Low"];
                 [CInt 1; CInt 1; CInt 2; CInt 0; CStr "High"]] |}.

Lemma fit_with_fallback_success (Model : Type)
  (fit : Model -> string -> nat -> result FitResult)
  (both_failed both_failed' : string -> string -> string) (model : Model)
  (res : FitResult) :
  snd (fit_with_fallback Model fit both_failed model []) = Ok res ->
  snd (fit_with_fallback Model fit both_failed' model []) = Ok res.
Proof.
  rewrite !fit_with_fallback_runs.
  destruct (fit model "newton" 100); [tauto|].
  destruct (fit model "bfgs" 200); [tauto | discriminate].
Qed.

Lemma app_response_is_cli_response (X : Frame) (attributes_schema : list AttributeDef)
  (res : FitResult) (resp : EstimateResponse) :
  app_response X attributes_schema res = Ok resp ->
  cli_response X attributes_schema res = resp.
Proof.
  unfold app_response, cli_response.
  destruct (res_llf res) as [ll|]; [|discriminate].
  destruct (is_nan ll || is_infinity ll); [discriminate|].
  intros E. inversion E. reflexivity.
Qed.

(** X22. The command-line tool mirrors the service: whenever the
    estimation block of [estimate_from_survey_export] returns a response for
    a long table and a schema (with the choice column [chosen]),
    [_fit_mnlogit] returns the same intercept, utilities, columns, schema
    and diagnostics for them. (The payload of the tool also carries a
    constant empty list of warnings, which the response record leaves
    out.) *)
Theorem cli_returns_what_the_service_returns
  (Model : Type) (MNLogit : list Z -> Frame -> result Model)
  (fit : Model -> string -> nat -> result FitResult)
  (df_long : DataFrame) (attributes_schema : list AttributeDef)
  (resp : EstimateResponse) :
  estimation_stage Model MNLogit fit [("attributes_schema", attributes_schema)]
                   df_long "chosen" = Ok resp ->
  _fit_mnlogit Model MNLogit fit df_long attributes_schema = Ok resp.
Proof.
  unfold estimation_stage, _fit_mnlogit, lookup_name. cbn [get String.eqb Ascii.eqb Bool.eqb].
  destruct (dropna df_long "chosen") as [df|e]; [|discriminate]. cbn [bind].
  destruct (Nat.eqb (List.length (df_rows df)) 0); [discriminate|].
  destruct (astype_int (column df "chosen")) as [y|e]; [|discriminate]. cbn [bind].
  destruct (build_design_matrix df attributes_schema) as [X|e]; [|discriminate]. cbn [bind].
  destruct (MNLogit y X) as [model|e]; [|discriminate]. cbn [bind].
  destruct (snd (fit_with_fallback Model fit app_both_failed model [])) as [res|e] eqn:Hfit;
    [|discriminate].
  rewrite (fit_with_fallback_success Model fit app_both_failed cli_both_failed model res Hfit).
  cbn [bind rewrap].
  destruct (app_response X attributes_schema res) as [resp'|e] eqn:Hresp; [|discriminate].
  cbn [rewrap]. intros E. inversion E. subst resp'.
  now rewrite (app_response_is_cli_response X attributes_schema res resp Hresp).
Qed.

Lemma cli_mirror_witness :
  _fit_mnlogit unit (fun _ _ => Ok tt) constant_solver price_choices [price_attr]
  = Ok {| intercept := 0.25%float;
          utilities := [("Price", [("Low", 0.5%float); ("Medium", (-0.125)%float)])];
          columns := ["const"; "Price__Low"; "Price__Medium"];
          schema := [price_attr];
          diagnostics :=
            {| converged := true; iterations := 6%Z; method := Some "newton";
               n_observations := 2; n_parameters := 3;
               log_likelihood := Some (-2.5)%float;
               null_log_likelihood := Some (-2.75)%float;
               aic := Some 11%float; bic := Some 9.5%float;
               pseudo_r2 := Some (Some 0.125%float) |} |}.
Proof.
  apply (cli_returns_what_the_service_returns unit (fun _ _ => Ok tt) constant_solver
           price_choices [price_attr]).
  vm_compute. reflexivity.
Defined.

(** The converse does not hold: on a log-likelihood that is not a number
    the service refuses the fit, and the command-line tool returns it. *)
Example cli_returns_what_the_service_refuses :
  estimation_stage unit (fun _ _ => Ok tt) nan_solver
    [("attributes_schema", [price_attr])] price_choices "chosen"
  = Raise (HTTPException 400 ("Estimation failed: " ++ numerical_issues_message)) /\
  is_ok (_fit_mnlogit unit (fun _ _ => Ok tt) nan_solver price_choices [price_attr]) = true.
Proof. split; vm_compute; reflexivity. Qed.

End CliMirror.
